(** * Healthcare chatbot front-ends: a shallow embedding

    Two Python front-ends ([app_gradio.py], [app_streamlit.py]) talk to a
    prediction service over HTTP.  This development embeds their helper
    functions and event handlers and proves what they do.

    Python values are modelled as follows.
    - [str] is a sequence of Unicode code points ([pystr]); literals of the
      source are written as UTF-8 text and decoded by [py].
    - JSON documents (what [r.json()] returns) are the inductive [json];
      a [dict] is an association list in insertion order, with unique keys.
    - An exception is a record with its class name, which of
      [requests.exceptions.RequestException], [Exception] and
      [BaseException] it derives from, and its [str()].
    - The network, the clock and [st.session_state] are the only effects;
      code that uses them is written in the small monad [prog] and
      interpreted against a [world].  Within one run of a handler the
      backend answers as a function of the request; two runs may face two
      worlds.
    - [requests] is taken as of version 2.27 or later, where a body on
      which the decoder raises [JSONDecodeError] makes [r.json()] raise a
      [RequestException]; any other exception of the decoder passes
      through [r.json()] unchanged.
    - The types pandas picks for the columns of a frame, and whether the
      installed [gr.Chatbot] takes [(user, bot)] pairs, are parameters:
      what is proved holds for each of their values.
    - [top_k] is an [int] (the slider's value), so [int(top_k)] is the
      identity.
    - What the Streamlit script displays is the list of the calls it makes
      to Streamlit, in order ([StreamlitView]); the Gradio page is the
      record of its component values, stepped by its events. *)

From Stdlib Require Import List NArith ZArith Bool Ascii String Lia Floats.
From Stdlib Require Import Numbers.DecimalString.
Import ListNotations.
Open Scope list_scope.

Set Implicit Arguments.
Set Warnings "-register-all".

(* ================================================================= *)
(** ** Python strings *)

Module PyStr.

Definition codepoint := N.
Definition pystr := list codepoint.

(** UTF-8 decoder for the literals of the source files: [pending] counts the
    continuation bytes still expected, [acc] holds the bits read so far. *)
Fixpoint utf8_go (pending : nat) (acc : N) (bs : list N) : pystr :=
  match bs with
  | [] => []
  | b :: bs' =>
      match pending with
      | O =>
          if (b <? 128)%N then b :: utf8_go 0 0%N bs'
          else if (b <? 224)%N then utf8_go 1 (b - 192)%N bs'
          else if (b <? 240)%N then utf8_go 2 (b - 224)%N bs'
          else utf8_go 3 (b - 240)%N bs'
      | S O => (acc * 64 + (b - 128))%N :: utf8_go 0 0%N bs'
      | S p => utf8_go p (acc * 64 + (b - 128))%N bs'
      end
  end.

Definition py (s : string) : pystr :=
  utf8_go 0 0%N (List.map N_of_ascii (list_ascii_of_string s)).

(** [str.isspace] on one code point (CPython's [_PyUnicode_IsWhitespace]). *)
Definition isspace (c : codepoint) : bool :=
  ((9 <=? c) && (c <=? 13) || (28 <=? c) && (c <=? 32)
   || (c =? 133) || (c =? 160) || (c =? 5760)
   || (8192 <=? c) && (c <=? 8202)
   || (c =? 8232) || (c =? 8233) || (c =? 8239) || (c =? 8287)
   || (c =? 12288))%N.

Fixpoint drop_while (p : codepoint -> bool) (s : pystr) : pystr :=
  match s with
  | [] => []
  | c :: t => if p c then drop_while p t else s
  end.

Definition lstrip_by (p : codepoint -> bool) (s : pystr) : pystr :=
  drop_while p s.

Definition rstrip_by (p : codepoint -> bool) (s : pystr) : pystr :=
  rev (drop_while p (rev s)).

(** [s.strip()] *)
Definition strip (s : pystr) : pystr := rstrip_by isspace (lstrip_by isspace s).

(** [s.rstrip(chars)] *)
Definition rstrip_chars (chars s : pystr) : pystr :=
  rstrip_by (fun c => existsb (N.eqb c) chars) s.

(** [sep.join(items)] on a list of strings *)
Fixpoint join (sep : pystr) (items : list pystr) : pystr :=
  match items with
  | [] => []
  | [x] => x
  | x :: rest => x ++ sep ++ join sep rest
  end.

(** [str(n)] for an [int] *)
Definition str_of_int (n : Z) : pystr :=
  py (NilZero.string_of_int (Z.to_int n)).

(** [html.escape(s)] with the default [quote=True] *)
Definition escape_cp (c : codepoint) : pystr :=
  if (c =? 38)%N then py "&amp;"
  else if (c =? 60)%N then py "&lt;"
  else if (c =? 62)%N then py "&gt;"
  else if (c =? 34)%N then py "&quot;"
  else if (c =? 39)%N then py "&#x27;"
  else [c].

Definition html_escape (s : pystr) : pystr := flat_map escape_cp s.

(** [needle in hay] *)
Definition contains (needle hay : pystr) : Prop :=
  exists pre post, hay = pre ++ needle ++ post.

Definition first_cp (s : pystr) : option codepoint := hd_error s.
Definition last_cp (s : pystr) : option codepoint := hd_error (rev s).

Definition starts_with_space (s : pystr) : bool :=
  match first_cp s with Some c => isspace c | None => false end.
Definition ends_with_space (s : pystr) : bool :=
  match last_cp s with Some c => isspace c | None => false end.
Definition ends_with_slash (s : pystr) : bool :=
  match last_cp s with Some c => (c =? 47)%N | None => false end.

(** The double quote, which the literals below cannot contain directly. *)
Definition dq : pystr := [34%N].

End PyStr.
Import PyStr.

Arguments py : simpl never.
Arguments str_of_int : simpl never.

(* ================================================================= *)
(** ** Python values, exceptions and effects *)

Module Py.

(** What [json.loads] produces: [None], [bool], [int], [float], [str],
    [list], and [dict] (insertion-ordered, keys are strings). *)
Inductive json : Type :=
| JNull
| JBool (b : bool)
| JInt (n : Z)
| JFloat (f : float)
| JStr (s : pystr)
| JArr (items : list json)
| JObj (fields : list (pystr * json)).

Definition dict := list (pystr * json).

Fixpoint str_eqb (a b : pystr) : bool :=
  match a, b with
  | [], [] => true
  | x :: a', y :: b' => (x =? y)%N && str_eqb a' b'
  | _, _ => false
  end.

Fixpoint dict_lookup (key : pystr) (d : dict) : option json :=
  match d with
  | [] => None
  | (k, v) :: rest => if str_eqb k key then Some v else dict_lookup key rest
  end.

(** [d.get(key, default)] *)
Definition dict_get (d : dict) (key : pystr) (default : json) : json :=
  match dict_lookup key d with Some v => v | None => default end.

(** [bool(x)] *)
Definition truthy (x : json) : bool :=
  match x with
  | JNull => false
  | JBool b => b
  | JInt n => negb (n =? 0)%Z
  | JFloat f => negb (PrimFloat.eqb f 0%float)
  | JStr s => match s with [] => false | _ => true end
  | JArr items => match items with [] => false | _ => true end
  | JObj fields => match fields with [] => false | _ => true end
  end.

(** [a or b] *)
Definition py_or (a b : json) : json := if truthy a then a else b.

(** [type(x).__name__] *)
Definition type_name (x : json) : pystr :=
  match x with
  | JNull => py "NoneType"
  | JBool _ => py "bool"
  | JInt _ => py "int"
  | JFloat _ => py "float"
  | JStr _ => py "str"
  | JArr _ => py "list"
  | JObj _ => py "dict"
  end.

(** The three ancestries the handlers of the source tell apart:
    [except requests.exceptions.RequestException], [except Exception], and
    what neither catches (Streamlit's rerun signal derives from
    [BaseException] only). *)
Inductive exc_base := BaseOnly | PlainException | RequestException.

Record py_exception := mk_exc {
  exc_name : pystr;      (* type(e).__name__ *)
  exc_base_of : exc_base;
  exc_text : pystr       (* str(e) *)
}.

Definition is_Exception (e : py_exception) : bool :=
  match exc_base_of e with BaseOnly => false | _ => true end.
Definition is_RequestException (e : py_exception) : bool :=
  match exc_base_of e with RequestException => true | _ => false end.

Definition AttributeError (text : pystr) := mk_exc (py "AttributeError") PlainException text.
Definition TypeError (text : pystr) := mk_exc (py "TypeError") PlainException text.
Definition ValueError (text : pystr) := mk_exc (py "ValueError") PlainException text.
Definition IndexError (text : pystr) := mk_exc (py "IndexError") PlainException text.
Definition KeyError (text : pystr) := mk_exc (py "KeyError") PlainException text.

Inductive result (A : Type) : Type :=
| Ok (a : A)
| Raise (e : py_exception).
Arguments Ok {A} a.
Arguments Raise {A} e.

(** [x.get(key, default)] on a value that may not be a [dict] *)
Definition py_get (x : json) (key : pystr) (default : json) : result json :=
  match x with
  | JObj d => Ok (dict_get d key default)
  | _ => Raise (AttributeError
                  (py "'" ++ type_name x ++ py "' object has no attribute 'get'"))
  end.

(** [iter(x)]: the items a [for] loop or a comprehension visits *)
Definition py_iter (x : json) : result (list json) :=
  match x with
  | JArr items => Ok items
  | JStr s => Ok (List.map (fun c => JStr [c]) s)
  | JObj d => Ok (List.map (fun kv => JStr (fst kv)) d)
  | _ => Raise (TypeError (py "'" ++ type_name x ++ py "' object is not iterable"))
  end.

(** The items of [sep.join(...)] must all be [str]. *)
Fixpoint join_items (i : Z) (items : list json) : result (list pystr) :=
  match items with
  | [] => Ok []
  | JStr s :: rest =>
      match join_items (i + 1) rest with
      | Ok l => Ok (s :: l)
      | Raise e => Raise e
      end
  | x :: _ =>
      Raise (TypeError (py "sequence item " ++ str_of_int i
                          ++ py ": expected str instance, " ++ type_name x
                          ++ py " found"))
  end.

(** [sep.join(x)] *)
Definition str_join (sep : pystr) (x : json) : result pystr :=
  match py_iter x with
  | Ok items =>
      match join_items 0 items with
      | Ok l => Ok (join sep l)
      | Raise e => Raise e
      end
  | Raise _ => Raise (TypeError (py "can only join an iterable"))
  end.

(** [lst[-1] = x] *)
Definition set_last {A : Type} (l : list A) (x : A) : result (list A) :=
  match l with
  | [] => Raise (IndexError (py "list assignment index out of range"))
  | _ => Ok (removelast l ++ [x])
  end.

(** *** HTTP through [requests] *)

Inductive http_method := GET | POST.

Record http_request := mk_request {
  rq_method : http_method;
  rq_url : pystr;
  rq_json : option json;   (* the [json=] argument *)
  rq_timeout : Z           (* seconds *)
}.

(** The body as [r.json()] sees it: [json.loads] returns a value, raises
    [JSONDecodeError], or raises something else (a [RecursionError] on a
    body nested too deep, a [ValueError] on an integer literal longer than
    the interpreter's digit limit). *)
Inductive json_body :=
| Decoded (j : json)
| NotJson (msg : pystr)
| DecoderRaises (name text : pystr).

Record http_response := mk_response {
  status_code : Z;
  reason : pystr;
  resp_url : pystr;
  body : json_body
}.

(** A request either yields a response or fails in the transport; the
    transport raises ordinary exceptions only, a [RequestException] when
    [is_request] holds. *)
Inductive http_outcome :=
| Responded (r : http_response)
| Failed (name : pystr) (is_request : bool) (text : pystr).

Definition transport_error (name : pystr) (is_request : bool) (text : pystr) : py_exception :=
  mk_exc name (if is_request then RequestException else PlainException) text.

(** [r.raise_for_status()] *)
Definition raise_for_status (r : http_response) : result unit :=
  let c := status_code r in
  if ((400 <=? c) && (c <? 500))%Z then
    Raise (mk_exc (py "HTTPError") RequestException
             (str_of_int c ++ py " Client Error: " ++ reason r
                ++ py " for url: " ++ resp_url r))
  else if ((500 <=? c) && (c <? 600))%Z then
    Raise (mk_exc (py "HTTPError") RequestException
             (str_of_int c ++ py " Server Error: " ++ reason r
                ++ py " for url: " ++ resp_url r))
  else Ok tt.

(** [r.json()] wraps a [JSONDecodeError] of the decoder in
    [requests.exceptions.JSONDecodeError], which derives from
    [RequestException] (requests 2.27 and later); any other exception of
    the decoder passes through as it is, an ordinary exception. *)
Definition response_json (r : http_response) : result json :=
  match body r with
  | Decoded j => Ok j
  | NotJson msg => Raise (mk_exc (py "JSONDecodeError") RequestException msg)
  | DecoderRaises name text => Raise (mk_exc name PlainException text)
  end.

(** *** Programs with effects

    [S] is the type of the mutable state a program can reach
    ([st.session_state] for Streamlit, nothing for Gradio). *)
Inductive prog (S A : Type) : Type :=
| Ret (a : A)
| Throw (e : py_exception)
| Http (rq : http_request) (k : http_outcome -> prog S A)
| UtcNow (k : pystr -> prog S A)
| GetState (k : S -> prog S A)
| PutState (s : S) (k : prog S A).
Arguments Ret {S A} a.
Arguments Throw {S A} e.
Arguments Http {S A} rq k.
Arguments UtcNow {S A} k.
Arguments GetState {S A} k.
Arguments PutState {S A} s k.

Fixpoint bind {S A B : Type} (p : prog S A) (f : A -> prog S B) : prog S B :=
  match p with
  | Ret a => f a
  | Throw e => Throw e
  | Http rq k => Http rq (fun o => bind (k o) f)
  | UtcNow k => UtcNow (fun t => bind (k t) f)
  | GetState k => GetState (fun s => bind (k s) f)
  | PutState s k => PutState s (bind k f)
  end.

(** [try: p  except <catches> as e: h e] *)
Fixpoint try_except {S A : Type} (p : prog S A)
         (catches : py_exception -> bool) (h : py_exception -> prog S A) : prog S A :=
  match p with
  | Ret a => Ret a
  | Throw e => if catches e then h e else Throw e
  | Http rq k => Http rq (fun o => try_except (k o) catches h)
  | UtcNow k => UtcNow (fun t => try_except (k t) catches h)
  | GetState k => GetState (fun s => try_except (k s) catches h)
  | PutState s k => PutState s (try_except k catches h)
  end.

Definition lift {S A : Type} (r : result A) : prog S A :=
  match r with Ok a => Ret a | Raise e => Throw e end.

Definition get_state {S : Type} : prog S S := GetState (fun s => Ret s).
Definition put_state {S : Type} (s : S) : prog S unit := PutState s (Ret tt).
Definition modify_state {S : Type} (f : S -> S) : prog S unit :=
  GetState (fun s => PutState (f s) (Ret tt)).

Definition send {S : Type} (rq : http_request) : prog S http_response :=
  Http rq (fun o =>
    match o with
    | Responded r => Ret r
    | Failed name is_request text => Throw (transport_error name is_request text)
    end).

(** [requests.get(url, timeout=t)] *)
Definition requests_get {S : Type} (url : pystr) (timeout : Z) : prog S http_response :=
  send (mk_request GET url None timeout).

(** [requests.post(url, json=payload, timeout=t)] *)
Definition requests_post {S : Type} (url : pystr) (payload : json) (timeout : Z)
  : prog S http_response :=
  send (mk_request POST url (Some payload) timeout).

(** [datetime.utcnow().isoformat()] *)
Definition utcnow_isoformat {S : Type} : prog S pystr := UtcNow (fun t => Ret t).

(** The environment a handler runs in: how the backend answers each request
    and what the clock reads. *)
Record world := {
  backend : http_request -> http_outcome;
  utcnow : pystr
}.

(** Running a program: the final state, the value returned or the exception
    raised, and the requests handed to [requests], in order. *)
Fixpoint run {S A : Type} (w : world) (s : S) (p : prog S A)
  : S * result A * list http_request :=
  match p with
  | Ret a => (s, Ok a, [])
  | Throw e => (s, Raise e, [])
  | Http rq k =>
      let '(s', r, t) := run w s (k (backend w rq)) in (s', r, rq :: t)
  | UtcNow k => run w s (k (utcnow w))
  | GetState k => run w s (k s)
  | PutState s' k => run w s' k
  end.

Definition final_state {S A : Type} (o : S * result A * list http_request) : S :=
  fst (fst o).
Definition outcome {S A : Type} (o : S * result A * list http_request) : result A :=
  snd (fst o).
Definition requests_sent {S A : Type} (o : S * result A * list http_request)
  : list http_request := snd o.

End Py.
Import Py.

Declare Scope prog_scope.
Delimit Scope prog_scope with prog.
Notation "x <- p ;; q" := (bind p (fun x => q))
  (at level 61, p at next level, right associativity) : prog_scope.
Notation "p ;; q" := (bind p (fun _ => q))
  (at level 61, right associativity) : prog_scope.
Open Scope prog_scope.

(* ================================================================= *)
(** ** The part of pandas the front-ends use *)

Module Pandas.

Inductive label := LStr (s : pystr) | LInt (n : Z).

(** A cell holds a value or is missing. *)
Inductive cell := NaN | Val (j : json).

Definition is_name_cell (c : cell) : bool :=
  match c with Val (JStr _) => true | _ => false end.

Definition is_number_cell (c : cell) : bool :=
  match c with Val (JInt _) | Val (JFloat _) => true | _ => false end.

(** Row-major: every row has one cell per column. *)
Record DataFrame := mk_frame {
  columns : list label;
  rows : list (list cell)
}.

Definition label_eqb (a b : label) : bool :=
  match a, b with
  | LStr x, LStr y => str_eqb x y
  | LInt x, LInt y => (x =? y)%Z
  | _, _ => false
  end.

(** [pd.DataFrame(columns=cols)] *)
Definition empty_frame (cols : list pystr) : DataFrame :=
  mk_frame (List.map LStr cols) [].

Fixpoint all_records (items : list json) : option (list dict) :=
  match items with
  | [] => Some []
  | JObj d :: rest =>
      match all_records rest with
      | Some ds => Some (d :: ds)
      | None => None
      end
  | _ :: _ => None
  end.

(** Keys in order of first appearance. *)
Fixpoint add_keys (seen keys : list pystr) : list pystr :=
  match keys with
  | [] => seen
  | k :: rest =>
      if existsb (str_eqb k) seen then add_keys seen rest
      else add_keys (seen ++ [k]) rest
  end.

Definition record_columns (recs : list dict) : list pystr :=
  fold_left (fun seen d => add_keys seen (List.map fst d)) recs [].

(** The value a record has under [k], or the missing cell. *)
Definition record_cell (d : dict) (k : pystr) : cell :=
  match dict_lookup k d with Some v => Val v | None => NaN end.

(** How [pd.DataFrame] stores a column: it picks one type for the column
    from the cells it is given and converts each cell to it (beside a float
    an int becomes a float, beside numbers [None] becomes the missing cell).
    Two cases are fixed in [stored]: a column of strings is stored as it is,
    and in a column of numbers a float is stored as it is and an int as
    that int or as a float.  Which of the two, and what becomes of a cell
    in any other column, are parameters. *)
Record coercion := {
  int_among_numbers : list cell -> Z -> option float;
  cell_among_others : list cell -> cell -> cell
}.

(** What is stored for the cell [c] of the column [col]. *)
Definition stored (k : coercion) (col : list cell) (c : cell) : cell :=
  if forallb is_name_cell col then c
  else if forallb is_number_cell col then
    match c with
    | Val (JInt n) =>
        match int_among_numbers k col n with
        | Some f => Val (JFloat f)
        | None => c
        end
    | _ => c
    end
  else cell_among_others k col c.

(** What is stored for the record [d] under [c], in the column the records
    [recs] make. *)
Definition stored_cell (k : coercion) (recs : list dict) (d : dict) (c : pystr) : cell :=
  stored k (List.map (fun d' => record_cell d' c) recs) (record_cell d c).

Definition frame_of_records (k : coercion) (recs : list dict) : DataFrame :=
  let cols := record_columns recs in
  mk_frame (List.map LStr cols)
    (List.map (fun d => List.map (stored_cell k recs d) cols) recs).

(** [pd.DataFrame(data)].  A list of dicts gives one row per dict and one
    column per key, each column stored as [k] says; a scalar or a string is
    refused; [None] gives the empty frame.  What pandas does with other
    lists and with dicts is left to [other]. *)
Definition DataFrame_of (k : coercion) (other : json -> result DataFrame) (data : json)
  : result DataFrame :=
  match data with
  | JNull => Ok (mk_frame [] [])
  | JBool _ | JInt _ | JFloat _ | JStr _ =>
      Raise (ValueError (py "DataFrame constructor not properly called!"))
  | JArr items =>
      match all_records items with
      | Some recs => Ok (frame_of_records k recs)
      | None => other data
      end
  | JObj _ => other data
  end.

(** [l in df.columns] *)
Definition has_column (l : label) (df : DataFrame) : bool :=
  existsb (label_eqb l) (columns df).

(** [df[l] = v] for a scalar [v] *)
Definition set_column (l : label) (v : cell) (df : DataFrame) : DataFrame :=
  if has_column l df then
    mk_frame (columns df)
      (List.map (fun r =>
         List.map (fun cx => if label_eqb (fst cx) l then v else snd cx)
                  (combine (columns df) r)) (rows df))
  else
    mk_frame (columns df ++ [l]) (List.map (fun r => r ++ [v]) (rows df)).

Definition cells_of (l : label) (cols : list label) (r : list cell) : list cell :=
  List.map snd (filter (fun cx => label_eqb l (fst cx)) (combine cols r)).

(** [df[ls]] for a list of labels: every column carrying a requested label,
    in the order requested; a label that is missing is a [KeyError] (its
    message is abbreviated here). *)
Definition select (ls : list label) (df : DataFrame) : result DataFrame :=
  if forallb (fun l => has_column l df) ls then
    Ok (mk_frame
          (flat_map (fun l => filter (label_eqb l) (columns df)) ls)
          (List.map (fun r => flat_map (fun l => cells_of l (columns df) r) ls)
                    (rows df)))
  else Raise (KeyError (py "not in index")).

End Pandas.
Import Pandas.

(* ================================================================= *)
(** ** Library behaviour left open *)

(** [str()] of floats and of containers, [float()] of ints, bools and
    strings, [pd.DataFrame] on input that is neither a scalar nor a list of
    dicts, and the types pandas picks for the columns of a list of dicts
    are parameters of the model. *)
Record runtime := {
  str_other : json -> pystr;
  float_other : json -> result float;
  frame_other : json -> result DataFrame;
  frame_coercion : coercion
}.

(** [str(x)], which is also what an f-string field [{x}] inserts *)
Definition py_str (rt : runtime) (x : json) : pystr :=
  match x with
  | JStr s => s
  | JNull => py "None"
  | JBool true => py "True"
  | JBool false => py "False"
  | JInt n => str_of_int n
  | _ => str_other rt x
  end.

(** [float(x)]; a failed conversion raises an ordinary exception
    ([ValueError], [OverflowError]). *)
Definition py_float (rt : runtime) (x : json) : result float :=
  match x with
  | JFloat f => Ok f
  | JNull | JArr _ | JObj _ =>
      Raise (TypeError (py "float() argument must be a string or a real number, not '"
                          ++ type_name x ++ py "'"))
  | _ =>
      match float_other rt x with
      | Ok f => Ok f
      | Raise e => Raise (mk_exc (exc_name e) PlainException (exc_text e))
      end
  end.

(** [float(n)] for an int smaller than 2^63 in size. *)
Definition float_of_small (n : Z) : float :=
  if (n <? 0)%Z then PrimFloat.opp (PrimFloat.of_uint63 (Uint63.of_Z (- n)))
  else PrimFloat.of_uint63 (Uint63.of_Z n).

Definition is_int_cell (c : cell) : bool :=
  match c with Val (JInt _) => true | _ => false end.

Definition is_numeric_or_missing (c : cell) : bool :=
  match c with
  | NaN | Val JNull | Val (JInt _) | Val (JFloat _) => true
  | _ => false
  end.

(** The columns pandas makes of small numbers: ints alone stay ints; ints
    beside a float, a missing cell or [None] become floats, and [None]
    beside a number becomes the missing cell; any other column is stored as
    it is. *)
Definition small_numbers : coercion :=
  {| int_among_numbers := fun col n =>
       if forallb is_int_cell col then None else Some (float_of_small n);
     cell_among_others := fun col c =>
       if forallb is_numeric_or_missing col && existsb is_number_cell col then
         match c with
         | Val (JInt n) => Val (JFloat (float_of_small n))
         | Val JNull => NaN
         | _ => c
         end
       else c |}.

(** A runtime to run examples with. *)
Definition plain_runtime : runtime :=
  {| str_other := fun _ => py "?";
     float_other := fun _ => Raise (mk_exc (py "ValueError") PlainException (py "?"));
     frame_other := fun _ => Raise (mk_exc (py "ValueError") PlainException (py "?"));
     frame_coercion := small_numbers |}.

(** [int(n)] for an [int] *)
Definition py_int (n : Z) : Z := n.

(** [pd.DataFrame(data)] *)
Definition pd_DataFrame (rt : runtime) (data : json) : result DataFrame :=
  DataFrame_of (frame_coercion rt) (frame_other rt) data.

Definition nl : pystr := [10%N].
Definition lines (ls : list pystr) : pystr := join nl ls.

Definition is_empty (s : pystr) : bool :=
  match s with [] => true | _ => false end.

(** [s or ""] for an optional string *)
Definition or_empty (s : option pystr) : pystr :=
  match s with Some t => t | None => py "" end.

(** [f"{s}"] for an optional string *)
Definition fmt_opt (s : option pystr) : pystr :=
  match s with Some t => t | None => py "None" end.

(* ================================================================= *)
(** ** app_gradio.py *)

Module Gradio.

(** [(url or "").strip().rstrip("/")] *)
Definition _norm_base (url : option pystr) : pystr :=
  rstrip_chars (py "/") (strip (or_empty url)).

Definition ping {S : Type} (api_base : option pystr) : prog S (bool * pystr) :=
  let api_base := _norm_base api_base in
  if is_empty api_base then Ret (false, py "URL vide")
  else
    try_except
      (r <- requests_get (api_base ++ py "/health") 2 ;;
       if (status_code r =? 200)%Z then Ret (true, py "Connecté")
       else Ret (false, py "Réponse backend: " ++ str_of_int (status_code r)))
      is_Exception
      (fun e => Ret (false, py "Indisponible (" ++ exc_name e ++ py ")")).

Definition post_predict {S : Type} (api_base : option pystr) (text : pystr) (top_k : Z)
  : prog S json :=
  let api_base := _norm_base api_base in
  let payload := JObj [(py "text", JStr text); (py "top_k", JInt (py_int top_k))] in
  r <- requests_post (api_base ++ py "/predict") payload 20 ;;
  lift (raise_for_status r) ;;
  lift (response_json r).

Definition tags_html (rt : runtime) (items : json) (variant : pystr) : result pystr :=
  if negb (truthy items) then Ok (py "<span class='muted'>—</span>")
  else
    let cls := if str_eqb variant (py "tag") then py "tag" else py "tag tag2" in
    match py_iter items with
    | Raise e => Raise e
    | Ok xs =>
        let safe := List.map (fun x => html_escape (py_str rt x)) xs in
        Ok (py "<div class='tags'>"
              ++ join (py "")
                   (List.map (fun x => py "<span class='" ++ cls ++ py "'>" ++ x
                                         ++ py "</span>") safe)
              ++ py "</div>")
    end.

Definition status_badge (ok : bool) (msg : pystr) : pystr :=
  let dot := if ok then py "dot-ok" else py "dot-bad" in
  let safe_msg := html_escape msg in
  lines
    [ [];
      py "    <div class=" ++ dq ++ py "badge" ++ dq ++ py ">";
      py "      <span class=" ++ dq ++ py "dot " ++ dot ++ dq ++ py "></span>";
      py "      <b>Statut</b> : " ++ safe_msg;
      py "    </div>";
      py "    " ].

Definition hero_block (ok : bool) (msg : pystr) (top_k : Z) : pystr :=
  lines
    [ [];
      py "    <div class=" ++ dq ++ py "hero" ++ dq ++ py ">";
      py "      <div class=" ++ dq ++ py "hero-title" ++ dq ++ py ">Chatbot Santé — Interface Utilisateur</div>";
      py "      <div class=" ++ dq ++ py "hero-sub" ++ dq ++ py ">";
      py "        Salut ! Je suis votre <b>assistant de santé</b>.";
      py "        Décrivez vos symptômes et je vous proposerai une piste probable ainsi que des conseils.";
      py "      </div>";
      py "      <div class=" ++ dq ++ py "badges" ++ dq ++ py ">";
      py "        " ++ status_badge ok msg;
      py "        <div class=" ++ dq ++ py "badge" ++ dq ++ py "><b>Mode</b> : Chat + Top-" ++ str_of_int (py_int top_k) ++ py "</div>";
      py "      </div>";
      py "    </div>";
      py "    " ].

Definition build_details_html {S : Type} (rt : runtime) (data : json) : prog S pystr :=
  primary0 <- lift (py_get data (py "primary_disease") (JStr (py "—"))) ;;
  let primary := html_escape (py_str rt primary0) in
  specialist0 <- lift (py_get data (py "specialist") (JStr (py "—"))) ;;
  let specialist := html_escape (py_str rt specialist0) in
  found0 <- lift (py_get data (py "found_symptoms") (JArr [])) ;;
  let found := py_or found0 (JArr []) in
  precautions0 <- lift (py_get data (py "precautions") (JArr [])) ;;
  let precautions := py_or precautions0 (JArr []) in
  typical0 <- lift (py_get data (py "typical_symptoms") (JArr [])) ;;
  let typical := py_or typical0 (JArr []) in
  precautions_html <-
    (if truthy precautions then
       ps <- lift (py_iter precautions) ;;
       Ret (py "<ul>"
              ++ join (py "")
                   (List.map (fun p => py "<li>" ++ html_escape (py_str rt p)
                                         ++ py "</li>") ps)
              ++ py "</ul>")
     else Ret (py "<span class='muted'>—</span>")) ;;
  found_html <- lift (tags_html rt found (py "tag")) ;;
  typical_html <- lift (tags_html rt typical (py "tag2")) ;;
  now <- utcnow_isoformat ;;
  Ret (lines
    [ [];
      py "    <div class=" ++ dq ++ py "card" ++ dq ++ py ">";
      py "      <div class=" ++ dq ++ py "grid" ++ dq ++ py ">";
      py "        <div>";
      py "          <div class=" ++ dq ++ py "k" ++ dq ++ py ">Maladie probable</div>";
      py "          <div class=" ++ dq ++ py "v big" ++ dq ++ py ">" ++ primary ++ py "</div>";
      py "        </div>";
      py "        <div>";
      py "          <div class=" ++ dq ++ py "k" ++ dq ++ py ">Spécialiste conseillé</div>";
      py "          <div class=" ++ dq ++ py "v" ++ dq ++ py ">" ++ specialist ++ py "</div>";
      py "        </div>";
      py "      </div>";
      [];
      py "      <div class=" ++ dq ++ py "section" ++ dq ++ py ">";
      py "        <div class=" ++ dq ++ py "k" ++ dq ++ py ">Symptômes détectés</div>";
      py "        " ++ found_html;
      py "      </div>";
      [];
      py "      <div class=" ++ dq ++ py "section" ++ dq ++ py ">";
      py "        <div class=" ++ dq ++ py "k" ++ dq ++ py ">Précautions</div>";
      py "        " ++ precautions_html;
      py "      </div>";
      [];
      py "      <div class=" ++ dq ++ py "section" ++ dq ++ py ">";
      py "        <div class=" ++ dq ++ py "k" ++ dq ++ py ">Symptômes fréquents</div>";
      py "        " ++ typical_html;
      py "      </div>";
      [];
      py "      <div class=" ++ dq ++ py "foot muted" ++ dq ++ py ">Horodatage: " ++ html_escape (now ++ py "Z") ++ py "</div>";
      py "    </div>";
      py "    " ]).

Definition df_columns : list pystr := [py "disease"; py "probability"].

Definition predictions_to_df (rt : runtime) (data : json) : result DataFrame :=
  match py_get data (py "predictions") (JArr []) with
  | Raise e => Raise e
  | Ok preds0 =>
      let preds := py_or preds0 (JArr []) in
      if negb (truthy preds) then Ok (empty_frame df_columns)
      else
        match pd_DataFrame rt preds with
        | Raise e => Raise e
        | Ok df =>
            let df := if negb (has_column (LStr (py "disease")) df)
                      then set_column (LStr (py "disease")) (Val (JStr (py ""))) df
                      else df in
            let df := if negb (has_column (LStr (py "probability")) df)
                      then set_column (LStr (py "probability")) (Val JNull) df
                      else df in
            select [LStr (py "disease"); LStr (py "probability")] df
        end
  end.

(** One [(user, bot)] pair of the chatbot history. *)
Definition turn : Type := pystr * pystr.

Definition on_test {S : Type} (api_url : option pystr) (top_k : Z) : prog S (pystr * pystr) :=
  st <- ping api_url ;;
  let '(ok, msg) := st in
  Ret (hero_block ok msg top_k, status_badge ok msg).

Record clear_outputs := {
  c_chatbot : list turn;
  c_history_state : list turn;
  c_last_raw : option json;
  c_details : pystr;
  c_preds_table : DataFrame;
  c_hero : pystr;
  c_status_box : pystr
}.

Definition on_clear {S : Type} (api_url : option pystr) (top_k : Z) : prog S clear_outputs :=
  st <- ping api_url ;;
  let '(ok, msg) := st in
  Ret {| c_chatbot := [];
         c_history_state := [];
         c_last_raw := None;
         c_details := py "";
         c_preds_table := empty_frame df_columns;
         c_hero := hero_block ok msg top_k;
         c_status_box := status_badge ok msg |}.

Record send_outputs := {
  s_user_text : pystr;
  s_chatbot : list turn;
  s_history_state : list turn;
  s_last_raw : option json;
  s_details : pystr;
  s_preds_table : DataFrame
}.

Definition error_text (api_url : option pystr) (e : py_exception) : pystr :=
  py "Je n’arrive pas à contacter le service de prédiction." ++ nl ++ nl
  ++ py "- URL: `" ++ fmt_opt api_url ++ py "`" ++ nl
  ++ py "- Détail: `" ++ exc_text e ++ py "`" ++ nl ++ nl
  ++ py "Vérifie que le backend tourne et que `/health` répond.".

Definition on_send {S : Type} (rt : runtime) (user_text : option pystr)
           (api_url : option pystr) (top_k : Z) (history : option (list turn))
  : prog S send_outputs :=
  let user_text := strip (or_empty user_text) in
  let history := match history with Some h => h | None => [] end in
  if is_empty user_text then
    Ret {| s_user_text := py ""; s_chatbot := history; s_history_state := history;
           s_last_raw := None; s_details := py "";
           s_preds_table := empty_frame df_columns |}
  else
    (* Optimistic UI *)
    let history := history ++ [(user_text, py "…")] in
    try_except
      (data <- post_predict api_url user_text top_k ;;
       primary <- lift (py_get data (py "primary_disease") (JStr (py "—"))) ;;
       found0 <- lift (py_get data (py "found_symptoms") (JArr [])) ;;
       let found := py_or found0 (JArr []) in
       found_str <- (if truthy found then lift (str_join (py ", ") found)
                     else Ret (py "—")) ;;
       let bot_msg := py "**Résultat :** " ++ py_str rt primary ++ nl ++ nl
                      ++ py "**Symptômes détectés :** " ++ found_str in
       history <- lift (set_last history (user_text, bot_msg)) ;;
       details <- build_details_html rt data ;;
       df <- lift (predictions_to_df rt data) ;;
       Ret {| s_user_text := py ""; s_chatbot := history; s_history_state := history;
              s_last_raw := Some data; s_details := details; s_preds_table := df |})
      is_RequestException
      (fun e =>
         let err := error_text api_url e in
         history <- lift (set_last history (user_text, err)) ;;
         Ret {| s_user_text := py ""; s_chatbot := history; s_history_state := history;
                s_last_raw := None; s_details := py "";
                s_preds_table := empty_frame df_columns |}).

(** *** The page: component values and the events wired to them *)

Record app := {
  history_state : list turn;
  hero : pystr;
  api_url : pystr;
  top_k : Z;
  status_box : pystr;
  chatbot : list turn;
  user_text : pystr;
  details : pystr;
  preds_table : DataFrame;
  last_raw : option json
}.

Definition demo : app :=
  {| history_state := [];
     hero := hero_block false (py "Non testé") 3;
     api_url := py "http://localhost:8000";
     top_k := 3;
     status_box := status_badge false (py "Non testé");
     chatbot := [];
     user_text := py "";
     details := py "";
     preds_table := empty_frame df_columns;
     last_raw := None |}.

(** [btn_test.click(on_test, inputs=[api_url, top_k], outputs=[hero, status_box])];
    a handler that raises leaves the page as it was. *)
Definition btn_test_click (w : world) (a : app) : app :=
  match outcome (run w tt (on_test (Some (api_url a)) (top_k a))) with
  | Ok (h, s) =>
      {| history_state := history_state a; hero := h; api_url := api_url a;
         top_k := top_k a; status_box := s; chatbot := chatbot a;
         user_text := user_text a; details := details a;
         preds_table := preds_table a; last_raw := last_raw a |}
  | Raise _ => a
  end.

(** [btn_clear.click(on_clear, inputs=[api_url, top_k],
      outputs=[chatbot, history_state, last_raw, details, preds_table, hero, status_box])] *)
Definition btn_clear_click (w : world) (a : app) : app :=
  match outcome (run w tt (on_clear (Some (api_url a)) (top_k a))) with
  | Ok o =>
      {| history_state := c_history_state o; hero := c_hero o; api_url := api_url a;
         top_k := top_k a; status_box := c_status_box o; chatbot := c_chatbot o;
         user_text := user_text a; details := c_details o;
         preds_table := c_preds_table o; last_raw := c_last_raw o |}
  | Raise _ => a
  end.

(** What the installed [gr.Chatbot] does with a list of [(user, bot)] pairs
    that a handler returns.  Gradio 6, which [launch(css=..., theme=...)]
    asks for, displays messages (dicts with a role and a content) and
    refuses a pair; earlier versions display pairs. *)
Record page_runtime := {
  chatbot_takes_pairs : list turn -> bool
}.

(** A list without pairs holds nothing to refuse. *)
Definition chatbot_accepts (pr : page_runtime) (value : list turn) : bool :=
  match value with
  | [] => true
  | _ => chatbot_takes_pairs pr value
  end.

(** [btn_send.click(on_send, inputs=[user_text, api_url, top_k, history_state],
      outputs=[user_text, chatbot, history_state, last_raw, details, preds_table])];
    when the chatbot refuses the value returned for it the event fails, and
    the page stays as it was, as when the handler raises. *)
Definition btn_send_click (pr : page_runtime) (rt : runtime) (w : world) (a : app) : app :=
  match outcome (run w tt (on_send rt (Some (user_text a)) (Some (api_url a))
                             (top_k a) (Some (history_state a)))) with
  | Ok o =>
      if chatbot_accepts pr (s_chatbot o) then
        {| history_state := s_history_state o; hero := hero a; api_url := api_url a;
           top_k := top_k a; status_box := status_box a; chatbot := s_chatbot o;
           user_text := s_user_text o; details := s_details o;
           preds_table := s_preds_table o; last_raw := s_last_raw o |}
      else a
  | Raise _ => a
  end.

End Gradio.

(* ================================================================= *)
(** ** app_streamlit.py *)

Module Streamlit.

(** The [details] dict attached to an assistant message. *)
Record details := {
  d_primary_disease : json;
  d_found_symptoms : json;
  d_predictions : json;
  d_specialist : json;
  d_precautions : json;
  d_typical_symptoms : json;
  d_confidence : option float;
  d_timestamp : pystr
}.

(** One entry of [st.session_state.messages]. *)
Record message := {
  role : pystr;
  content : pystr;
  msg_details : option details
}.

(** [st.session_state]: a key is absent ([None]) or holds a value. *)
Record session_state := {
  messages : option (list message);
  last_raw : option json
}.

Definition ping {S : Type} (api_base : pystr) : prog S (bool * pystr) :=
  try_except
    (r <- requests_get (api_base ++ py "/health") 2 ;;
     if (status_code r =? 200)%Z then Ret (true, py "Connecté")
     else Ret (false, py "Réponse backend: " ++ str_of_int (status_code r)))
    is_Exception
    (fun e => Ret (false, py "Indisponible (" ++ exc_name e ++ py ")")).

Definition post_predict {S : Type} (api_base : pystr) (text : pystr) (top_k : Z)
  : prog S json :=
  let payload := JObj [(py "text", JStr text); (py "top_k", JInt top_k)] in
  r <- requests_post (api_base ++ py "/predict") payload 20 ;;
  lift (raise_for_status r) ;;
  lift (response_json r).

Definition format_assistant_summary (rt : runtime) (data : json) : result pystr :=
  match py_get data (py "primary_disease") (JStr (py "—")) with
  | Raise e => Raise e
  | Ok primary =>
      match py_get data (py "found_symptoms") (JArr []) with
      | Raise e => Raise e
      | Ok found0 =>
          let found := py_or found0 (JArr []) in
          match (if truthy found then str_join (py ", ") found else Ok (py "—")) with
          | Raise e => Raise e
          | Ok found_str =>
              Ok (py "**Résultat :** " ++ py_str rt primary ++ nl ++ nl
                    ++ py "**Symptômes détectés :** " ++ found_str)
          end
      end
  end.

(** [st.rerun()] stops the script by raising a signal that derives from
    [BaseException] only; the Streamlit runtime catches it and runs the
    script again. *)
Definition RerunException : py_exception :=
  mk_exc (py "RerunException") BaseOnly (py "").

Definition st_rerun {A : Type} : prog session_state A := Throw RerunException.

(** [st.session_state.pop("messages", None)] and
    [st.session_state.pop("last_raw", None)] *)
Definition pop_messages (ss : session_state) : session_state :=
  {| messages := None; last_raw := last_raw ss |}.
Definition pop_last_raw (ss : session_state) : session_state :=
  {| messages := messages ss; last_raw := None |}.

(** [if clear: ...] *)
Definition clear_handler (clear : bool) : prog session_state unit :=
  if clear then
    modify_state pop_messages ;;
    modify_state pop_last_raw ;;
    st_rerun
  else Ret tt.

(** [ok, status_msg = ping(api_url)], once more when "Tester" was pressed *)
Definition sidebar_status (api_url : pystr) (test_conn : bool)
  : prog session_state (bool * pystr) :=
  st <- ping api_url ;;
  if test_conn then ping api_url else Ret st.

Definition greeting : message :=
  {| role := py "assistant";
     content := py "Salut ! Décris tes symptômes (ex: « fièvre, toux, fatigue »). "
                ++ py "Je te réponds avec une maladie probable, un spécialiste conseillé et des précautions.";
     msg_details := None |}.

(** [if "messages" not in st.session_state: st.session_state.messages = [...]] *)
Definition init_messages : prog session_state unit :=
  ss <- get_state ;;
  match messages ss with
  | None => put_state {| messages := Some [greeting]; last_raw := last_raw ss |}
  | Some _ => Ret tt
  end.

(** [st.session_state.messages.append(m)] *)
Definition append_message (m : message) : prog session_state unit :=
  ss <- get_state ;;
  match messages ss with
  | Some ms => put_state {| messages := Some (ms ++ [m]); last_raw := last_raw ss |}
  | None =>
      Throw (AttributeError
               (py "st.session_state has no attribute " ++ dq ++ py "messages" ++ dq))
  end.

(** [st.session_state.last_raw = data] *)
Definition set_last_raw (data : json) : prog session_state unit :=
  modify_state (fun ss => {| messages := messages ss; last_raw := Some data |}).

Definition error_text (api_url : pystr) (e : py_exception) : pystr :=
  py "Je n’arrive pas à contacter le service de prédiction." ++ nl ++ nl
  ++ py "- URL: `" ++ api_url ++ py "`" ++ nl
  ++ py "- Détail: `" ++ exc_text e ++ py "`" ++ nl ++ nl
  ++ py "Vérifie que le backend tourne et que `/health` répond.".

(** The probability of the first prediction, when there is one. *)
Definition top_confidence (rt : runtime) (preds : json) : prog session_state (option float) :=
  match preds with
  | JArr (JObj first :: _) =>
      match dict_lookup (py "probability") first with
      | Some p =>
          try_except
            (f <- lift (py_float rt p) ;; Ret (Some f))
            is_Exception
            (fun _ => Ret None)
      | None => Ret None
      end
  | _ => Ret None
  end.

(** [user_text = st.chat_input(...)] followed by [if user_text: ...] *)
Definition chat_input_handler (rt : runtime) (api_url : pystr) (top_k : Z)
           (user_text : option pystr) : prog session_state unit :=
  if is_empty (or_empty user_text) then Ret tt
  else
    let user_text := or_empty user_text in
    append_message {| role := py "user"; content := user_text; msg_details := None |} ;;
    try_except
      (data <- post_predict api_url user_text top_k ;;
       set_last_raw data ;;
       (* Confidence = proba du top-1 si disponible *)
       preds0 <- lift (py_get data (py "predictions") (JArr [])) ;;
       let preds := py_or preds0 (JArr []) in
       confidence <- top_confidence rt preds ;;
       primary <- lift (py_get data (py "primary_disease") (JStr (py "—"))) ;;
       found <- lift (py_get data (py "found_symptoms") (JArr [])) ;;
       specialist <- lift (py_get data (py "specialist") (JStr (py "—"))) ;;
       precautions <- lift (py_get data (py "precautions") (JArr [])) ;;
       typical <- lift (py_get data (py "typical_symptoms") (JArr [])) ;;
       now <- utcnow_isoformat ;;
       let details :=
         {| d_primary_disease := primary;
            d_found_symptoms := py_or found (JArr []);
            d_predictions := preds;
            d_specialist := specialist;
            d_precautions := py_or precautions (JArr []);
            d_typical_symptoms := py_or typical (JArr []);
            d_confidence := confidence;
            d_timestamp := now ++ py "Z" |} in
       summary <- lift (format_assistant_summary rt data) ;;
       append_message {| role := py "assistant"; content := summary;
                         msg_details := Some details |} ;;
       st_rerun)
      is_RequestException
      (fun e =>
         append_message {| role := py "assistant"; content := error_text api_url e;
                           msg_details := None |} ;;
         st_rerun).

(** The chat tab without its display loop: the transcript is initialised,
    then the input is handled. *)
Definition tab_chat (rt : runtime) (api_url : pystr) (top_k : Z)
           (user_text : option pystr) : prog session_state unit :=
  init_messages ;;
  chat_input_handler rt api_url top_k user_text.

End Streamlit.

(* ================================================================= *)
(** ** app_streamlit.py: what a run displays

    A run of the script displays by calling Streamlit; the calls are
    listed in the order they are made.  Which container an element lands
    in ([with c1:], [with st.expander(...)]), is not modelled. *)

Module StreamlitView.

Inductive st_call :=
| st_markdown (body : pystr) (unsafe_allow_html : bool)
| st_write (text : pystr)
| st_caption (text : pystr)
| st_info (text : pystr)
| st_success (text : pystr)
| st_error (text : pystr)
| st_chat_message (role : pystr)
| st_columns (spec : list Z)
| st_expander (label : pystr) (expanded : bool)
| st_bar_chart (index values : list cell)
| st_json (value : json).

(** The calls made so far, and the value returned or the exception raised. *)
Definition view (A : Type) : Type := (list st_call * result A)%type.

Definition emit (c : st_call) : view unit := ([c], Ok tt).

Definition view_ret {A : Type} (a : A) : view A := ([], Ok a).

Definition view_lift {A : Type} (r : result A) : view A := ([], r).

Definition view_bind {A B : Type} (v : view A) (f : A -> view B) : view B :=
  match v with
  | (calls, Ok a) => let '(calls', r) := f a in (calls ++ calls', r)
  | (calls, Raise e) => (calls, Raise e)
  end.

(** [for x in l: f x] *)
Fixpoint view_each {A : Type} (f : A -> view unit) (l : list A) : view unit :=
  match l with
  | [] => view_ret tt
  | x :: rest => view_bind (f x) (fun _ => view_each f rest)
  end.

(** What string formatting and the chart do beyond the model: [f"{x:.2f}"]
    of a float, and [st.bar_chart] on a frame whose [disease] or
    [probability] label is repeated or whose cells are not names and
    numbers. *)
Record view_runtime := {
  format_2f : float -> pystr;
  chart_other : DataFrame -> view unit
}.

(** [html.escape(x)]: a value that is not a [str] has no [replace]. *)
Definition escape_value (x : json) : result pystr :=
  match x with
  | JStr s => Ok (html_escape s)
  | _ => Raise (AttributeError
                  (py "'" ++ type_name x ++ py "' object has no attribute 'replace'"))
  end.

Definition render_tags (rt : runtime) (items : json) (variant : pystr) : view unit :=
  if negb (truthy items) then emit (st_write (py "—"))
  else
    view_bind (view_lift (py_iter items)) (fun xs =>
    let safe_items := List.map (fun x => html_escape (py_str rt x)) xs in
    let cls := if str_eqb variant (py "tag") then py "tag" else py "tag tag2" in
    let tags_html :=
      py "<div class='tags'>"
        ++ join (py "")
             (List.map (fun x => py "<span class='" ++ cls ++ py "'>" ++ x ++ py "</span>")
                safe_items)
        ++ py "</div>" in
    emit (st_markdown tags_html true)).

(** The cells of the column [l], one per row. *)
Definition column_cells (l : label) (df : DataFrame) : list cell :=
  flat_map (cells_of l (columns df)) (rows df).

Definition label_count (l : label) (df : DataFrame) : nat :=
  List.length (filter (label_eqb l) (columns df)).

(** [df = df.set_index("disease"); st.bar_chart(df["probability"])].  The
    chart of numbers indexed by names is drawn; a frame with a repeated
    label, a missing cell or cells of other types is left to
    [chart_other]. *)
Definition bar_chart_by_disease (vr : view_runtime) (df : DataFrame) : view unit :=
  let index := column_cells (LStr (py "disease")) df in
  let values := column_cells (LStr (py "probability")) df in
  if (label_count (LStr (py "disease")) df =? 1)%nat
     && (label_count (LStr (py "probability")) df =? 1)%nat
     && forallb is_name_cell index
     && forallb is_number_cell values
  then emit (st_bar_chart index values)
  else chart_other vr df.

(** The body of [if details: ...] for one message of the history. *)
Definition display_details (rt : runtime) (vr : view_runtime) (details : Streamlit.details)
  : view unit :=
  view_bind (emit (st_markdown (py "<div class='card'>") true)) (fun _ =>
  view_bind (emit (st_columns [1; 1; 1]%Z)) (fun _ =>
  let primary := Streamlit.d_primary_disease details in
  let specialist := Streamlit.d_specialist details in
  let confidence := Streamlit.d_confidence details in
  view_bind (emit (st_markdown (py "**Maladie probable**") false)) (fun _ =>
  view_bind (view_lift (escape_value primary)) (fun safe_primary =>
  view_bind (emit (st_markdown
                     (py "<div style='font-size:1.25rem; font-weight:700;'>"
                        ++ safe_primary ++ py "</div>") true)) (fun _ =>
  view_bind (match confidence with
             | Some c => emit (st_caption (py "Confiance (approx.) : " ++ format_2f vr c))
             | None => view_ret tt
             end) (fun _ =>
  view_bind (emit (st_markdown (py "**Symptômes détectés**") false)) (fun _ =>
  view_bind (render_tags rt (py_or (Streamlit.d_found_symptoms details) (JArr [])) (py "tag"))
    (fun _ =>
  view_bind (emit (st_markdown (py "**Spécialiste conseillé**") false)) (fun _ =>
  view_bind (view_lift (escape_value specialist)) (fun safe_specialist =>
  view_bind (emit (st_markdown
                     (py "<div style='font-size:1.05rem; font-weight:600;'>"
                        ++ safe_specialist ++ py "</div>") true)) (fun _ =>
  view_bind (emit (st_markdown (py "</div>") true)) (fun _ =>
  view_bind (emit (st_expander (py "Voir les conseils et le top maladies") false)) (fun _ =>
  let precautions := py_or (Streamlit.d_precautions details) (JArr []) in
  let typical := py_or (Streamlit.d_typical_symptoms details) (JArr []) in
  let preds := py_or (Streamlit.d_predictions details) (JArr []) in
  view_bind (emit (st_markdown (py "**Précautions**") false)) (fun _ =>
  view_bind (if truthy precautions then
               view_bind (view_lift (py_iter precautions)) (fun ps =>
               view_each (fun p => emit (st_markdown (py "- " ++ py_str rt p) false)) ps)
             else emit (st_write (py "—"))) (fun _ =>
  view_bind (emit (st_markdown (py "**Symptômes fréquents**") false)) (fun _ =>
  view_bind (if truthy typical then render_tags rt typical (py "tag2")
             else emit (st_write (py "—"))) (fun _ =>
  if truthy preds then
    view_bind (emit (st_markdown (py "**Top maladies (probabilités)**") false)) (fun _ =>
    view_bind (view_lift (pd_DataFrame rt preds)) (fun df =>
    if has_column (LStr (py "disease")) df && has_column (LStr (py "probability")) df
    then bar_chart_by_disease vr df
    else emit (st_json preds)))
  else view_ret tt))))))))))))))))).

(** One turn of [for msg in st.session_state.messages: ...] *)
Definition display_message (rt : runtime) (vr : view_runtime) (msg : Streamlit.message)
  : view unit :=
  view_bind (emit (st_chat_message (Streamlit.role msg))) (fun _ =>
  view_bind (emit (st_markdown (Streamlit.content msg) false)) (fun _ =>
  match Streamlit.msg_details msg with
  | Some details => display_details rt vr details
  | None => view_ret tt
  end)).

(** The history loop of the chat tab. *)
Definition display_history (rt : runtime) (vr : view_runtime)
           (msgs : list Streamlit.message) : view unit :=
  view_each (display_message rt vr) msgs.

(** The header of the page. *)
Definition header_html (ok : bool) (status_msg : pystr) (top_k : Z) : pystr :=
  let dot_class := if ok then py "dot-ok" else py "dot-bad" in
  lines
    [ [];
      py "<div class=" ++ dq ++ py "hero" ++ dq ++ py ">";
      py "  <h1>Chatbot Santé — Interface Utilisateur</h1>";
      py "  <p>Bonjour ! Je suis votre <b>assistant de santé</b>. Décrivez vos symptômes et je vous proposerai une piste probable ainsi que des conseils.</p>";
      py "  <div class=" ++ dq ++ py "badges" ++ dq ++ py ">";
      py "    <span class=" ++ dq ++ py "badge" ++ dq ++ py "><span class=" ++ dq ++ py "dot " ++ dot_class ++ dq ++ py "></span><b>Backend</b> : " ++ html_escape status_msg ++ py "</span>";
      py "    <span class=" ++ dq ++ py "badge" ++ dq ++ py "><b>Mode</b> : Chat + Top-" ++ str_of_int top_k ++ py "</span>";
      py "  </div>";
      py "</div>";
      [] ].

(** [if ok: st.sidebar.success(status_msg) else: st.sidebar.error(status_msg)] *)
Definition sidebar_status_box (ok : bool) (status_msg : pystr) : view unit :=
  if ok then emit (st_success status_msg) else emit (st_error status_msg).


End StreamlitView.

(* ================================================================= *)
(** ** Vocabulary of the statements

    Requests, sample backends, the shape of replies, and the states the
    theorems below talk about. *)

(** The first code point, if any, fails [p]. *)
Definition head_fails (p : codepoint -> bool) (s : pystr) : Prop :=
  match first_cp s with Some c => p c = false | None => True end.

(** The last code point, if any, fails [p]. *)
Definition last_fails (p : codepoint -> bool) (s : pystr) : Prop :=
  match last_cp s with Some c => p c = false | None => True end.

(** [norm] is [base] without the whitespace around it and, after that,
    without the slashes at its end: [base] is whitespace, [norm], slashes,
    whitespace, where [norm] with the slashes neither starts nor ends with
    whitespace and [norm] does not end with a slash. *)
Definition normalises (base norm : pystr) : Prop :=
  exists lead slashes trail,
    base = lead ++ (norm ++ slashes) ++ trail /\
    forallb isspace lead = true /\
    forallb isspace trail = true /\
    forallb (fun c => (c =? 47)%N) slashes = true /\
    starts_with_space (norm ++ slashes) = false /\
    ends_with_space (norm ++ slashes) = false /\
    ends_with_slash norm = false.

Definition health_request (base : pystr) : http_request :=
  mk_request GET (base ++ py "/health") None 2.

(** The backend answers [rq] with status 200. *)
Definition returns_200 (w : world) (rq : http_request) : Prop :=
  exists r, backend w rq = Responded r /\ status_code r = 200%Z.

(** What both [ping]s make of the backend's answer. *)
Definition status_of (o : http_outcome) : bool * pystr :=
  match o with
  | Responded r =>
      if (status_code r =? 200)%Z then (true, py "Connecté")
      else (false, py "Réponse backend: " ++ str_of_int (status_code r))
  | Failed name _ _ => (false, py "Indisponible (" ++ name ++ py ")")
  end.

(** A backend that is not running: [requests] refuses a URL that starts
    with a slash (it has no scheme), every other request fails to connect. *)
Definition backend_down : world :=
  {| backend := fun rq =>
       match rq_url rq with
       | 47%N :: _ =>
           Failed (py "MissingSchema") true
             (py "Invalid URL '" ++ rq_url rq
                ++ py "': No scheme supplied. Perhaps you meant https://"
                ++ rq_url rq ++ py "?")
       | _ => Failed (py "ConnectionError") true (py "Connection refused")
       end;
     utcnow := py "2025-01-01T12:00:00" |}.

(** A backend that serves one URL: 200 there, 404 everywhere else. *)
Definition backend_serving (url : pystr) : world :=
  {| backend := fun rq =>
       if str_eqb (rq_url rq) url
       then Responded (mk_response 200 (py "OK") (rq_url rq) (Decoded (JObj [])))
       else Responded (mk_response 404 (py "Not Found") (rq_url rq)
                         (Decoded (JObj [(py "detail", JStr (py "Not Found"))])));
     utcnow := py "2025-01-01T12:00:00" |}.

(** A backend that answers every request with 200 and [reply] as its body. *)
Definition backend_replying (reply : json_body) : world :=
  {| backend := fun rq => Responded (mk_response 200 (py "OK") (rq_url rq) reply);
     utcnow := py "2025-01-01T12:00:00" |}.

Definition predict_request (base text : pystr) (top_k : Z) : http_request :=
  mk_request POST (base ++ py "/predict")
    (Some (JObj [(py "text", JStr text); (py "top_k", JInt top_k)])) 20.

(** What [post_predict] makes of the backend's answer. *)
Definition predict_result (o : http_outcome) : result json :=
  match o with
  | Failed name is_request text => Raise (transport_error name is_request text)
  | Responded r =>
      match raise_for_status r with
      | Raise e => Raise e
      | Ok _ => response_json r
      end
  end.

(** A reply that follows the documented schema. *)
Definition cold_fields : dict :=
  [ (py "primary_disease", JStr (py "Common Cold"));
    (py "found_symptoms",
     JArr [JStr (py "high_fever"); JStr (py "cough"); JStr (py "fatigue")]);
    (py "predictions",
     JArr [ JObj [ (py "disease", JStr (py "Common Cold"));
                   (py "probability", JFloat 0.75%float) ];
            JObj [ (py "disease", JStr (py "Flu"));
                   (py "probability", JFloat 0.25%float) ] ]);
    (py "specialist", JStr (py "Médecin généraliste"));
    (py "precautions", JArr [JStr (py "Repos"); JStr (py "Hydratation")]);
    (py "typical_symptoms", JArr [JStr (py "cough"); JStr (py "runny_nose")]) ].

Definition cold_reply : json := JObj cold_fields.

(** [if l not in df.columns: df[l] = v] *)
Definition ensure_column (l : label) (v : cell) (df : DataFrame) : DataFrame :=
  if negb (has_column l df) then set_column l v df else df.

(** The entries of [predictions] when it is a list. *)
Definition prediction_items (d : dict) : list json :=
  match dict_get d (py "predictions") (JArr []) with
  | JArr items => items
  | _ => []
  end.

(** The [predictions] entry is missing, falsy, or a list of dicts. *)
Definition predictions_well_shaped (d : dict) : bool :=
  let preds := dict_get d (py "predictions") (JArr []) in
  negb (truthy preds)
  || match preds with
     | JArr items => match all_records items with Some _ => true | None => false end
     | _ => false
     end.

Definition is_str (j : json) : bool :=
  match j with JStr _ => true | _ => false end.

Definition is_number (j : json) : bool :=
  match j with JInt _ | JFloat _ => true | _ => false end.

Definition is_str_list (j : json) : bool :=
  match j with JArr items => forallb is_str items | _ => false end.

(** [{ "disease": string, "probability": number }] *)
Definition is_prediction (j : json) : bool :=
  match j with
  | JObj p =>
      match dict_lookup (py "disease") p, dict_lookup (py "probability") p with
      | Some (JStr _), Some v => is_number v
      | _, _ => false
      end
  | _ => false
  end.

Definition is_prediction_list (j : json) : bool :=
  match j with JArr items => forallb is_prediction items | _ => false end.

(** The field is missing or passes [ok]. *)
Definition optional (ok : json -> bool) (key : pystr) (d : dict) : bool :=
  match dict_lookup key d with Some v => ok v | None => true end.

(** A reply of [POST /predict] as the interface documents it; every field
    but [primary_disease] may be missing. *)
Definition valid_response (d : dict) : bool :=
  match dict_lookup (py "primary_disease") d with Some (JStr _) => true | _ => false end
  && optional is_str_list (py "found_symptoms") d
  && optional is_prediction_list (py "predictions") d
  && optional is_str (py "specialist") d
  && optional is_str_list (py "precautions") d
  && optional is_str_list (py "typical_symptoms") d.

Definition strings_of (items : list json) : list pystr :=
  flat_map (fun j => match j with JStr s => [s] | _ => [] end) items.

(** The symptoms a reply reports. *)
Definition found_symptoms_of (d : dict) : list pystr :=
  match dict_lookup (py "found_symptoms") d with
  | Some (JArr items) => strings_of items
  | _ => []
  end.

(** What the summary shows for them: the list joined with a comma and a
    space, or an em dash when there is none. *)
Definition shown_symptoms (d : dict) : pystr :=
  match found_symptoms_of d with
  | [] => py "—"
  | syms => join (py ", ") syms
  end.

Definition summary_text (primary : pystr) (d : dict) : pystr :=
  py "**Résultat :** " ++ primary ++ nl ++ nl
  ++ py "**Symptômes détectés :** " ++ shown_symptoms d.

(** A value the handlers can iterate after [... or []]. *)
Definition listlike (v : json) : bool :=
  match v with JArr _ => true | _ => negb (truthy v) end.

(** The outputs of [on_send] when the prediction failed. *)
Definition error_outputs (history : list Gradio.turn) : Gradio.send_outputs :=
  {| Gradio.s_user_text := py "";
     Gradio.s_chatbot := history;
     Gradio.s_history_state := history;
     Gradio.s_last_raw := None;
     Gradio.s_details := py "";
     Gradio.s_preds_table := empty_frame Gradio.df_columns |}.

(** [history or []] *)
Definition or_nil (history : option (list Gradio.turn)) : list Gradio.turn :=
  match history with Some h => h | None => [] end.

(** The request [on_send] makes for these inputs. *)
Definition gradio_send_request (user_text api_url : option pystr) (top_k : Z) : http_request :=
  predict_request (Gradio._norm_base api_url) (strip (or_empty user_text)) top_k.

Definition session (msgs : list Streamlit.message) (raw : option json)
  : Streamlit.session_state :=
  {| Streamlit.messages := Some msgs; Streamlit.last_raw := raw |}.

Definition user_message (text : pystr) : Streamlit.message :=
  {| Streamlit.role := py "user"; Streamlit.content := text;
     Streamlit.msg_details := None |}.

Definition assistant_message (text : pystr) : Streamlit.message :=
  {| Streamlit.role := py "assistant"; Streamlit.content := text;
     Streamlit.msg_details := None |}.

(** The ways [POST /predict] fails with a [RequestException]: the transport
    raises one (connection error, timeout, invalid URL), the status is an
    error status, or the body is not JSON. *)
Inductive request_failure : http_outcome -> py_exception -> Prop :=
| failure_transport (name text : pystr) :
    request_failure (Failed name true text) (transport_error name true text)
| failure_status (r : http_response) (e : py_exception) :
    raise_for_status r = Raise e ->
    request_failure (Responded r) e
| failure_not_json (r : http_response) (msg : pystr) :
    raise_for_status r = Ok tt ->
    body r = NotJson msg ->
    request_failure (Responded r) (mk_exc (py "JSONDecodeError") RequestException msg).

(** The request is answered, without an error status, by an object that
    follows the schema. *)
Definition valid_reply (o : http_outcome) (d : dict) : Prop :=
  exists r,
    o = Responded r /\
    (status_code r < 400 \/ 600 <= status_code r)%Z /\
    body r = Decoded (JObj d) /\
    valid_response d = true.

(** A backend that answers every request with the given status and no JSON. *)
Definition backend_status (code : Z) (why : pystr) : world :=
  {| backend := fun rq =>
       Responded (mk_response code why (rq_url rq)
                    (NotJson (py "Expecting value: line 1 column 1 (char 0)")));
     utcnow := py "2025-01-01T12:00:00" |}.

Definition error_503 : py_exception :=
  mk_exc (py "HTTPError") RequestException
    (py "503 Server Error: Service Unavailable for url: http://localhost:8000/predict").

Definition error_refused : py_exception :=
  transport_error (py "ConnectionError") true (py "Connection refused").

Definition error_404 : py_exception :=
  mk_exc (py "HTTPError") RequestException
    (py "404 Client Error: Not Found for url: http://localhost:8000/predict").

(** An outcome the send handlers are written for: a request failure, or a
    reply that follows the schema. *)
Definition foreseen (o : http_outcome) : Prop :=
  (exists e, request_failure o e) \/ (exists d, valid_reply o d).

(** A reply the send handlers can read: the symptoms found are missing or
    a list of strings, the two other lists are lists or falsy, and the
    predictions are missing, falsy or a list of dicts.  Nothing is asked of
    [primary_disease] and [specialist], and the object may be empty. *)
Definition readable_response (d : dict) : bool :=
  optional is_str_list (py "found_symptoms") d
  && listlike (dict_get d (py "precautions") (JArr []))
  && listlike (dict_get d (py "typical_symptoms") (JArr []))
  && predictions_well_shaped d.




(** A body of a hundred thousand opening brackets. *)
Definition too_deep : json_body :=
  DecoderRaises (py "RecursionError")
    (py "maximum recursion depth exceeded while decoding a JSON array from a unicode string").


(** What the Gradio health check reports for a URL. *)
Definition gradio_status (w : world) (api_url : option pystr) : bool * pystr :=
  if is_empty (Gradio._norm_base api_url) then (false, py "URL vide")
  else status_of (backend w (health_request (Gradio._norm_base api_url))).

(** *** Shapes of programs *)

(** The program sends nothing: it has no [Http] node. *)
Inductive silent {S A : Type} : prog S A -> Prop :=
| silent_Ret (a : A) : silent (Ret a)
| silent_Throw (e : py_exception) : silent (Throw e)
| silent_UtcNow (k : pystr -> prog S A) :
    (forall t, silent (k t)) -> silent (UtcNow k)
| silent_GetState (k : S -> prog S A) :
    (forall s, silent (k s)) -> silent (GetState k)
| silent_PutState (s : S) (k : prog S A) :
    silent k -> silent (PutState s k).

(** Every value the program can return satisfies [Q]. *)
Inductive ends_in {S A : Type} (Q : A -> Prop) : prog S A -> Prop :=
| ends_Ret (a : A) : Q a -> ends_in Q (Ret a)
| ends_Throw (e : py_exception) : ends_in Q (Throw e)
| ends_Http (rq : http_request) (k : http_outcome -> prog S A) :
    (forall o, ends_in Q (k o)) -> ends_in Q (Http rq k)
| ends_UtcNow (k : pystr -> prog S A) :
    (forall t, ends_in Q (k t)) -> ends_in Q (UtcNow k)
| ends_GetState (k : S -> prog S A) :
    (forall s, ends_in Q (k s)) -> ends_in Q (GetState k)
| ends_PutState (s : S) (k : prog S A) :
    ends_in Q k -> ends_in Q (PutState s k).

(** *** The Gradio page as a state machine *)

(** What a visitor can do: edit one of the three inputs, press a button,
    or submit the text box (wired to [on_send] like the send button). *)
Inductive page_event :=
| EditUserText (text : pystr)
| EditApiUrl (url : pystr)
| EditTopK (k : Z)
| ClickTest
| ClickClear
| ClickSend
| SubmitText.

Definition edit_user_text (text : pystr) (a : Gradio.app) : Gradio.app :=
  {| Gradio.history_state := Gradio.history_state a; Gradio.hero := Gradio.hero a;
     Gradio.api_url := Gradio.api_url a; Gradio.top_k := Gradio.top_k a;
     Gradio.status_box := Gradio.status_box a; Gradio.chatbot := Gradio.chatbot a;
     Gradio.user_text := text; Gradio.details := Gradio.details a;
     Gradio.preds_table := Gradio.preds_table a; Gradio.last_raw := Gradio.last_raw a |}.

Definition edit_api_url (url : pystr) (a : Gradio.app) : Gradio.app :=
  {| Gradio.history_state := Gradio.history_state a; Gradio.hero := Gradio.hero a;
     Gradio.api_url := url; Gradio.top_k := Gradio.top_k a;
     Gradio.status_box := Gradio.status_box a; Gradio.chatbot := Gradio.chatbot a;
     Gradio.user_text := Gradio.user_text a; Gradio.details := Gradio.details a;
     Gradio.preds_table := Gradio.preds_table a; Gradio.last_raw := Gradio.last_raw a |}.

Definition edit_top_k (k : Z) (a : Gradio.app) : Gradio.app :=
  {| Gradio.history_state := Gradio.history_state a; Gradio.hero := Gradio.hero a;
     Gradio.api_url := Gradio.api_url a; Gradio.top_k := k;
     Gradio.status_box := Gradio.status_box a; Gradio.chatbot := Gradio.chatbot a;
     Gradio.user_text := Gradio.user_text a; Gradio.details := Gradio.details a;
     Gradio.preds_table := Gradio.preds_table a; Gradio.last_raw := Gradio.last_raw a |}.

(** One event, handled against the world of that moment. *)
Definition page_step (pr : Gradio.page_runtime) (rt : runtime) (w : world)
           (ev : page_event) (a : Gradio.app) : Gradio.app :=
  match ev with
  | EditUserText text => edit_user_text text a
  | EditApiUrl url => edit_api_url url a
  | EditTopK k => edit_top_k k a
  | ClickTest => Gradio.btn_test_click w a
  | ClickClear => Gradio.btn_clear_click w a
  | ClickSend | SubmitText => Gradio.btn_send_click pr rt w a
  end.

(** A session: events in order, each with the world it met. *)
Fixpoint page_play (pr : Gradio.page_runtime) (rt : runtime)
         (evs : list (world * page_event)) (a : Gradio.app) : Gradio.app :=
  match evs with
  | [] => a
  | (w, ev) :: rest => page_play pr rt rest (page_step pr rt w ev a)
  end.

(** The page under Gradio 6: the chatbot refuses every pair. *)
Definition gradio6 : Gradio.page_runtime :=
  {| Gradio.chatbot_takes_pairs := fun _ => false |}.

(** The page under a Gradio that displays pairs. *)
Definition gradio_with_pairs : Gradio.page_runtime :=
  {| Gradio.chatbot_takes_pairs := fun _ => true |}.

(** What holds of the page at every moment: the chat shown is the history
    kept, and without a raw reply the detail panel and the table are empty. *)
Definition page_consistent (a : Gradio.app) : Prop :=
  Gradio.chatbot a = Gradio.history_state a /\
  (Gradio.last_raw a = None ->
   Gradio.details a = py "" /\ Gradio.preds_table a = empty_frame Gradio.df_columns).

(** The outputs of one [on_send] are consistent in the same way and clear
    the text box. *)
Definition send_outputs_consistent (o : Gradio.send_outputs) : Prop :=
  Gradio.s_user_text o = py "" /\
  Gradio.s_chatbot o = Gradio.s_history_state o /\
  (Gradio.s_last_raw o = None ->
   Gradio.s_details o = py "" /\ Gradio.s_preds_table o = empty_frame Gradio.df_columns).

(** [text.isspace()] or [text == ""]: nothing but whitespace. *)
Definition blank (text : pystr) : bool := forallb isspace text.

(** How [on_send] extends the history it was given. *)
Definition send_extends (user_text : option pystr) (history : option (list Gradio.turn))
           (o : Gradio.send_outputs) : Prop :=
  if blank (or_empty user_text) then Gradio.s_chatbot o = or_nil history
  else exists bot,
      Gradio.s_chatbot o = or_nil history ++ [(strip (or_empty user_text), bot)].

(** The page a new visitor has after typing the same three inputs. *)
Definition fresh_page_with_inputs (a : Gradio.app) : Gradio.app :=
  edit_user_text (Gradio.user_text a)
    (edit_api_url (Gradio.api_url a) (edit_top_k (Gradio.top_k a) Gradio.demo)).

(** What [on_send] returns for the sample reply to " toux " after one
    earlier turn. *)
Definition cold_send_outputs : Gradio.send_outputs :=
  {| Gradio.s_user_text := py "";
     Gradio.s_chatbot :=
       [(py "fièvre", py "ok"); (py "toux", summary_text (py "Common Cold") cold_fields)];
     Gradio.s_history_state :=
       [(py "fièvre", py "ok"); (py "toux", summary_text (py "Common Cold") cold_fields)];
     Gradio.s_last_raw := Some cold_reply;
     Gradio.s_details :=
       match outcome (run (backend_replying (Decoded cold_reply)) tt
                        (Gradio.build_details_html plain_runtime cold_reply)) with
       | Ok h => h
       | Raise _ => []
       end;
     Gradio.s_preds_table :=
       mk_frame [LStr (py "disease"); LStr (py "probability")]
         [[Val (JStr (py "Common Cold")); Val (JFloat 0.75%float)];
          [Val (JStr (py "Flu")); Val (JFloat 0.25%float)]] |}.

(** *** Markup *)

(** The characters that open and close tags and attribute values:
    [<], [>], double and single quote. *)
Definition is_markup (c : codepoint) : bool :=
  ((c =? 60) || (c =? 62) || (c =? 34) || (c =? 39))%N.

(** The markup characters of a text, in order: its tag skeleton. *)
Definition markup_of (s : pystr) : pystr := filter is_markup s.

(** The same list with every item replaced by the empty string. *)
Definition blanked (items : list json) : list json :=
  List.map (fun _ => JStr []) items.

(** *** The cells of the predictions table *)

(** [k in d] *)
Definition has_key (k : pystr) (d : dict) : bool :=
  existsb (fun kv => str_eqb (fst kv) k) d.

(** Some prediction carries the key. *)
Definition key_used (k : pystr) (recs : list dict) : bool :=
  existsb (has_key k) recs.

(** The column [k] of the table: what pandas stores for the records'
    values when some record carries the key, the default of
    [predictions_to_df] otherwise. *)
Definition table_cell (kq : coercion) (k : pystr) (default : cell) (recs : list dict)
           (d : dict) : cell :=
  if key_used k recs then stored_cell kq recs d k else default.

(** The table [predictions_to_df] builds from a list of dicts. *)
Definition predictions_table (kq : coercion) (recs : list dict) : DataFrame :=
  mk_frame [LStr (py "disease"); LStr (py "probability")]
    (List.map (fun d => [ table_cell kq (py "disease") (Val (JStr (py ""))) recs d;
                          table_cell kq (py "probability") (Val JNull) recs d ]) recs).

(** A cell that is stored as it is whatever the rest of its column: a
    string in a column of strings, a float in a column of numbers. *)
Definition kept_as_is (col : list cell) (c : cell) : bool :=
  forallb is_name_cell col
  || forallb is_number_cell col && match c with Val (JFloat _) => true | _ => false end.

(** Two predictions, the second without a name. *)
Definition two_predictions : list dict :=
  [ [(py "disease", JStr (py "Flu")); (py "probability", JFloat 0.75%float);
     (py "extra", JNull)];
    [(py "probability", JFloat 0.25%float)] ].

(** A frame given by its string labels and, per record, a cell per label. *)
Definition frame_from (cols : list pystr) (g : dict -> pystr -> cell) (recs : list dict)
  : DataFrame :=
  mk_frame (List.map LStr cols) (List.map (fun d => List.map (g d) cols) recs).

(** The cells after [df[k] = v]. *)
Definition with_default (k : pystr) (v : cell) (g : dict -> pystr -> cell)
  : dict -> pystr -> cell :=
  fun d c => if str_eqb c k then v else g d c.

(** A display runtime to run examples with. *)
Definition plain_view_runtime : StreamlitView.view_runtime :=
  {| StreamlitView.format_2f := fun _ => py "0.00";
     StreamlitView.chart_other := fun _ => StreamlitView.view_ret tt |}.

(** Every message of the transcript displays without an exception. *)
Definition displayable (rt : runtime) (vr : StreamlitView.view_runtime)
           (msgs : list Streamlit.message) : Prop :=
  snd (StreamlitView.display_history rt vr msgs) = Ok tt.

(** The [details] the chat handler stores with the summary of a reply. *)
Definition stored_details (d : dict) (confidence : option float) (now : pystr)
  : Streamlit.details :=
  {| Streamlit.d_primary_disease := dict_get d (py "primary_disease") (JStr (py "—"));
     Streamlit.d_found_symptoms := py_or (dict_get d (py "found_symptoms") (JArr [])) (JArr []);
     Streamlit.d_predictions := py_or (dict_get d (py "predictions") (JArr [])) (JArr []);
     Streamlit.d_specialist := dict_get d (py "specialist") (JStr (py "—"));
     Streamlit.d_precautions := py_or (dict_get d (py "precautions") (JArr [])) (JArr []);
     Streamlit.d_typical_symptoms :=
       py_or (dict_get d (py "typical_symptoms") (JArr [])) (JArr []);
     Streamlit.d_confidence := confidence;
     Streamlit.d_timestamp := now ++ py "Z" |}.

(** The assistant message stored for a reply. *)
Definition reply_message (summary : pystr) (details : Streamlit.details)
  : Streamlit.message :=
  {| Streamlit.role := py "assistant"; Streamlit.content := summary;
     Streamlit.msg_details := Some details |}.

(** A reply whose disease is [null]. *)
Definition unknown_disease_fields : dict :=
  [ (py "primary_disease", JNull);
    (py "found_symptoms", JArr [JStr (py "cough")]) ].

(** A reply that holds three lists of empty strings, as long as the given
    ones, and nothing else. *)
Definition blank_lists (found precautions typical : list json) : dict :=
  [ (py "found_symptoms", JArr (blanked found));
    (py "precautions", JArr (blanked precautions));
    (py "typical_symptoms", JArr (blanked typical)) ].

(* ================================================================= *)
(** ** Sanity checks of the runtime model *)

Example py_ascii : py "a /" = [97; 32; 47]%N.
Proof. reflexivity. Qed.

Example py_emdash : py "—" = [8212]%N.
Proof. reflexivity. Qed.

Example py_accent : py "Connecté" = [67; 111; 110; 110; 101; 99; 116; 233]%N.
Proof. reflexivity. Qed.

Example py_apostrophe : py "n’a" = [110; 8217; 97]%N.
Proof. reflexivity. Qed.

Example str_of_int_neg : str_of_int (-503) = py "-503".
Proof. reflexivity. Qed.

Example str_of_int_zero : str_of_int 0 = py "0".
Proof. reflexivity. Qed.

Example escape_ex : html_escape (py "a<b&'c'") = py "a&lt;b&amp;&#x27;c&#x27;".
Proof. reflexivity. Qed.

Example strip_ex : strip (py "  a b 	") = py "a b".
Proof. reflexivity. Qed.

Example norm_ex : Gradio._norm_base (Some (py "  http://h:8000// ")) = py "http://h:8000".
Proof. reflexivity. Qed.

Example norm_none : Gradio._norm_base None = py "".
Proof. reflexivity. Qed.

(* ================================================================= *)
(** ** Stripping *)

Section Stripping.

Variable p : codepoint -> bool.

Lemma drop_while_head (s : pystr) : head_fails p (drop_while p s).
Proof.
  induction s as [|c t IH]; simpl; [exact I|].
  destruct (p c) eqn:E; [exact IH|]. unfold head_fails; simpl. exact E.
Qed.

Lemma drop_while_fixed (s : pystr) : head_fails p s -> drop_while p s = s.
Proof.
  destruct s as [|c t]; [reflexivity|].
  unfold head_fails; simpl. intros ->. reflexivity.
Qed.

Lemma drop_while_length (s : pystr) : List.length (drop_while p s) <= List.length s.
Proof.
  induction s as [|c t IH]; simpl; [lia|]. destruct (p c); simpl; lia.
Qed.

Lemma drop_while_shrinks (c : codepoint) (t : pystr) :
  p c = true -> List.length (drop_while p (c :: t)) < List.length (c :: t).
Proof.
  intros E. simpl. rewrite E. pose proof (drop_while_length t). lia.
Qed.

Lemma drop_while_split (s : pystr) :
  exists pre, s = pre ++ drop_while p s.
Proof.
  induction s as [|c t [pre IH]]; simpl.
  - exists []. reflexivity.
  - destruct (p c).
    + exists (c :: pre). simpl. f_equal. exact IH.
    + exists []. reflexivity.
Qed.

Lemma rstrip_by_last (s : pystr) : last_fails p (rstrip_by p s).
Proof.
  unfold last_fails, last_cp, rstrip_by. rewrite rev_involutive.
  exact (drop_while_head (rev s)).
Qed.

Lemma rstrip_by_fixed (s : pystr) : last_fails p s -> rstrip_by p s = s.
Proof.
  intros H. unfold rstrip_by. rewrite (drop_while_fixed (rev s) H).
  apply rev_involutive.
Qed.

Lemma rstrip_by_prefix (s : pystr) : exists suf, s = rstrip_by p s ++ suf.
Proof.
  destruct (drop_while_split (rev s)) as [pre H].
  exists (rev pre). unfold rstrip_by. rewrite <- rev_app_distr, <- H.
  symmetry. apply rev_involutive.
Qed.

Lemma rstrip_by_length (s : pystr) : List.length (rstrip_by p s) <= List.length s.
Proof.
  unfold rstrip_by. rewrite length_rev.
  pose proof (drop_while_length (rev s)). rewrite length_rev in H. exact H.
Qed.

Lemma rstrip_by_shrinks (s : pystr) (c : codepoint) :
  last_cp s = Some c -> p c = true -> List.length (rstrip_by p s) < List.length s.
Proof.
  unfold last_cp, rstrip_by. intros H E. rewrite length_rev.
  rewrite <- (length_rev s). destruct (rev s) as [|c' t]; [discriminate|].
  simpl in H. injection H as ->. apply drop_while_shrinks. exact E.
Qed.

Lemma rstrip_by_first (s : pystr) (c : codepoint) :
  first_cp (rstrip_by p s) = Some c -> first_cp s = Some c.
Proof.
  destruct (rstrip_by_prefix s) as [suf H]. intros F.
  rewrite H. destruct (rstrip_by p s); [discriminate|exact F].
Qed.

End Stripping.

Lemma drop_while_all (p : codepoint -> bool) (s : pystr) :
  forallb p s = true -> drop_while p s = [].
Proof.
  induction s as [|c t IH]; cbn [forallb drop_while]; [reflexivity|].
  intros H. apply andb_true_iff in H. destruct H as [Hc Ht]. rewrite Hc. apply IH. exact Ht.
Qed.

Lemma drop_while_nil_all (p : codepoint -> bool) (s : pystr) :
  drop_while p s = [] -> forallb p s = true.
Proof.
  induction s as [|c t IH]; cbn [forallb drop_while]; [reflexivity|].
  destruct (p c); [exact IH|discriminate].
Qed.

Lemma drop_while_app_all (p : codepoint -> bool) (pre s : pystr) :
  forallb p pre = true -> drop_while p (pre ++ s) = drop_while p s.
Proof.
  induction pre as [|c pre IH]; cbn [forallb app drop_while]; [reflexivity|].
  intros H. apply andb_true_iff in H. destruct H as [Hc Hpre]. rewrite Hc. exact (IH Hpre).
Qed.

Lemma drop_while_split_all (p : codepoint -> bool) (s : pystr) :
  exists pre, s = pre ++ drop_while p s /\ forallb p pre = true.
Proof.
  induction s as [|c t [pre [IH Hpre]]]; cbn [drop_while].
  - exists []. split; reflexivity.
  - destruct (p c) eqn:E.
    + exists (c :: pre). cbn [app forallb]. rewrite E, Hpre. split; [f_equal; exact IH|reflexivity].
    + exists []. split; reflexivity.
Qed.

Lemma forallb_rev (p : codepoint -> bool) (s : pystr) :
  forallb p (rev s) = forallb p s.
Proof.
  induction s as [|c t IH]; [reflexivity|].
  cbn [rev forallb]. rewrite forallb_app, IH. cbn [forallb].
  rewrite andb_true_r. apply andb_comm.
Qed.

Lemma rstrip_by_app_all (p : codepoint -> bool) (s suf : pystr) :
  forallb p suf = true -> rstrip_by p (s ++ suf) = rstrip_by p s.
Proof.
  intros H. unfold rstrip_by. rewrite rev_app_distr, drop_while_app_all; [reflexivity|].
  rewrite forallb_rev. exact H.
Qed.

Lemma rstrip_by_prefix_all (p : codepoint -> bool) (s : pystr) :
  exists suf, s = rstrip_by p s ++ suf /\ forallb p suf = true.
Proof.
  destruct (drop_while_split_all p (rev s)) as [pre [H Hpre]].
  exists (rev pre). split.
  - unfold rstrip_by. rewrite <- rev_app_distr, <- H. symmetry. apply rev_involutive.
  - rewrite forallb_rev. exact Hpre.
Qed.

Lemma forallb_pointwise (p q : codepoint -> bool) (s : pystr) :
  (forall c, p c = q c) -> forallb p s = forallb q s.
Proof.
  intros H. induction s as [|c t IH]; [reflexivity|]. cbn [forallb]. rewrite H, IH. reflexivity.
Qed.

Lemma rstrip_by_ext (p q : codepoint -> bool) (s : pystr) :
  (forall c, p c = q c) -> rstrip_by p s = rstrip_by q s.
Proof.
  intros H. unfold rstrip_by. f_equal.
  induction (rev s) as [|c t IH]; cbn [drop_while]; [reflexivity|].
  rewrite H, IH. reflexivity.
Qed.

Lemma is_slash_spec (c : codepoint) : existsb (N.eqb c) (py "/") = (c =? 47)%N.
Proof. change (py "/") with [47%N]. cbn [existsb]. apply orb_false_r. Qed.

Lemma norm_base_no_trailing_slash (url : option pystr) :
  ends_with_slash (Gradio._norm_base url) = false.
Proof.
  unfold ends_with_slash, Gradio._norm_base, rstrip_chars.
  pose proof (rstrip_by_last (fun c => existsb (N.eqb c) (py "/")) (strip (or_empty url))) as H.
  unfold last_fails in H.
  destruct (last_cp _) as [c|]; [|reflexivity].
  rewrite is_slash_spec in H. exact H.
Qed.

Lemma norm_base_no_leading_space (url : option pystr) :
  starts_with_space (Gradio._norm_base url) = false.
Proof.
  unfold starts_with_space.
  destruct (first_cp (Gradio._norm_base url)) as [c|] eqn:F; [|reflexivity].
  unfold Gradio._norm_base, rstrip_chars, strip in F.
  apply rstrip_by_first in F. apply rstrip_by_first in F.
  pose proof (drop_while_head isspace (or_empty url)) as H.
  unfold head_fails, lstrip_by in *. rewrite F in H. exact H.
Qed.

Lemma norm_base_fixed (s : pystr) :
  starts_with_space s = false -> ends_with_space s = false ->
  ends_with_slash s = false -> Gradio._norm_base (Some s) = s.
Proof.
  unfold starts_with_space, ends_with_space, ends_with_slash.
  intros Hh Hl Hs. unfold Gradio._norm_base, rstrip_chars, strip, lstrip_by.
  cbn [or_empty].
  rewrite (drop_while_fixed isspace s).
  2:{ unfold head_fails. destruct (first_cp s); [exact Hh|exact I]. }
  rewrite (rstrip_by_fixed isspace s).
  2:{ unfold last_fails. destruct (last_cp s); [exact Hl|exact I]. }
  apply rstrip_by_fixed. unfold last_fails.
  destruct (last_cp s) as [c|]; [|exact I]. cbv beta. rewrite (is_slash_spec c). exact Hs.
Qed.

Lemma norm_base_shrinks (s : pystr) :
  starts_with_space s = false -> ends_with_space s = true ->
  List.length (Gradio._norm_base (Some s)) < List.length s.
Proof.
  unfold starts_with_space, ends_with_space. intros Hh Hl.
  unfold Gradio._norm_base, rstrip_chars, strip, lstrip_by. cbn [or_empty].
  rewrite (drop_while_fixed isspace s).
  2:{ unfold head_fails. destruct (first_cp s); [exact Hh|exact I]. }
  destruct (last_cp s) as [c|] eqn:L; [|discriminate].
  pose proof (rstrip_by_shrinks isspace s L Hl).
  pose proof (rstrip_by_length (fun c => existsb (N.eqb c) (py "/")) (rstrip_by isspace s)).
  lia.
Qed.

(** [_norm_base] computes the normal form [normalises] describes. *)
Lemma norm_base_normalises (url : option pystr) :
  normalises (or_empty url) (Gradio._norm_base url).
Proof.
  unfold Gradio._norm_base, rstrip_chars, strip, lstrip_by.
  set (base := or_empty url).
  destruct (drop_while_split_all isspace base) as [lead [Hl Hlead]].
  destruct (rstrip_by_prefix_all isspace (drop_while isspace base)) as [trail [Ht Htrail]].
  set (core := rstrip_by isspace (drop_while isspace base)) in *.
  destruct (rstrip_by_prefix_all (fun c => existsb (N.eqb c) (py "/")) core)
    as [slashes [Hs Hslashes]].
  exists lead, slashes, trail. rewrite <- Hs.
  split; [rewrite <- Ht; exact Hl|]. split; [exact Hlead|]. split; [exact Htrail|].
  split.
  { rewrite <- Hslashes. apply forallb_pointwise. intros c. symmetry. apply is_slash_spec. }
  split.
  { unfold starts_with_space. destruct (first_cp core) as [c|] eqn:F; [|reflexivity].
    unfold core in F. apply rstrip_by_first in F.
    pose proof (drop_while_head isspace base) as H. unfold head_fails in H.
    rewrite F in H. exact H. }
  split.
  { unfold ends_with_space. pose proof (rstrip_by_last isspace (drop_while isspace base)) as H.
    unfold last_fails in H. fold core in H.
    destruct (last_cp core); [exact H|reflexivity]. }
  exact (norm_base_no_trailing_slash url).
Qed.

(** The normal form is unique: it is what [_norm_base] returns. *)
Lemma normalises_norm_base (url : option pystr) (norm : pystr) :
  normalises (or_empty url) norm -> Gradio._norm_base url = norm.
Proof.
  intros [lead [slashes [trail [Hb [Hlead [Htrail [Hslashes [Hh [Hl Hs]]]]]]]]].
  unfold Gradio._norm_base, rstrip_chars, strip, lstrip_by. rewrite Hb.
  set (core := norm ++ slashes) in *.
  assert (rstrip_by isspace (drop_while isspace (lead ++ core ++ trail)) = core) as Hcore.
  { rewrite (drop_while_app_all isspace lead _ Hlead).
    destruct core as [|c t] eqn:E.
    - cbn [app]. rewrite (drop_while_all isspace trail Htrail). reflexivity.
    - unfold starts_with_space in Hh. cbn [first_cp hd_error] in Hh.
      cbn [app drop_while]. rewrite Hh.
      change (c :: t ++ trail) with ((c :: t) ++ trail).
      rewrite (rstrip_by_app_all isspace (c :: t) trail Htrail).
      apply rstrip_by_fixed. unfold last_fails. unfold ends_with_space in Hl.
      destruct (last_cp (c :: t)); [exact Hl|exact I]. }
  rewrite Hcore. unfold core.
  rewrite (rstrip_by_ext (fun c => existsb (N.eqb c) (py "/")) (fun c => (c =? 47)%N)
             (norm ++ slashes) is_slash_spec).
  rewrite (rstrip_by_app_all (fun c => (c =? 47)%N) norm slashes Hslashes).
  apply rstrip_by_fixed. unfold last_fails. unfold ends_with_slash in Hs.
  destruct (last_cp norm); [exact Hs|exact I].
Qed.

Lemma normalises_unique (base n1 n2 : pystr) :
  normalises base n1 -> normalises base n2 -> n1 = n2.
Proof.
  intros H1 H2.
  rewrite <- (normalises_norm_base (Some base) H1).
  exact (normalises_norm_base (Some base) H2).
Qed.

Example normalises_localhost :
  normalises (py " http://localhost:8000/ ") (py "http://localhost:8000").
Proof.
  exists (py " "), (py "/"), (py " "). repeat split; vm_compute; reflexivity.
Qed.

(** C10, as amended: the normalised URL never ends with a slash and never
    starts with whitespace, and normalising it again changes nothing exactly
    when it does not end with whitespace. *)
Theorem norm_base_idempotent_iff (url : option pystr) :
  ends_with_slash (Gradio._norm_base url) = false /\
  starts_with_space (Gradio._norm_base url) = false /\
  (Gradio._norm_base (Some (Gradio._norm_base url)) = Gradio._norm_base url
   <-> ends_with_space (Gradio._norm_base url) = false).
Proof.
  pose proof (norm_base_no_trailing_slash url) as Hs.
  pose proof (norm_base_no_leading_space url) as Hh.
  split; [exact Hs|]. split; [exact Hh|]. split.
  - intros E. destruct (ends_with_space (Gradio._norm_base url)) eqn:L; [|reflexivity].
    pose proof (norm_base_shrinks _ Hh L) as Hlt. rewrite E in Hlt. lia.
  - intros L. apply norm_base_fixed; assumption.
Qed.

(** C10, as stated, fails: whitespace in front of the trailing slashes
    survives the first normalisation and is removed by the second. *)
Lemma norm_base_not_idempotent :
  ~ (forall url : option pystr,
       Gradio._norm_base (Some (Gradio._norm_base url)) = Gradio._norm_base url /\
       ends_with_slash (Gradio._norm_base url) = false /\
       starts_with_space (Gradio._norm_base url) = false /\
       ends_with_space (Gradio._norm_base url) = false).
Proof.
  intros H. destruct (H (Some (py "http://localhost:8000 /"))) as [E _].
  vm_compute in E. discriminate E.
Qed.

Example norm_base_keeps_inner_space :
  Gradio._norm_base (Some (py "http://localhost:8000 /")) = py "http://localhost:8000 ".
Proof. reflexivity. Qed.

(* ================================================================= *)
(** ** Running programs *)

Lemma run_bind {S A B : Type} (w : world) (p : prog S A) (f : A -> prog S B) :
  forall s,
    run w s (bind p f) =
    match run w s p with
    | (s1, Ok a, t1) =>
        match run w s1 (f a) with
        | (s2, r, t2) => (s2, r, t1 ++ t2)
        end
    | (s1, Raise e, t1) => (s1, Raise e, t1)
    end.
Proof.
  induction p as [a|e|rq k IH|k IH|k IH|s' k IH]; intros s; cbn [bind run].
  - destruct (run w s (f a)) as [[s2 r] t2]. reflexivity.
  - reflexivity.
  - rewrite IH. destruct (run w s (k (backend w rq))) as [[s1 [a|e]] t1].
    + destruct (run w s1 (f a)) as [[s2 r] t2]. reflexivity.
    + reflexivity.
  - apply IH.
  - apply IH.
  - apply IH.
Qed.

Lemma run_try_except {S A : Type} (w : world) (p : prog S A)
      (catches : py_exception -> bool) (h : py_exception -> prog S A) :
  forall s,
    run w s (try_except p catches h) =
    match run w s p with
    | (s1, Ok a, t1) => (s1, Ok a, t1)
    | (s1, Raise e, t1) =>
        if catches e then
          match run w s1 (h e) with
          | (s2, r, t2) => (s2, r, t1 ++ t2)
          end
        else (s1, Raise e, t1)
    end.
Proof.
  induction p as [a|e|rq k IH|k IH|k IH|s' k IH]; intros s; cbn [try_except run].
  - reflexivity.
  - destruct (catches e); [|reflexivity].
    destruct (run w s (h e)) as [[s2 r] t2]. reflexivity.
  - rewrite IH. destruct (run w s (k (backend w rq))) as [[s1 [a|e]] t1].
    + reflexivity.
    + destruct (catches e); [|reflexivity].
      destruct (run w s1 (h e)) as [[s2 r] t2]. reflexivity.
  - apply IH.
  - apply IH.
  - apply IH.
Qed.

Lemma run_lift {S A : Type} (w : world) (s : S) (r : result A) :
  run w s (lift r) = (s, r, []).
Proof. destruct r; reflexivity. Qed.

Lemma run_send {S : Type} (w : world) (s : S) (rq : http_request) :
  run w s (send rq) =
  (s,
   match backend w rq with
   | Responded r => Ok r
   | Failed name is_request text => Raise (transport_error name is_request text)
   end,
   [rq]).
Proof. unfold send. cbn [run]. destruct (backend w rq); reflexivity. Qed.

(* ================================================================= *)
(** ** Health check *)

Lemma transport_error_is_Exception (name : pystr) (b : bool) (text : pystr) :
  is_Exception (transport_error name b text) = true.
Proof. destruct b; reflexivity. Qed.

Lemma streamlit_ping_run {S : Type} (w : world) (s : S) (api_base : pystr) :
  run w s (Streamlit.ping api_base) =
  (s, Ok (status_of (backend w (health_request api_base))), [health_request api_base]).
Proof.
  unfold Streamlit.ping, requests_get.
  rewrite run_try_except, run_bind, run_send.
  fold (health_request api_base).
  destruct (backend w (health_request api_base)) as [r|name b text]; cbn [status_of].
  - destruct (status_code r =? 200)%Z; reflexivity.
  - rewrite transport_error_is_Exception. reflexivity.
Qed.

Lemma gradio_ping_run {S : Type} (w : world) (s : S) (api_base : option pystr) :
  run w s (Gradio.ping api_base) =
  if is_empty (Gradio._norm_base api_base) then (s, Ok (false, py "URL vide"), [])
  else (s, Ok (status_of (backend w (health_request (Gradio._norm_base api_base)))),
        [health_request (Gradio._norm_base api_base)]).
Proof.
  unfold Gradio.ping. destruct (is_empty (Gradio._norm_base api_base)); [reflexivity|].
  exact (streamlit_ping_run w s (Gradio._norm_base api_base)).
Qed.

Lemma status_of_positive (w : world) (rq : http_request) :
  fst (status_of (backend w rq)) = true <-> returns_200 w rq.
Proof.
  unfold returns_200. destruct (backend w rq) as [r|name b text]; cbn [status_of].
  - destruct (status_code r =? 200)%Z eqn:E; cbn [fst].
    + apply Z.eqb_eq in E. split; [|reflexivity]. intros _. exists r. split; [reflexivity|exact E].
    + apply Z.eqb_neq in E. split; [discriminate|].
      intros [r' [H1 H2]]. injection H1 as <-. contradiction.
  - cbn [fst]. split; [discriminate|]. intros [r [H _]]. discriminate H.
Qed.

(** C2, as amended: in both front-ends [ping] never raises and sends at
    most one request.  The Streamlit one sends the GET of
    [{base_url}/health], and its status is positive exactly when that GET
    is answered with HTTP 200.  The Gradio one first normalises the base
    URL (no whitespace around it, then no slash at its end): when nothing is
    left it sends nothing and its status is negative; otherwise it sends
    the GET of [{normalised}/health], and its status is positive exactly
    when that GET is answered with HTTP 200.  Any other status code and any
    transport exception give a negative status. *)
Theorem ping_positive_iff_200 (w : world) :
  (forall (S : Type) (s : S) (api_base : pystr),
     exists ok msg,
       run w s (Streamlit.ping api_base) = (s, Ok (ok, msg), [health_request api_base]) /\
       (ok = true <-> returns_200 w (health_request api_base)))
  /\
  (forall (S : Type) (s : S) (api_base : option pystr),
     exists norm ok msg,
       normalises (or_empty api_base) norm /\
       run w s (Gradio.ping api_base)
       = (s, Ok (ok, msg), if is_empty norm then [] else [health_request norm]) /\
       (ok = true <-> norm <> [] /\ returns_200 w (health_request norm))).
Proof.
  split; intros S s api_base.
  - pose proof (status_of_positive w (health_request api_base)) as H.
    rewrite streamlit_ping_run.
    destruct (status_of (backend w (health_request api_base))) as [ok msg].
    exists ok, msg. split; [reflexivity|exact H].
  - exists (Gradio._norm_base api_base).
    pose proof (norm_base_normalises api_base) as Hn.
    rewrite gradio_ping_run.
    destruct (Gradio._norm_base api_base) as [|c norm] eqn:E; cbn [is_empty].
    + exists false, (py "URL vide"). split; [exact Hn|]. split; [reflexivity|].
      split; [discriminate|]. intros [H _]. contradiction.
    + pose proof (status_of_positive w (health_request (c :: norm))) as H.
      destruct (status_of (backend w (health_request (c :: norm)))) as [ok msg].
      exists ok, msg. split; [exact Hn|]. split; [reflexivity|].
      cbn [fst] in H. rewrite H. split; [intros H'; split; [discriminate|exact H']|].
      intros [_ H']. exact H'.
Qed.

(** C2, as stated, fails for the Gradio front-end on a base URL that ends
    with a slash: against a backend that serves [http://h/health] only,
    [ping] on [http://h/] is positive, although the GET of
    [{base_url}/health], which is [http://h//health], is answered 404. *)
Lemma gradio_ping_not_the_literal_url :
  ~ (forall (w : world) (api_base : pystr),
       exists ok msg sent,
         run w tt (Gradio.ping (Some api_base)) = (tt, Ok (ok, msg), sent) /\
         (ok = true <-> returns_200 w (health_request api_base))).
Proof.
  intros H.
  destruct (H (backend_serving (py "http://h/health")) (py "http://h/"))
    as [ok [msg [sent [E [Hok _]]]]].
  vm_compute in E. injection E as <- _ _.
  destruct (Hok eq_refl) as [r [Hr Hs]].
  vm_compute in Hr. injection Hr as <-. discriminate Hs.
Qed.

Example gradio_ping_trailing_slash :
  run (backend_serving (py "http://h/health")) tt (Gradio.ping (Some (py "http://h/")))
  = (tt, Ok (true, py "Connecté"), [mk_request GET (py "http://h/health") None 2]).
Proof. vm_compute. reflexivity. Qed.

Example streamlit_ping_trailing_slash :
  run (backend_serving (py "http://h/health")) tt (Streamlit.ping (py "http://h/"))
  = (tt, Ok (false, py "Réponse backend: 404"),
     [mk_request GET (py "http://h//health") None 2]).
Proof. vm_compute. reflexivity. Qed.

Lemma gradio_ping_as_streamlit {S : Type} (w : world) (s : S) (api_base : option pystr) :
  is_empty (Gradio._norm_base api_base) = false ->
  run w s (Gradio.ping api_base) = run w s (Streamlit.ping (Gradio._norm_base api_base)).
Proof.
  intros H. rewrite gradio_ping_run, streamlit_ping_run, H. reflexivity.
Qed.

(** C8, as amended: on a base URL that is not empty and is already
    normalised (no surrounding whitespace, no trailing slash) the two health
    checks send the same request and return the same (ok, message) pair
    against the same backend. *)
Theorem pings_agree_on_normalised (w : world) (api_base : pystr) :
  api_base <> [] ->
  Gradio._norm_base (Some api_base) = api_base ->
  run w tt (Gradio.ping (Some api_base)) = run w tt (Streamlit.ping api_base).
Proof.
  intros Hne Hnorm. rewrite gradio_ping_as_streamlit; rewrite Hnorm.
  - reflexivity.
  - destruct api_base; [contradiction|reflexivity].
Qed.

Lemma pings_agree_witness :
  py "http://localhost:8000" <> [] /\
  Gradio._norm_base (Some (py "http://localhost:8000")) = py "http://localhost:8000" /\
  run backend_down tt (Gradio.ping (Some (py "http://localhost:8000")))
  = run backend_down tt (Streamlit.ping (py "http://localhost:8000")).
Proof.
  split; [discriminate|]. split; [reflexivity|].
  apply (pings_agree_on_normalised backend_down (api_base := py "http://localhost:8000")).
  - discriminate.
  - reflexivity.
Defined.

(** C8, as stated, fails on the empty string: the Gradio front-end answers
    "URL vide" without sending anything, the Streamlit front-end sends the
    request and reports how it failed. *)
Lemma pings_differ_on_empty_url :
  ~ (forall (w : world) (api_base : pystr),
       outcome (run w tt (Gradio.ping (Some api_base)))
       = outcome (run w tt (Streamlit.ping api_base))).
Proof.
  intros H. specialize (H backend_down (py "")).
  vm_compute in H. discriminate H.
Qed.

Example gradio_ping_empty :
  run backend_down tt (Gradio.ping (Some (py ""))) = (tt, Ok (false, py "URL vide"), []).
Proof. reflexivity. Qed.

Example streamlit_ping_empty :
  run backend_down tt (Streamlit.ping (py ""))
  = (tt, Ok (false, py "Indisponible (MissingSchema)"), [health_request (py "")]).
Proof. reflexivity. Qed.

(** Whatever the backend does, the Streamlit health check never says
    "URL vide". *)
Lemma streamlit_ping_never_url_vide (w : world) (api_base : pystr) :
  outcome (run w tt (Streamlit.ping api_base)) <> Ok (false, py "URL vide").
Proof.
  rewrite streamlit_ping_run. unfold outcome. cbn [fst snd].
  destruct (backend w (health_request api_base)) as [r|name b text]; cbn [status_of].
  - destruct (status_code r =? 200)%Z; intros H; [discriminate H|].
    apply (f_equal (fun x => match x with Ok (_, m) => hd_error m | Raise _ => None end)) in H.
    lazy in H. discriminate H.
  - intros H.
    apply (f_equal (fun x => match x with Ok (_, m) => hd_error m | Raise _ => None end)) in H.
    lazy in H. discriminate H.
Qed.

(** A trailing slash is another input on which the two differ: the requests
    go to different URLs. *)
Example pings_request_different_urls :
  requests_sent (run backend_down tt (Gradio.ping (Some (py "http://h/"))))
    = [health_request (py "http://h")] /\
  requests_sent (run backend_down tt (Streamlit.ping (py "http://h/")))
    = [health_request (py "http://h/")].
Proof. split; reflexivity. Qed.

(* ================================================================= *)
(** ** The prediction request *)

Lemma post_predict_body_run {S : Type} (w : world) (s : S) (rq : http_request) :
  run w s (r <- send rq ;; lift (raise_for_status r) ;; lift (response_json r))
  = (s, predict_result (backend w rq), [rq]).
Proof.
  rewrite run_bind, run_send.
  destruct (backend w rq) as [r|name b text]; cbn [predict_result]; [|reflexivity].
  rewrite run_bind, run_lift. destruct (raise_for_status r) as [[]|e]; [|reflexivity].
  rewrite run_lift. reflexivity.
Qed.

Lemma streamlit_post_predict_run {S : Type} (w : world) (s : S)
      (api_base text : pystr) (top_k : Z) :
  run w s (Streamlit.post_predict api_base text top_k)
  = (s, predict_result (backend w (predict_request api_base text top_k)),
     [predict_request api_base text top_k]).
Proof. apply post_predict_body_run. Qed.

Lemma gradio_post_predict_run {S : Type} (w : world) (s : S)
      (api_base : option pystr) (text : pystr) (top_k : Z) :
  run w s (Gradio.post_predict api_base text top_k)
  = (s, predict_result (backend w (predict_request (Gradio._norm_base api_base) text top_k)),
     [predict_request (Gradio._norm_base api_base) text top_k]).
Proof. apply post_predict_body_run. Qed.

Lemma raise_for_status_ok (r : http_response) :
  (status_code r < 400 \/ 600 <= status_code r)%Z -> raise_for_status r = Ok tt.
Proof.
  intros H. unfold raise_for_status.
  destruct (400 <=? status_code r)%Z eqn:E1; destruct (status_code r <? 500)%Z eqn:E2;
    destruct (500 <=? status_code r)%Z eqn:E3; destruct (status_code r <? 600)%Z eqn:E4;
    cbn [andb]; try reflexivity; exfalso;
    repeat match goal with
           | E : (_ <=? _)%Z = true |- _ => apply Z.leb_le in E
           | E : (_ <=? _)%Z = false |- _ => apply Z.leb_gt in E
           | E : (_ <? _)%Z = true |- _ => apply Z.ltb_lt in E
           | E : (_ <? _)%Z = false |- _ => apply Z.ltb_ge in E
           end; lia.
Qed.

Lemma predict_result_success (r : http_response) (j : json) :
  (status_code r < 400 \/ 600 <= status_code r)%Z -> body r = Decoded j ->
  predict_result (Responded r) = Ok j.
Proof.
  intros Hs Hb. cbn [predict_result]. rewrite (raise_for_status_ok r Hs).
  unfold response_json. rewrite Hb. reflexivity.
Qed.

(** C7, as amended: [post_predict] sends exactly one request, a POST with
    a timeout of 20 seconds whose JSON body is the object with the two
    fields [text] and [top_k]; the Streamlit one sends it to
    [{base_url}/predict], the Gradio one to [{normalised}/predict], where
    the normalised URL is the base URL without the whitespace around it and
    then without the slashes at its end.  When the backend answers without
    an error status and with a JSON body, [post_predict] returns the decoded
    body. *)
Theorem post_predict_sends_text_and_top_k (w : world) :
  (forall (api_base : option pystr) (text : pystr) (top_k : Z),
     exists norm,
       normalises (or_empty api_base) norm /\
       requests_sent (run w tt (Gradio.post_predict api_base text top_k))
       = [mk_request POST (norm ++ py "/predict")
            (Some (JObj [(py "text", JStr text); (py "top_k", JInt top_k)])) 20] /\
       forall r j,
         backend w (predict_request norm text top_k) = Responded r ->
         (status_code r < 400 \/ 600 <= status_code r)%Z ->
         body r = Decoded j ->
         outcome (run w tt (Gradio.post_predict api_base text top_k)) = Ok j)
  /\
  (forall (api_base text : pystr) (top_k : Z),
     requests_sent (run w tt (Streamlit.post_predict api_base text top_k))
     = [mk_request POST (api_base ++ py "/predict")
          (Some (JObj [(py "text", JStr text); (py "top_k", JInt top_k)])) 20] /\
     forall r j,
       backend w (predict_request api_base text top_k) = Responded r ->
       (status_code r < 400 \/ 600 <= status_code r)%Z ->
       body r = Decoded j ->
       outcome (run w tt (Streamlit.post_predict api_base text top_k)) = Ok j).
Proof.
  split; intros api_base text top_k.
  - exists (Gradio._norm_base api_base). split; [apply norm_base_normalises|].
    rewrite gradio_post_predict_run. split; [reflexivity|].
    intros r j Hb Hs Hj. unfold outcome. cbn [fst snd]. rewrite Hb.
    apply predict_result_success; assumption.
  - rewrite streamlit_post_predict_run. split; [reflexivity|].
    intros r j Hb Hs Hj. unfold outcome. cbn [fst snd]. rewrite Hb.
    apply predict_result_success; assumption.
Qed.

Lemma post_predict_witness :
  (requests_sent (run (backend_replying (Decoded cold_reply)) tt
                    (Gradio.post_predict (Some (py " http://localhost:8000/ ")) (py "toux") 3))
   = [mk_request POST (py "http://localhost:8000/predict")
        (Some (JObj [(py "text", JStr (py "toux")); (py "top_k", JInt 3)])) 20] /\
   outcome (run (backend_replying (Decoded cold_reply)) tt
              (Gradio.post_predict (Some (py " http://localhost:8000/ ")) (py "toux") 3))
   = Ok cold_reply)
  /\
  (requests_sent (run (backend_replying (Decoded cold_reply)) tt
                    (Streamlit.post_predict (py "http://localhost:8000") (py "toux") 3))
   = [mk_request POST (py "http://localhost:8000" ++ py "/predict")
        (Some (JObj [(py "text", JStr (py "toux")); (py "top_k", JInt 3)])) 20] /\
   outcome (run (backend_replying (Decoded cold_reply)) tt
              (Streamlit.post_predict (py "http://localhost:8000") (py "toux") 3))
   = Ok cold_reply).
Proof.
  destruct (post_predict_sends_text_and_top_k (backend_replying (Decoded cold_reply)))
    as [G S].
  split.
  - destruct (G (Some (py " http://localhost:8000/ ")) (py "toux") 3%Z)
      as [norm [Hn [Hsent Hout]]].
    assert (norm = py "http://localhost:8000") as ->
      by exact (normalises_unique Hn normalises_localhost).
    split; [exact Hsent|].
    apply (Hout (mk_response 200 (py "OK") (py "http://localhost:8000/predict")
                   (Decoded cold_reply))).
    + reflexivity.
    + left. reflexivity.
    + reflexivity.
  - destruct (S (py "http://localhost:8000") (py "toux") 3%Z) as [Hsent Hout].
    split; [exact Hsent|].
    apply (Hout (mk_response 200 (py "OK") (py "http://localhost:8000/predict")
                   (Decoded cold_reply))).
    + reflexivity.
    + left. reflexivity.
    + reflexivity.
Defined.

(** C7, as stated, fails for the Gradio front-end on a base URL that ends
    with a slash: the request goes to [http://h/predict], not to
    [{base_url}/predict], which is [http://h//predict]. *)
Lemma gradio_post_not_the_literal_url :
  ~ (forall (w : world) (api_base text : pystr) (top_k : Z),
       requests_sent (run w tt (Gradio.post_predict (Some api_base) text top_k))
       = [mk_request POST (api_base ++ py "/predict")
            (Some (JObj [(py "text", JStr text); (py "top_k", JInt top_k)])) 20]).
Proof.
  intros H. specialize (H backend_down (py "http://h/") (py "toux") 3%Z).
  vm_compute in H. discriminate H.
Qed.

Example gradio_post_trailing_slash :
  requests_sent (run backend_down tt
                   (Gradio.post_predict (Some (py "http://h/")) (py "toux") 3))
  = [mk_request POST (py "http://h/predict")
       (Some (JObj [(py "text", JStr (py "toux")); (py "top_k", JInt 3)])) 20].
Proof. vm_compute. reflexivity. Qed.

(* ================================================================= *)
(** ** The predictions table *)

Lemma str_eqb_eq (a b : pystr) : str_eqb a b = true <-> a = b.
Proof.
  revert b. induction a as [|x a IH]; intros [|y b]; cbn [str_eqb];
    try (split; [discriminate|discriminate]); [tauto|].
  rewrite andb_true_iff, N.eqb_eq, IH. split.
  - intros [-> ->]. reflexivity.
  - intros H. injection H as -> ->. split; reflexivity.
Qed.

Lemma str_eqb_refl (a : pystr) : str_eqb a a = true.
Proof. apply str_eqb_eq. reflexivity. Qed.

Lemma label_eqb_eq (a b : label) : label_eqb a b = true <-> a = b.
Proof.
  destruct a as [x|x], b as [y|y]; cbn [label_eqb].
  - rewrite str_eqb_eq. split; [intros ->; reflexivity|intros H; injection H as ->; reflexivity].
  - split; discriminate.
  - split; discriminate.
  - rewrite Z.eqb_eq. split; [intros ->; reflexivity|intros H; injection H as ->; reflexivity].
Qed.

Lemma has_column_In (l : label) (df : DataFrame) :
  has_column l df = true <-> In l (columns df).
Proof.
  unfold has_column. rewrite existsb_exists. split.
  - intros [x [Hx E]]. apply label_eqb_eq in E. subst x. exact Hx.
  - intros H. exists l. split; [exact H|]. apply label_eqb_eq. reflexivity.
Qed.

Lemma filter_label_absent (l : label) (cols : list label) :
  ~ In l cols -> filter (label_eqb l) cols = [].
Proof.
  induction cols as [|c cols IH]; intros H; cbn [filter]; [reflexivity|].
  destruct (label_eqb l c) eqn:E.
  - apply label_eqb_eq in E. subst c. exfalso. apply H. left. reflexivity.
  - apply IH. intros HI. apply H. right. exact HI.
Qed.

Lemma filter_label_unique (l : label) (cols : list label) :
  NoDup cols -> In l cols -> filter (label_eqb l) cols = [l].
Proof.
  induction cols as [|c cols IH]; intros ND HI; [contradiction|].
  inversion ND as [|c' cols' Hnot ND']; subst. cbn [filter].
  destruct (label_eqb l c) eqn:E.
  - apply label_eqb_eq in E. subst c. f_equal. apply filter_label_absent. exact Hnot.
  - destruct HI as [->|HI].
    + assert (label_eqb l l = true) as E' by (apply label_eqb_eq; reflexivity).
      rewrite E' in E. discriminate E.
    + apply IH; assumption.
Qed.

Lemma NoDup_snoc {A : Type} (l : list A) (x : A) :
  NoDup l -> ~ In x l -> NoDup (l ++ [x]).
Proof.
  intros ND H. apply NoDup_rev in ND.
  rewrite <- (rev_involutive (l ++ [x])). apply NoDup_rev.
  rewrite rev_app_distr. cbn [rev app]. constructor; [|exact ND].
  rewrite <- in_rev. exact H.
Qed.

Lemma add_keys_NoDup (keys seen : list pystr) :
  NoDup seen -> NoDup (add_keys seen keys).
Proof.
  revert seen. induction keys as [|k keys IH]; intros seen ND; cbn [add_keys]; [exact ND|].
  destruct (existsb (str_eqb k) seen) eqn:E; [apply IH; exact ND|].
  apply IH. apply NoDup_snoc; [exact ND|].
  intros HI. assert (existsb (str_eqb k) seen = true) as E'.
  { apply existsb_exists. exists k. split; [exact HI|apply str_eqb_refl]. }
  rewrite E' in E. discriminate E.
Qed.

Lemma record_columns_NoDup (recs : list dict) : NoDup (record_columns recs).
Proof.
  unfold record_columns.
  assert (forall seen, NoDup seen ->
            NoDup (fold_left (fun seen d => add_keys seen (List.map fst d)) recs seen)) as H.
  { induction recs as [|d recs IH]; intros seen ND; cbn [fold_left]; [exact ND|].
    apply IH. apply add_keys_NoDup. exact ND. }
  apply H. constructor.
Qed.

Lemma frame_of_records_NoDup (k : coercion) (recs : list dict) :
  NoDup (columns (frame_of_records k recs)).
Proof.
  unfold frame_of_records. cbn [columns].
  pose proof (record_columns_NoDup recs) as ND.
  induction ND as [|c cols Hnot ND IH]; cbn [List.map]; constructor; [|exact IH].
  rewrite in_map_iff. intros [c' [E HI]]. injection E as ->. contradiction.
Qed.

Lemma ensure_column_spec (l : label) (v : cell) (df : DataFrame) :
  NoDup (columns df) ->
  NoDup (columns (ensure_column l v df)) /\
  In l (columns (ensure_column l v df)) /\
  (forall l', In l' (columns df) -> In l' (columns (ensure_column l v df))).
Proof.
  intros ND. unfold ensure_column, set_column.
  destruct (has_column l df) eqn:E; cbn [negb columns].
  - apply has_column_In in E. repeat split; auto.
  - assert (~ In l (columns df)) as Hnot.
    { intros HI. apply has_column_In in HI. rewrite HI in E. discriminate E. }
    repeat split.
    + apply NoDup_snoc; assumption.
    + apply in_or_app. right. left. reflexivity.
    + intros l' HI. apply in_or_app. left. exact HI.
Qed.

Lemma select_two (a b : label) (df : DataFrame) :
  NoDup (columns df) -> In a (columns df) -> In b (columns df) ->
  exists out, select [a; b] df = Ok out /\ columns out = [a; b].
Proof.
  intros ND Ha Hb. unfold select. cbn [forallb].
  rewrite (proj2 (has_column_In a df) Ha), (proj2 (has_column_In b df) Hb). cbn [andb].
  eexists. split; [reflexivity|]. cbn [columns flat_map].
  rewrite 2 filter_label_unique by assumption. reflexivity.
Qed.

(** The two ways [predictions_to_df] goes on a well-shaped entry. *)
Lemma predictions_to_df_cases (rt : runtime) (d : dict) :
  predictions_well_shaped d = true ->
  (prediction_items d = [] /\
   Gradio.predictions_to_df rt (JObj d) = Ok (empty_frame Gradio.df_columns))
  \/
  (exists recs,
     all_records (prediction_items d) = Some recs /\
     Gradio.predictions_to_df rt (JObj d)
     = select [LStr (py "disease"); LStr (py "probability")]
         (ensure_column (LStr (py "probability")) (Val JNull)
            (ensure_column (LStr (py "disease")) (Val (JStr (py "")))
               (frame_of_records (frame_coercion rt) recs)))).
Proof.
  unfold predictions_well_shaped, prediction_items, Gradio.predictions_to_df.
  cbn [py_get]. set (preds0 := dict_get d (py "predictions") (JArr [])).
  unfold py_or. intros H.
  destruct (truthy preds0) eqn:T; cbn [negb orb] in H.
  - right. rewrite T. cbn [negb].
    destruct preds0 as [| | | | |items|]; try discriminate H.
    unfold pd_DataFrame, DataFrame_of.
    destruct (all_records items) as [recs|]; [|discriminate H].
    exists recs. split; reflexivity.
  - left. cbn [truthy negb]. split; [|reflexivity].
    destruct preds0 as [| | | | |items|]; try reflexivity.
    destruct items; [reflexivity|discriminate T].
Qed.

Lemma ensured_frame_columns (k : coercion) (recs : list dict) :
  exists df,
    select [LStr (py "disease"); LStr (py "probability")]
      (ensure_column (LStr (py "probability")) (Val JNull)
         (ensure_column (LStr (py "disease")) (Val (JStr (py "")))
            (frame_of_records k recs))) = Ok df /\
    columns df = [LStr (py "disease"); LStr (py "probability")].
Proof.
  pose proof (frame_of_records_NoDup k recs) as ND.
  destruct (@ensure_column_spec (LStr (py "disease")) (Val (JStr (py ""))) _ ND)
    as [ND1 [In1 _]].
  destruct (@ensure_column_spec (LStr (py "probability")) (Val JNull) _ ND1)
    as [ND2 [In2 Keep]].
  apply select_two; auto.
Qed.

Lemma predictions_to_df_returns (rt : runtime) (d : dict) :
  predictions_well_shaped d = true ->
  exists df, Gradio.predictions_to_df rt (JObj d) = Ok df.
Proof.
  intros H. destruct (predictions_to_df_cases rt d H) as [[_ E]|[recs [_ E]]]; rewrite E.
  - eexists. reflexivity.
  - destruct (ensured_frame_columns (frame_coercion rt) recs) as [df [Ed _]].
    exists df. exact Ed.
Qed.

Lemma all_records_length (items : list json) (recs : list dict) :
  all_records items = Some recs -> List.length recs = List.length items.
Proof.
  revert recs. induction items as [|j items IH]; intros recs; cbn [all_records].
  - intros H. injection H as <-. reflexivity.
  - destruct j; try discriminate.
    destruct (all_records items) as [ds|]; [|discriminate].
    intros H. injection H as <-. cbn [List.length]. f_equal. apply IH. reflexivity.
Qed.

Lemma ensure_column_rows (l : label) (v : cell) (df : DataFrame) :
  List.length (rows (ensure_column l v df)) = List.length (rows df).
Proof.
  unfold ensure_column, set_column.
  destruct (has_column l df); cbn [negb rows]; [reflexivity|].
  apply length_map.
Qed.

Lemma select_rows (ls : list label) (df out : DataFrame) :
  select ls df = Ok out -> List.length (rows out) = List.length (rows df).
Proof.
  unfold select. destruct (forallb _ ls); [|discriminate].
  intros H. injection H as <-. cbn [rows]. apply length_map.
Qed.

(** C9, as amended: when the [predictions] entry is missing, falsy (an
    empty list, null) or a list of dicts, whatever keys those dicts have,
    [predictions_to_df] returns a frame whose columns are exactly
    [disease], [probability], in that order, with one row per prediction. *)
Theorem predictions_to_df_columns (rt : runtime) (d : dict) :
  predictions_well_shaped d = true ->
  exists df,
    Gradio.predictions_to_df rt (JObj d) = Ok df /\
    columns df = [LStr (py "disease"); LStr (py "probability")] /\
    List.length (rows df) = List.length (prediction_items d).
Proof.
  intros H. destruct (predictions_to_df_cases rt d H) as [[Hnil E]|[recs [Hrecs E]]]; rewrite E.
  - exists (empty_frame Gradio.df_columns). rewrite Hnil. repeat split.
  - destruct (ensured_frame_columns (frame_coercion rt) recs) as [df [Ed Hcols]].
    exists df. split; [exact Ed|]. split; [exact Hcols|].
    rewrite (select_rows _ _ Ed), !ensure_column_rows.
    unfold frame_of_records. cbn [rows]. rewrite length_map.
    apply all_records_length. exact Hrecs.
Qed.

Lemma predictions_to_df_witness :
  predictions_well_shaped
    [(py "predictions", JArr [JObj [(py "probability", JFloat 0.5%float)]; JObj []])] = true /\
  exists df,
    Gradio.predictions_to_df plain_runtime
      (JObj [(py "predictions", JArr [JObj [(py "probability", JFloat 0.5%float)]; JObj []])])
    = Ok df /\
    columns df = [LStr (py "disease"); LStr (py "probability")] /\
    List.length (rows df)
    = List.length
        (prediction_items
           [(py "predictions", JArr [JObj [(py "probability", JFloat 0.5%float)]; JObj []])]).
Proof.
  split; [reflexivity|].
  apply predictions_to_df_columns. reflexivity.
Defined.

(** C9, as stated, fails: a [predictions] entry that is a number reaches
    [pd.DataFrame], which refuses it. *)
Lemma predictions_to_df_raises_on_scalar :
  ~ (forall (rt : runtime) (d : dict),
       exists df,
         Gradio.predictions_to_df rt (JObj d) = Ok df /\
         columns df = [LStr (py "disease"); LStr (py "probability")]).
Proof.
  intros H.
  destruct (H plain_runtime [(py "predictions", JInt 5)]) as [df [E _]].
  vm_compute in E. discriminate E.
Qed.

Example predictions_to_df_scalar (rt : runtime) :
  Gradio.predictions_to_df rt (JObj [(py "predictions", JInt 5)])
  = Raise (ValueError (py "DataFrame constructor not properly called!")).
Proof. reflexivity. Qed.

(** An int beside a missing cell is stored as a float. *)
Example predictions_to_df_partial :
  Gradio.predictions_to_df plain_runtime
    (JObj [(py "predictions",
            JArr [JObj [(py "probability", JInt 1); (py "extra", JNull)]; JObj []])])
  = Ok (mk_frame [LStr (py "disease"); LStr (py "probability")]
          [[Val (JStr (py "")); Val (JFloat 1%float)]; [Val (JStr (py "")); NaN]]).
Proof. vm_compute. reflexivity. Qed.

(* ================================================================= *)
(** ** Replies that follow the documented schema *)

Lemma contains_here (pre s post : pystr) : contains s (pre ++ s ++ post).
Proof. exists pre, post. reflexivity. Qed.

Lemma contains_app_r (s a b : pystr) : contains s b -> contains s (a ++ b).
Proof.
  intros [pre [post ->]]. exists (a ++ pre), post. rewrite <- app_assoc. reflexivity.
Qed.

Lemma contains_app_l (s a b : pystr) : contains s a -> contains s (a ++ b).
Proof.
  intros [pre [post ->]]. exists pre, (post ++ b). rewrite <- !app_assoc. reflexivity.
Qed.

Lemma contains_refl (s : pystr) : contains s s.
Proof. exists [], []. rewrite app_nil_r. reflexivity. Qed.

Lemma summary_text_contains (primary : pystr) (d : dict) :
  contains primary (summary_text primary d) /\
  contains (shown_symptoms d) (summary_text primary d).
Proof.
  unfold summary_text. split.
  - apply contains_here.
  - do 5 apply contains_app_r. apply contains_refl.
Qed.

Lemma is_str_list_strings (items : list json) :
  forallb is_str items = true -> items = List.map JStr (strings_of items).
Proof.
  induction items as [|j items IH]; cbn [forallb]; [reflexivity|].
  intros H. apply andb_true_iff in H. destruct H as [Hj Hrest].
  destruct j; try discriminate Hj. cbn. f_equal. apply IH. exact Hrest.
Qed.

Lemma join_items_strings (l : list pystr) (i : Z) :
  join_items i (List.map JStr l) = Ok l.
Proof.
  revert i. induction l as [|s l IH]; intros i; cbn [List.map join_items]; [reflexivity|].
  rewrite IH. reflexivity.
Qed.

Lemma str_join_strings (sep : pystr) (l : list pystr) :
  str_join sep (JArr (List.map JStr l)) = Ok (join sep l).
Proof. unfold str_join. cbn [py_iter]. rewrite join_items_strings. reflexivity. Qed.

(** The text both front-ends show for the symptoms of a reply whose
    [found_symptoms] is missing or a list of strings. *)
Lemma found_str_valid (d : dict) :
  optional is_str_list (py "found_symptoms") d = true ->
  (let found := py_or (dict_get d (py "found_symptoms") (JArr [])) (JArr []) in
   if truthy found then str_join (py ", ") found else Ok (py "—"))
  = Ok (shown_symptoms d).
Proof.
  unfold optional, shown_symptoms, found_symptoms_of, dict_get.
  destruct (dict_lookup (py "found_symptoms") d) as [v|]; [|intros _; reflexivity].
  intros H. destruct v as [| | | | |items|]; try discriminate H.
  cbn [is_str_list] in H. pose proof (is_str_list_strings items H) as E.
  remember (strings_of items) as syms eqn:Hs. clear Hs H. subst items.
  destruct syms as [|s l]; [reflexivity|].
  cbv zeta. unfold py_or. cbn [List.map truthy].
  change (JStr s :: List.map JStr l) with (List.map JStr (s :: l)).
  apply str_join_strings.
Qed.

Lemma valid_response_fields (d : dict) :
  valid_response d = true ->
  (exists p, dict_lookup (py "primary_disease") d = Some (JStr p)) /\
  optional is_str_list (py "found_symptoms") d = true /\
  optional is_prediction_list (py "predictions") d = true /\
  optional is_str (py "specialist") d = true /\
  optional is_str_list (py "precautions") d = true /\
  optional is_str_list (py "typical_symptoms") d = true.
Proof.
  unfold valid_response. rewrite !andb_true_iff.
  intros [[[[[H1 H2] H3] H4] H5] H6]. repeat split; try assumption.
  destruct (dict_lookup (py "primary_disease") d) as [[| | | |p| |]|];
    try discriminate H1. exists p. reflexivity.
Qed.

Lemma streamlit_summary_valid (rt : runtime) (d : dict) (p : pystr) :
  dict_lookup (py "primary_disease") d = Some (JStr p) ->
  optional is_str_list (py "found_symptoms") d = true ->
  Streamlit.format_assistant_summary rt (JObj d) = Ok (summary_text p d).
Proof.
  intros Hp Hf. unfold Streamlit.format_assistant_summary. cbn [py_get].
  pose proof (found_str_valid d Hf) as E. cbv zeta in E. rewrite E.
  unfold dict_get. rewrite Hp. reflexivity.
Qed.

(* ================================================================= *)
(** ** The send handlers *)

Lemma set_last_snoc {A : Type} (l : list A) (x y : A) :
  set_last (l ++ [x]) y = Ok (l ++ [y]).
Proof.
  unfold set_last. rewrite removelast_last.
  destruct l; reflexivity.
Qed.

(** [on_send] with a blank message: nothing is sent, nothing changes. *)
Lemma on_send_blank (rt : runtime) (w : world) (user_text api_url : option pystr)
      (top_k : Z) (history : option (list Gradio.turn)) :
  is_empty (strip (or_empty user_text)) = true ->
  run w tt (Gradio.on_send rt user_text api_url top_k history)
  = (tt, Ok (error_outputs (or_nil history)), []).
Proof.
  intros H. unfold Gradio.on_send. cbv zeta. rewrite H. reflexivity.
Qed.

(** [on_send] when [post_predict] raises a [RequestException]. *)
Lemma on_send_request_error (rt : runtime) (w : world) (user_text api_url : option pystr)
      (top_k : Z) (history : option (list Gradio.turn)) (e : py_exception) :
  is_empty (strip (or_empty user_text)) = false ->
  predict_result (backend w (gradio_send_request user_text api_url top_k)) = Raise e ->
  is_RequestException e = true ->
  run w tt (Gradio.on_send rt user_text api_url top_k history)
  = (tt,
     Ok (error_outputs
           (or_nil history
              ++ [(strip (or_empty user_text), Gradio.error_text api_url e)])),
     [gradio_send_request user_text api_url top_k]).
Proof.
  intros Hne Hres Hreq. unfold Gradio.on_send. cbv zeta. rewrite Hne.
  rewrite run_try_except, run_bind, gradio_post_predict_run.
  fold (gradio_send_request user_text api_url top_k). rewrite Hres, Hreq.
  rewrite run_bind, run_lift. fold (or_nil history). rewrite set_last_snoc.
  cbn [run]. reflexivity.
Qed.


Lemma gradio_error_text_contains (api_url : pystr) (e : py_exception) :
  contains api_url (Gradio.error_text (Some api_url) e) /\
  contains (exc_text e) (Gradio.error_text (Some api_url) e).
Proof.
  unfold Gradio.error_text. cbn [fmt_opt]. split.
  - do 4 apply contains_app_r. apply contains_app_l. apply contains_refl.
  - do 8 apply contains_app_r. apply contains_app_l. apply contains_refl.
Qed.

Lemma streamlit_error_text_contains (api_url : pystr) (e : py_exception) :
  contains api_url (Streamlit.error_text api_url e) /\
  contains (exc_text e) (Streamlit.error_text api_url e).
Proof.
  unfold Streamlit.error_text. split.
  - do 4 apply contains_app_r. apply contains_app_l. apply contains_refl.
  - do 8 apply contains_app_r. apply contains_app_l. apply contains_refl.
Qed.

Lemma run_append_message (w : world) (msgs : list Streamlit.message)
      (raw : option json) (m : Streamlit.message) :
  run w (session msgs raw) (Streamlit.append_message m)
  = (session (msgs ++ [m]) raw, Ok tt, []).
Proof. reflexivity. Qed.

(** The chat input handler when [post_predict] raises a
    [RequestException]: the user's message and one assistant message are
    appended, then the script asks for a rerun. *)
Lemma chat_input_request_error (rt : runtime) (w : world) (api_url text : pystr)
      (top_k : Z) (msgs : list Streamlit.message) (raw : option json)
      (e : py_exception) :
  is_empty text = false ->
  predict_result (backend w (predict_request api_url text top_k)) = Raise e ->
  is_RequestException e = true ->
  run w (session msgs raw) (Streamlit.chat_input_handler rt api_url top_k (Some text))
  = (session (msgs ++ [user_message text; assistant_message (Streamlit.error_text api_url e)]) raw,
     Raise Streamlit.RerunException,
     [predict_request api_url text top_k]).
Proof.
  intros Hne Hres Hreq. unfold Streamlit.chat_input_handler. cbn [or_empty].
  rewrite Hne. fold (user_message text).
  rewrite run_bind, run_append_message.
  rewrite run_try_except, run_bind, streamlit_post_predict_run, Hres, Hreq.
  fold (assistant_message (Streamlit.error_text api_url e)).
  rewrite run_bind, run_append_message. cbn [run Streamlit.st_rerun app].
  rewrite <- app_assoc. reflexivity.
Qed.


(** *** Replies that follow the schema *)

Lemma py_or_listlike (v : json) :
  listlike v = true -> exists items, py_or v (JArr []) = JArr items.
Proof.
  unfold py_or, listlike. intros H.
  destruct v as [| | | | |items|]; cbn [truthy] in *;
    try (apply negb_true_iff in H; rewrite H);
    try (eexists; reflexivity).
  destruct items; eexists; reflexivity.
Qed.

Lemma optional_listlike (key : pystr) (d : dict) :
  optional is_str_list key d = true -> listlike (dict_get d key (JArr [])) = true.
Proof.
  unfold optional, dict_get. destruct (dict_lookup key d) as [v|]; [|reflexivity].
  destruct v; try discriminate. reflexivity.
Qed.

Lemma tags_html_list (rt : runtime) (items : list json) (variant : pystr) :
  exists h, Gradio.tags_html rt (JArr items) variant = Ok h.
Proof.
  unfold Gradio.tags_html. destruct (negb (truthy (JArr items))); eexists; reflexivity.
Qed.

Lemma build_details_html_run {S : Type} (rt : runtime) (w : world) (s : S) (d : dict) :
  listlike (dict_get d (py "found_symptoms") (JArr [])) = true ->
  listlike (dict_get d (py "precautions") (JArr [])) = true ->
  listlike (dict_get d (py "typical_symptoms") (JArr [])) = true ->
  exists h, run w s (Gradio.build_details_html rt (JObj d)) = (s, Ok h, []).
Proof.
  intros Hf Hp Ht. unfold Gradio.build_details_html. cbn [py_get lift bind].
  destruct (py_or_listlike _ Hf) as [found ->].
  destruct (py_or_listlike _ Hp) as [precautions ->].
  destruct (py_or_listlike _ Ht) as [typical ->].
  destruct (tags_html_list rt found (py "tag")) as [fh ->].
  destruct (tags_html_list rt typical (py "tag2")) as [th ->].
  destruct (truthy (JArr precautions)); cbn [py_iter lift bind utcnow_isoformat run];
    eexists; reflexivity.
Qed.

Lemma all_records_predictions (items : list json) :
  forallb is_prediction items = true -> exists recs, all_records items = Some recs.
Proof.
  induction items as [|j items IH]; cbn [forallb all_records]; [eexists; reflexivity|].
  intros H. apply andb_true_iff in H. destruct H as [Hj Hrest].
  destruct j; try discriminate Hj. destruct (IH Hrest) as [recs ->].
  eexists. reflexivity.
Qed.

Lemma valid_predictions_well_shaped (d : dict) :
  optional is_prediction_list (py "predictions") d = true ->
  predictions_well_shaped d = true.
Proof.
  unfold optional, predictions_well_shaped, dict_get.
  destruct (dict_lookup (py "predictions") d) as [v|]; [|reflexivity].
  intros H. destruct v as [| | | | |items|]; try discriminate H.
  cbn [is_prediction_list] in H. destruct (all_records_predictions items H) as [recs ->].
  apply orb_true_r.
Qed.

Lemma lift_if {S A : Type} (c : bool) (a : result A) (b : A) :
  (if c then lift a else Ret b) = lift (S := S) (if c then a else Ok b).
Proof. destruct c; reflexivity. Qed.

(** [on_send] on a reply that follows the schema. *)
Lemma on_send_valid_reply (rt : runtime) (w : world) (user_text api_url : option pystr)
      (top_k : Z) (history : option (list Gradio.turn))
      (r : http_response) (d : dict) (p : pystr) :
  is_empty (strip (or_empty user_text)) = false ->
  backend w (gradio_send_request user_text api_url top_k) = Responded r ->
  (status_code r < 400 \/ 600 <= status_code r)%Z ->
  body r = Decoded (JObj d) ->
  valid_response d = true ->
  dict_lookup (py "primary_disease") d = Some (JStr p) ->
  exists details df,
    run w tt (Gradio.on_send rt user_text api_url top_k history)
    = (tt,
       Ok {| Gradio.s_user_text := py "";
             Gradio.s_chatbot :=
               or_nil history ++ [(strip (or_empty user_text), summary_text p d)];
             Gradio.s_history_state :=
               or_nil history ++ [(strip (or_empty user_text), summary_text p d)];
             Gradio.s_last_raw := Some (JObj d);
             Gradio.s_details := details;
             Gradio.s_preds_table := df |},
       [gradio_send_request user_text api_url top_k]).
Proof.
  intros Hne Hb Hs Hj Hv Hp.
  destruct (valid_response_fields d Hv) as [_ [Hfound [Hpreds [_ [Hprec Htyp]]]]].
  destruct (build_details_html_run (S := unit) rt w tt d
              (optional_listlike _ _ Hfound) (optional_listlike _ _ Hprec)
              (optional_listlike _ _ Htyp)) as [details Hd].
  destruct (predictions_to_df_returns rt d (valid_predictions_well_shaped d Hpreds))
    as [df Hdf].
  exists details, df.
  unfold Gradio.on_send. cbv zeta. rewrite Hne.
  rewrite run_try_except, run_bind, gradio_post_predict_run.
  fold (gradio_send_request user_text api_url top_k).
  rewrite Hb, (predict_result_success r Hs Hj).
  cbn [py_get lift bind]. rewrite lift_if.
  pose proof (found_str_valid d Hfound) as Ef. cbv zeta in Ef. rewrite Ef.
  cbn [lift bind]. fold (or_nil history). rewrite set_last_snoc. cbn [lift bind].
  rewrite run_bind, Hd, Hdf. cbn [lift bind run app].
  unfold dict_get. rewrite Hp. reflexivity.
Qed.

Lemma py_float_ordinary (rt : runtime) (x : json) (e : py_exception) :
  py_float rt x = Raise e -> is_Exception e = true.
Proof.
  unfold py_float. destruct x; try (intros H; injection H as <-; reflexivity);
    try discriminate;
    destruct (float_other rt _); try discriminate;
    intros H; injection H as <-; reflexivity.
Qed.

Lemma top_confidence_run (rt : runtime) (w : world) (s : Streamlit.session_state)
      (preds : json) :
  exists c, run w s (Streamlit.top_confidence rt preds) = (s, Ok c, []).
Proof.
  unfold Streamlit.top_confidence.
  destruct preds as [| | | | |items|]; try (eexists; reflexivity).
  destruct items as [|first rest]; [eexists; reflexivity|].
  destruct first as [| | | | | |fields]; try (eexists; reflexivity).
  destruct (dict_lookup (py "probability") fields) as [v|]; [|eexists; reflexivity].
  rewrite run_try_except, run_bind, run_lift.
  destruct (py_float rt v) as [f|e] eqn:E.
  - eexists. reflexivity.
  - rewrite (py_float_ordinary rt v E). eexists. reflexivity.
Qed.

(** The chat input handler on a reply that follows the schema: the user's
    message and the summary are appended, the raw reply is kept, and the
    script asks for a rerun. *)
Lemma chat_input_valid_reply (rt : runtime) (w : world) (api_url text : pystr)
      (top_k : Z) (msgs : list Streamlit.message) (raw : option json)
      (r : http_response) (d : dict) (p : pystr) :
  is_empty text = false ->
  backend w (predict_request api_url text top_k) = Responded r ->
  (status_code r < 400 \/ 600 <= status_code r)%Z ->
  body r = Decoded (JObj d) ->
  valid_response d = true ->
  dict_lookup (py "primary_disease") d = Some (JStr p) ->
  exists details,
    run w (session msgs raw) (Streamlit.chat_input_handler rt api_url top_k (Some text))
    = (session (msgs ++ [user_message text;
                         {| Streamlit.role := py "assistant";
                            Streamlit.content := summary_text p d;
                            Streamlit.msg_details := Some details |}])
               (Some (JObj d)),
       Raise Streamlit.RerunException,
       [predict_request api_url text top_k]).
Proof.
  intros Hne Hb Hs Hj Hv Hp.
  destruct (valid_response_fields d Hv) as [_ [Hfound _]].
  unfold Streamlit.chat_input_handler. cbn [or_empty].
  rewrite Hne. fold (user_message text).
  rewrite run_bind, run_append_message.
  rewrite run_try_except, run_bind, streamlit_post_predict_run.
  rewrite Hb, (predict_result_success r Hs Hj).
  cbn [py_get lift bind Streamlit.set_last_raw modify_state run
       session Streamlit.messages].
  fold (session (msgs ++ [user_message text]) (Some (JObj d))).
  rewrite run_bind.
  destruct (top_confidence_run rt w (session (msgs ++ [user_message text]) (Some (JObj d)))
              (py_or (dict_get d (py "predictions") (JArr [])) (JArr []))) as [c ->].
  cbn [utcnow_isoformat bind run].
  rewrite (streamlit_summary_valid rt d Hp Hfound). cbn [lift bind].
  rewrite run_bind, run_append_message. cbn [run Streamlit.st_rerun app].
  rewrite <- app_assoc. eexists. reflexivity.
Qed.

Lemma streamlit_summary_lists (rt : runtime) (d : dict) :
  optional is_str_list (py "found_symptoms") d = true ->
  Streamlit.format_assistant_summary rt (JObj d)
  = Ok (py "**Résultat :** "
          ++ py_str rt (dict_get d (py "primary_disease") (JStr (py "—"))) ++ nl ++ nl
          ++ py "**Symptômes détectés :** " ++ shown_symptoms d).
Proof.
  intros Hf. unfold Streamlit.format_assistant_summary. cbn [py_get].
  pose proof (found_str_valid d Hf) as E. cbv zeta in E. rewrite E. reflexivity.
Qed.

(** The chat input handler on a JSON object it can summarise. *)
Lemma chat_input_object_reply (rt : runtime) (w : world) (api_url text : pystr)
      (top_k : Z) (msgs : list Streamlit.message) (raw : option json)
      (d : dict) (summary : pystr) :
  is_empty text = false ->
  predict_result (backend w (predict_request api_url text top_k)) = Ok (JObj d) ->
  Streamlit.format_assistant_summary rt (JObj d) = Ok summary ->
  exists c,
    run w (session msgs raw) (Streamlit.chat_input_handler rt api_url top_k (Some text))
    = (session (msgs ++ [user_message text;
                         reply_message summary (stored_details d c (utcnow w))])
               (Some (JObj d)),
       Raise Streamlit.RerunException,
       [predict_request api_url text top_k]).
Proof.
  intros Hne Hres Hsum. unfold Streamlit.chat_input_handler. cbn [or_empty].
  rewrite Hne. fold (user_message text).
  rewrite run_bind, run_append_message.
  rewrite run_try_except, run_bind, streamlit_post_predict_run, Hres.
  cbn [py_get lift bind Streamlit.set_last_raw modify_state run
       session Streamlit.messages].
  fold (session (msgs ++ [user_message text]) (Some (JObj d))).
  rewrite run_bind.
  destruct (top_confidence_run rt w (session (msgs ++ [user_message text]) (Some (JObj d)))
              (py_or (dict_get d (py "predictions") (JArr [])) (JArr []))) as [c ->].
  cbn [utcnow_isoformat bind run]. rewrite Hsum. cbn [lift bind].
  rewrite run_bind, run_append_message. cbn [run Streamlit.st_rerun app].
  rewrite <- app_assoc. exists c. reflexivity.
Qed.


Lemma valid_response_readable (d : dict) :
  valid_response d = true -> readable_response d = true.
Proof.
  intros Hv.
  destruct (valid_response_fields d Hv) as [_ [Hfound [Hpreds [_ [Hprec Htyp]]]]].
  unfold readable_response. rewrite Hfound, (optional_listlike _ _ Hprec),
    (optional_listlike _ _ Htyp), (valid_predictions_well_shaped d Hpreds). reflexivity.
Qed.


(* ================================================================= *)
(** ** Failures of the prediction request *)

Lemma raise_for_status_request (r : http_response) (e : py_exception) :
  raise_for_status r = Raise e -> is_RequestException e = true.
Proof.
  unfold raise_for_status.
  destruct ((400 <=? status_code r)%Z && (status_code r <? 500)%Z).
  - intros H. injection H as <-. reflexivity.
  - destruct ((500 <=? status_code r)%Z && (status_code r <? 600)%Z).
    + intros H. injection H as <-. reflexivity.
    + discriminate.
Qed.

Lemma request_failure_raises (o : http_outcome) (e : py_exception) :
  request_failure o e ->
  predict_result o = Raise e /\ is_RequestException e = true.
Proof.
  intros [name text|r e' H|r msg H Hb]; cbn [predict_result].
  - split; reflexivity.
  - rewrite H. split; [reflexivity|]. exact (raise_for_status_request r H).
  - rewrite H. unfold response_json. rewrite Hb. split; reflexivity.
Qed.

(** C1: when [POST /predict] fails with a request exception (connection
    error, timeout, error status), each send handler appends exactly one
    assistant error message, whose text contains the configured backend URL
    and the text of the error, and ends without an error: [on_send] returns
    its outputs, the Streamlit handler asks for a rerun. *)
Theorem send_failure_appends_one_error (rt : runtime) (w : world) :
  (forall (user_text : option pystr) (api_url : pystr) (top_k : Z)
          (history : option (list Gradio.turn)) (e : py_exception),
     is_empty (strip (or_empty user_text)) = false ->
     request_failure (backend w (gradio_send_request user_text (Some api_url) top_k)) e ->
     exists outs err,
       outcome (run w tt (Gradio.on_send rt user_text (Some api_url) top_k history)) = Ok outs /\
       Gradio.s_chatbot outs = or_nil history ++ [(strip (or_empty user_text), err)] /\
       Gradio.s_history_state outs = Gradio.s_chatbot outs /\
       contains api_url err /\ contains (exc_text e) err)
  /\
  (forall (api_url text : pystr) (top_k : Z) (msgs : list Streamlit.message)
          (raw : option json) (e : py_exception),
     is_empty text = false ->
     request_failure (backend w (predict_request api_url text top_k)) e ->
     exists err,
       run w (session msgs raw) (Streamlit.chat_input_handler rt api_url top_k (Some text))
       = (session (msgs ++ [user_message text; assistant_message err]) raw,
          Raise Streamlit.RerunException,
          [predict_request api_url text top_k]) /\
       contains api_url err /\ contains (exc_text e) err).
Proof.
  split.
  - intros user_text api_url top_k history e Hne Hf.
    destruct (request_failure_raises Hf) as [Hres Hreq].
    exists (error_outputs (or_nil history
                             ++ [(strip (or_empty user_text),
                                  Gradio.error_text (Some api_url) e)])),
           (Gradio.error_text (Some api_url) e).
    rewrite (on_send_request_error rt w user_text (Some api_url) top_k history Hne Hres Hreq).
    destruct (gradio_error_text_contains api_url e) as [Hu He].
    repeat split; assumption.
  - intros api_url text top_k msgs raw e Hne Hf.
    destruct (request_failure_raises Hf) as [Hres Hreq].
    exists (Streamlit.error_text api_url e).
    rewrite (chat_input_request_error rt w api_url text top_k msgs raw Hne Hres Hreq).
    destruct (streamlit_error_text_contains api_url e) as [Hu He].
    repeat split; assumption.
Qed.

Lemma send_failure_witness :
  (is_empty (strip (or_empty (Some (py " toux ")))) = false /\
   request_failure
     (backend (backend_status 503 (py "Service Unavailable"))
        (gradio_send_request (Some (py " toux ")) (Some (py "http://localhost:8000")) 3))
     error_503 /\
   exists outs err,
     outcome (run (backend_status 503 (py "Service Unavailable")) tt
                (Gradio.on_send plain_runtime (Some (py " toux "))
                   (Some (py "http://localhost:8000")) 3 (Some [(py "fièvre", py "ok")])))
     = Ok outs /\
     Gradio.s_chatbot outs
     = or_nil (Some [(py "fièvre", py "ok")]) ++ [(strip (or_empty (Some (py " toux "))), err)] /\
     Gradio.s_history_state outs = Gradio.s_chatbot outs /\
     contains (py "http://localhost:8000") err /\
     contains (exc_text error_503) err)
  /\
  (is_empty (py "toux") = false /\
   request_failure
     (backend backend_down (predict_request (py "http://localhost:8000") (py "toux") 3))
     error_refused /\
   exists err,
     run backend_down (session [Streamlit.greeting] None)
       (Streamlit.chat_input_handler plain_runtime (py "http://localhost:8000") 3
          (Some (py "toux")))
     = (session ([Streamlit.greeting] ++ [user_message (py "toux"); assistant_message err]) None,
        Raise Streamlit.RerunException,
        [predict_request (py "http://localhost:8000") (py "toux") 3]) /\
     contains (py "http://localhost:8000") err /\
     contains (exc_text error_refused) err).
Proof.
  assert (request_failure
            (backend (backend_status 503 (py "Service Unavailable"))
               (gradio_send_request (Some (py " toux ")) (Some (py "http://localhost:8000")) 3))
            error_503) as F1.
  { apply failure_status. reflexivity. }
  assert (request_failure
            (backend backend_down (predict_request (py "http://localhost:8000") (py "toux") 3))
            error_refused) as F2.
  { apply failure_transport. }
  split.
  - split; [reflexivity|]. split; [exact F1|].
    exact (proj1 (send_failure_appends_one_error plain_runtime
                    (backend_status 503 (py "Service Unavailable")))
             (Some (py " toux ")) (py "http://localhost:8000") 3%Z
             (Some [(py "fièvre", py "ok")]) error_503 eq_refl F1).
  - split; [reflexivity|]. split; [exact F2|].
    exact (proj2 (send_failure_appends_one_error plain_runtime backend_down)
             (py "http://localhost:8000") (py "toux") 3%Z [Streamlit.greeting] None
             error_refused eq_refl F2).
Defined.

(** C5: when [POST /predict] fails with a request exception, the
    conversation after the send starts with every entry it had before,
    unchanged and in order; what the handler adds comes after them. *)
Theorem send_failure_keeps_history (rt : runtime) (w : world) :
  (forall (user_text api_url : option pystr) (top_k : Z)
          (history : list Gradio.turn) (e : py_exception),
     is_empty (strip (or_empty user_text)) = false ->
     request_failure (backend w (gradio_send_request user_text api_url top_k)) e ->
     exists outs added,
       outcome (run w tt (Gradio.on_send rt user_text api_url top_k (Some history))) = Ok outs /\
       Gradio.s_chatbot outs = history ++ added /\
       Gradio.s_history_state outs = history ++ added)
  /\
  (forall (api_url text : pystr) (top_k : Z) (msgs : list Streamlit.message)
          (raw : option json) (e : py_exception),
     is_empty text = false ->
     request_failure (backend w (predict_request api_url text top_k)) e ->
     exists added,
       final_state (run w (session msgs raw)
                      (Streamlit.chat_input_handler rt api_url top_k (Some text)))
       = session (msgs ++ added) raw).
Proof.
  split.
  - intros user_text api_url top_k history e Hne Hf.
    destruct (request_failure_raises Hf) as [Hres Hreq].
    rewrite (on_send_request_error rt w user_text api_url top_k (Some history) Hne Hres Hreq).
    eexists. eexists. repeat split.
  - intros api_url text top_k msgs raw e Hne Hf.
    destruct (request_failure_raises Hf) as [Hres Hreq].
    rewrite (chat_input_request_error rt w api_url text top_k msgs raw Hne Hres Hreq).
    eexists. reflexivity.
Qed.

Lemma send_failure_keeps_history_witness :
  (is_empty (strip (or_empty (Some (py "toux")))) = false /\
   request_failure
     (backend backend_down
        (gradio_send_request (Some (py "toux")) (Some (py "http://localhost:8000/")) 3))
     error_refused /\
   exists outs added,
     outcome (run backend_down tt
                (Gradio.on_send plain_runtime (Some (py "toux"))
                   (Some (py "http://localhost:8000/")) 3
                   (Some [(py "fièvre", py "ok"); (py "rhume", py "ok")])))
     = Ok outs /\
     Gradio.s_chatbot outs = [(py "fièvre", py "ok"); (py "rhume", py "ok")] ++ added /\
     Gradio.s_history_state outs = [(py "fièvre", py "ok"); (py "rhume", py "ok")] ++ added)
  /\
  (is_empty (py "toux") = false /\
   request_failure
     (backend (backend_status 404 (py "Not Found"))
        (predict_request (py "http://localhost:8000") (py "toux") 3))
     error_404 /\
   exists added,
     final_state (run (backend_status 404 (py "Not Found"))
                    (session [Streamlit.greeting] (Some cold_reply))
                    (Streamlit.chat_input_handler plain_runtime (py "http://localhost:8000") 3
                       (Some (py "toux"))))
     = session ([Streamlit.greeting] ++ added) (Some cold_reply)).
Proof.
  assert (request_failure
            (backend backend_down
               (gradio_send_request (Some (py "toux")) (Some (py "http://localhost:8000/")) 3))
            error_refused) as F1.
  { apply failure_transport. }
  assert (request_failure
            (backend (backend_status 404 (py "Not Found"))
               (predict_request (py "http://localhost:8000") (py "toux") 3))
            error_404) as F2.
  { apply failure_status. reflexivity. }
  split.
  - split; [reflexivity|]. split; [exact F1|].
    exact (proj1 (send_failure_keeps_history plain_runtime backend_down)
             (Some (py "toux")) (Some (py "http://localhost:8000/")) 3%Z
             [(py "fièvre", py "ok"); (py "rhume", py "ok")] error_refused eq_refl F1).
  - split; [reflexivity|]. split; [exact F2|].
    exact (proj2 (send_failure_keeps_history plain_runtime (backend_status 404 (py "Not Found")))
             (py "http://localhost:8000") (py "toux") 3%Z [Streamlit.greeting]
             (Some cold_reply) error_404 eq_refl F2).
Defined.

(* ================================================================= *)
(** ** The summary of a reply *)

(** C3: for a reply that follows the schema, the summary both front-ends
    show contains the value of [primary_disease] and the found symptoms
    joined with a comma and a space, or an em dash when [found_symptoms] is
    empty or missing.  In the Gradio front-end the summary is the bot half
    of the turn [on_send] appends. *)
Theorem summary_shows_disease_and_symptoms (rt : runtime) (d : dict) (p : pystr) :
  valid_response d = true ->
  dict_lookup (py "primary_disease") d = Some (JStr p) ->
  (exists msg,
     Streamlit.format_assistant_summary rt (JObj d) = Ok msg /\
     contains p msg /\ contains (shown_symptoms d) msg)
  /\
  (forall (w : world) (user_text api_url : option pystr) (top_k : Z)
          (history : option (list Gradio.turn)) (r : http_response),
     is_empty (strip (or_empty user_text)) = false ->
     backend w (gradio_send_request user_text api_url top_k) = Responded r ->
     (status_code r < 400 \/ 600 <= status_code r)%Z ->
     body r = Decoded (JObj d) ->
     exists outs msg,
       outcome (run w tt (Gradio.on_send rt user_text api_url top_k history)) = Ok outs /\
       Gradio.s_chatbot outs = or_nil history ++ [(strip (or_empty user_text), msg)] /\
       contains p msg /\ contains (shown_symptoms d) msg).
Proof.
  intros Hv Hp. destruct (summary_text_contains p d) as [Cp Cs]. split.
  - destruct (valid_response_fields d Hv) as [_ [Hfound _]].
    exists (summary_text p d). rewrite (streamlit_summary_valid rt d Hp Hfound).
    repeat split; assumption.
  - intros w user_text api_url top_k history r Hne Hb Hs Hj.
    destruct (on_send_valid_reply rt w user_text api_url top_k history Hne Hb Hs Hj Hv Hp)
      as [details [df E]].
    rewrite E. eexists. exists (summary_text p d). repeat split; assumption.
Qed.

Lemma summary_witness :
  valid_response cold_fields = true /\
  dict_lookup (py "primary_disease") cold_fields = Some (JStr (py "Common Cold")) /\
  (exists msg,
     Streamlit.format_assistant_summary plain_runtime (JObj cold_fields) = Ok msg /\
     contains (py "Common Cold") msg /\ contains (shown_symptoms cold_fields) msg) /\
  (exists outs msg,
     outcome (run (backend_replying (Decoded cold_reply)) tt
                (Gradio.on_send plain_runtime (Some (py "toux")) (Some (py "http://h")) 3
                   (Some [])))
     = Ok outs /\
     Gradio.s_chatbot outs = or_nil (Some []) ++ [(strip (or_empty (Some (py "toux"))), msg)] /\
     contains (py "Common Cold") msg /\ contains (shown_symptoms cold_fields) msg) /\
  shown_symptoms cold_fields = py "high_fever, cough, fatigue" /\
  shown_symptoms [(py "primary_disease", JStr (py "Flu")); (py "found_symptoms", JArr [])]
  = py "—".
Proof.
  split; [reflexivity|]. split; [reflexivity|]. split; [|split].
  - exact (proj1 (summary_shows_disease_and_symptoms plain_runtime cold_fields
                    (p := py "Common Cold") eq_refl eq_refl)).
  - exact (proj2 (summary_shows_disease_and_symptoms plain_runtime cold_fields
                    (p := py "Common Cold") eq_refl eq_refl)
             (backend_replying (Decoded cold_reply)) (Some (py "toux")) (Some (py "http://h"))
             3%Z (Some [])
             (mk_response 200 (py "OK") (py "http://h/predict") (Decoded cold_reply))
             eq_refl eq_refl (or_introl eq_refl) eq_refl).
  - split; reflexivity.
Defined.

Example streamlit_summary_cold :
  Streamlit.format_assistant_summary plain_runtime cold_reply
  = Ok (py "**Résultat :** Common Cold" ++ nl ++ nl
          ++ py "**Symptômes détectés :** high_fever, cough, fatigue").
Proof. reflexivity. Qed.

Example gradio_turn_cold :
  match outcome (run (backend_replying (Decoded cold_reply)) tt
                   (Gradio.on_send plain_runtime (Some (py " toux ")) (Some (py "http://h/"))
                      3 (Some [(py "fièvre", py "ok")]))) with
  | Ok outs => Gradio.s_chatbot outs
  | Raise _ => []
  end
  = [ (py "fièvre", py "ok");
      (py "toux",
       py "**Résultat :** Common Cold" ++ nl ++ nl
         ++ py "**Symptômes détectés :** high_fever, cough, fatigue") ].
Proof. vm_compute. reflexivity. Qed.

(** A string in place of the list is joined code point by code point. *)
Example streamlit_summary_string_symptoms :
  Streamlit.format_assistant_summary plain_runtime
    (JObj [(py "primary_disease", JStr (py "Flu")); (py "found_symptoms", JStr (py "toux"))])
  = Ok (py "**Résultat :** Flu" ++ nl ++ nl ++ py "**Symptômes détectés :** t, o, u, x").
Proof. vm_compute. reflexivity. Qed.

Example streamlit_summary_no_symptoms :
  Streamlit.format_assistant_summary plain_runtime
    (JObj [(py "primary_disease", JStr (py "Flu"))])
  = Ok (py "**Résultat :** Flu" ++ nl ++ nl ++ py "**Symptômes détectés :** —").
Proof. reflexivity. Qed.

(* ================================================================= *)
(** ** No failure of the request escapes *)


Lemma valid_reply_no_failure (o : http_outcome) (d : dict) (e : py_exception) :
  valid_reply o d -> request_failure o e -> False.
Proof.
  intros [r [-> [Hs [Hj _]]]] H. apply request_failure_raises in H. destruct H as [H _].
  rewrite (predict_result_success r Hs Hj) in H. discriminate H.
Qed.




Example on_send_list_reply :
  run (backend_replying (Decoded (JArr []))) tt
    (Gradio.on_send plain_runtime (Some (py "toux")) (Some (py "http://localhost:8000")) 3
       (Some []))
  = (tt, Raise (AttributeError (py "'list' object has no attribute 'get'")),
     [predict_request (py "http://localhost:8000") (py "toux") 3]).
Proof. vm_compute. reflexivity. Qed.

Example chat_input_list_reply :
  run (backend_replying (Decoded (JArr []))) (session [Streamlit.greeting] None)
    (Streamlit.chat_input_handler plain_runtime (py "http://localhost:8000") 3
       (Some (py "toux")))
  = (session [Streamlit.greeting; user_message (py "toux")] (Some (JArr [])),
     Raise (AttributeError (py "'list' object has no attribute 'get'")),
     [predict_request (py "http://localhost:8000") (py "toux") 3]).
Proof. vm_compute. reflexivity. Qed.

(** A body nested too deep makes the decoder raise [RecursionError], which
    escapes the Streamlit handler after the user's message is stored. *)
Example chat_input_too_deep :
  run (backend_replying too_deep) (session [Streamlit.greeting] None)
    (Streamlit.chat_input_handler plain_runtime (py "http://h") 3 (Some (py "toux")))
  = (session [Streamlit.greeting; user_message (py "toux")] None,
     Raise (mk_exc (py "RecursionError") PlainException
              (py "maximum recursion depth exceeded while decoding a JSON array from a unicode string")),
     [predict_request (py "http://h") (py "toux") 3]).
Proof. vm_compute. reflexivity. Qed.

(** A body that is not JSON is a request failure and is reported in the chat. *)
Example on_send_not_json :
  outcome (run (backend_status 200 (py "OK")) tt
             (Gradio.on_send plain_runtime (Some (py "toux")) (Some (py "http://h")) 3 (Some [])))
  = Ok (error_outputs
          [(py "toux",
            Gradio.error_text (Some (py "http://h"))
              (mk_exc (py "JSONDecodeError") RequestException
                 (py "Expecting value: line 1 column 1 (char 0)")))]).
Proof. reflexivity. Qed.

(* ================================================================= *)
(** ** Clearing the conversation *)

Lemma gradio_ping_outcome {S : Type} (w : world) (s : S) (api_url : option pystr) :
  exists sent, run w s (Gradio.ping api_url) = (s, Ok (gradio_status w api_url), sent).
Proof.
  rewrite gradio_ping_run. unfold gradio_status.
  destruct (is_empty (Gradio._norm_base api_url)); eexists; reflexivity.
Qed.

Lemma on_test_outcome (w : world) (api_url : option pystr) (top_k : Z) :
  outcome (run w tt (Gradio.on_test api_url top_k))
  = Ok (Gradio.hero_block (fst (gradio_status w api_url)) (snd (gradio_status w api_url)) top_k,
        Gradio.status_badge (fst (gradio_status w api_url)) (snd (gradio_status w api_url))).
Proof.
  unfold Gradio.on_test. rewrite run_bind.
  destruct (gradio_ping_outcome w tt api_url) as [sent ->].
  destruct (gradio_status w api_url) as [ok msg]. reflexivity.
Qed.

Lemma on_clear_outcome (w : world) (api_url : option pystr) (top_k : Z) :
  outcome (run w tt (Gradio.on_clear api_url top_k))
  = Ok {| Gradio.c_chatbot := [];
          Gradio.c_history_state := [];
          Gradio.c_last_raw := None;
          Gradio.c_details := py "";
          Gradio.c_preds_table := empty_frame Gradio.df_columns;
          Gradio.c_hero :=
            Gradio.hero_block (fst (gradio_status w api_url)) (snd (gradio_status w api_url)) top_k;
          Gradio.c_status_box :=
            Gradio.status_badge (fst (gradio_status w api_url)) (snd (gradio_status w api_url)) |}.
Proof.
  unfold Gradio.on_clear. rewrite run_bind.
  destruct (gradio_ping_outcome w tt api_url) as [sent ->].
  destruct (gradio_status w api_url) as [ok msg]. reflexivity.
Qed.

(** C4, as amended: clearing empties the transcript and the last raw
    reply; the status indicator is computed again by a health check of the
    current URL, so it shows what "Tester connexion" would show at that
    moment, and equals the indicator of a test made just before when the
    backend answers the health check as it did then.  In the Streamlit
    front-end the handler drops both keys and asks for a rerun, and the
    status of a run is the health check's result whatever the session
    holds. *)
Theorem clear_resets_and_rechecks (w : world) :
  (forall a : Gradio.app,
     Gradio.chatbot (Gradio.btn_clear_click w a) = [] /\
     Gradio.history_state (Gradio.btn_clear_click w a) = [] /\
     Gradio.last_raw (Gradio.btn_clear_click w a) = None /\
     Gradio.status_box (Gradio.btn_clear_click w a)
       = Gradio.status_box (Gradio.btn_test_click w a) /\
     Gradio.hero (Gradio.btn_clear_click w a) = Gradio.hero (Gradio.btn_test_click w a) /\
     Gradio.status_box (Gradio.btn_clear_click w (Gradio.btn_test_click w a))
       = Gradio.status_box (Gradio.btn_test_click w a))
  /\
  (forall (ss : Streamlit.session_state) (api_url : pystr),
     run w ss (Streamlit.clear_handler true)
       = ({| Streamlit.messages := None; Streamlit.last_raw := None |},
          Raise Streamlit.RerunException, []) /\
     outcome (run w ss (Streamlit.sidebar_status api_url false))
       = Ok (status_of (backend w (health_request api_url)))).
Proof.
  split.
  - intros a. unfold Gradio.btn_clear_click, Gradio.btn_test_click.
    rewrite !on_clear_outcome, !on_test_outcome.
    cbn [Gradio.chatbot Gradio.history_state Gradio.last_raw Gradio.status_box
         Gradio.hero Gradio.api_url Gradio.top_k
         Gradio.c_chatbot Gradio.c_history_state Gradio.c_last_raw
         Gradio.c_status_box Gradio.c_hero].
    rewrite ?on_clear_outcome.
    cbn [Gradio.status_box Gradio.c_status_box].
    repeat split; reflexivity.
  - intros ss api_url. split; [reflexivity|].
    unfold Streamlit.sidebar_status. rewrite run_bind, streamlit_ping_run.
    reflexivity.
Qed.

(** C4, as stated, fails: on the page as it is first shown, the indicator
    reads "Non testé"; after a clear it reads what the health check found. *)
Lemma clear_recomputes_status :
  ~ (forall (w : world) (a : Gradio.app),
       Gradio.chatbot (Gradio.btn_clear_click w a) = [] /\
       Gradio.last_raw (Gradio.btn_clear_click w a) = None /\
       Gradio.status_box (Gradio.btn_clear_click w a) = Gradio.status_box a).
Proof.
  intros H. destruct (H backend_down Gradio.demo) as [_ [_ E]].
  vm_compute in E. discriminate E.
Qed.

Example status_before_clear :
  Gradio.status_box Gradio.demo = Gradio.status_badge false (py "Non testé").
Proof. reflexivity. Qed.

Example status_after_clear :
  Gradio.status_box (Gradio.btn_clear_click backend_down Gradio.demo)
  = Gradio.status_badge false (py "Indisponible (ConnectionError)").
Proof. vm_compute. reflexivity. Qed.

Example status_after_clear_up :
  Gradio.status_box (Gradio.btn_clear_click (backend_replying (Decoded JNull)) Gradio.demo)
  = Gradio.status_badge true (py "Connecté").
Proof. vm_compute. reflexivity. Qed.

(** The next Streamlit run starts from the greeting again. *)
Example streamlit_after_clear :
  run backend_down {| Streamlit.messages := None; Streamlit.last_raw := None |}
    (Streamlit.tab_chat plain_runtime (py "http://localhost:8000") 3 None)
  = (session [Streamlit.greeting] None, Ok tt, []).
Proof. reflexivity. Qed.

(* ================================================================= *)
(** ** What programs send and what they return *)

Lemma silent_run {S A : Type} (w : world) (p : prog S A) :
  silent p -> forall s, requests_sent (run w s p) = [].
Proof.
  induction 1 as [a|e|k _ IH|k _ IH|s' k _ IH]; intros s; cbn [run];
    try reflexivity; apply IH.
Qed.

Lemma silent_lift {S A : Type} (r : result A) : silent (lift (S := S) r).
Proof. destruct r; constructor. Qed.

Lemma silent_bind {S A B : Type} (p : prog S A) (f : A -> prog S B) :
  silent p -> (forall a, silent (f a)) -> silent (bind p f).
Proof.
  intros Hp Hf. induction Hp as [a|e|k _ IH|k _ IH|s' k _ IH]; cbn [bind];
    first [apply Hf | constructor; assumption].
Qed.

Lemma silent_try_except {S A : Type} (p : prog S A)
      (catches : py_exception -> bool) (h : py_exception -> prog S A) :
  silent p -> (forall e, silent (h e)) -> silent (try_except p catches h).
Proof.
  intros Hp Hh. induction Hp as [a|e|k _ IH|k _ IH|s' k _ IH]; cbn [try_except];
    try (constructor; assumption).
  destruct (catches e); [apply Hh|constructor].
Qed.

Lemma requests_bind_silent {S A B : Type} (w : world) (s : S)
      (p : prog S A) (f : A -> prog S B) :
  (forall a, silent (f a)) ->
  requests_sent (run w s (bind p f)) = requests_sent (run w s p).
Proof.
  intros Hf. rewrite run_bind. destruct (run w s p) as [[s1 [a|e]] t1]; [|reflexivity].
  pose proof (silent_run w (Hf a) s1) as H.
  destruct (run w s1 (f a)) as [[s2 r] t2]. unfold requests_sent in *. cbn [snd] in *.
  rewrite H. apply app_nil_r.
Qed.

Lemma requests_try_silent {S A : Type} (w : world) (s : S) (p : prog S A)
      (catches : py_exception -> bool) (h : py_exception -> prog S A) :
  (forall e, silent (h e)) ->
  requests_sent (run w s (try_except p catches h)) = requests_sent (run w s p).
Proof.
  intros Hh. rewrite run_try_except. destruct (run w s p) as [[s1 [a|e]] t1]; [reflexivity|].
  destruct (catches e); [|reflexivity].
  pose proof (silent_run w (Hh e) s1) as H.
  destruct (run w s1 (h e)) as [[s2 r] t2]. unfold requests_sent in *. cbn [snd] in *.
  rewrite H. apply app_nil_r.
Qed.

Lemma ends_in_run {S A : Type} (Q : A -> Prop) (w : world) (p : prog S A) :
  ends_in Q p -> forall s a, outcome (run w s p) = Ok a -> Q a.
Proof.
  induction 1 as [a Ha|e|rq k _ IH|k _ IH|k _ IH|s' k _ IH]; intros s b; cbn [run].
  - intros E. injection E as <-. exact Ha.
  - discriminate.
  - specialize (IH (backend w rq) s b).
    destruct (run w s (k (backend w rq))) as [[s1 r] t]. exact IH.
  - apply IH.
  - apply IH.
  - apply IH.
Qed.

Lemma ends_in_bind {S A B : Type} (Q : B -> Prop) (p : prog S A) (f : A -> prog S B) :
  (forall a, ends_in Q (f a)) -> ends_in Q (bind p f).
Proof.
  intros Hf. induction p as [a|e|rq k IH|k IH|k IH|s' k IH]; cbn [bind];
    try (constructor; assumption). apply Hf.
Qed.

Lemma ends_in_try_except {S A : Type} (Q : A -> Prop) (p : prog S A)
      (catches : py_exception -> bool) (h : py_exception -> prog S A) :
  ends_in Q p -> (forall e, ends_in Q (h e)) -> ends_in Q (try_except p catches h).
Proof.
  intros Hp Hh. induction Hp as [a Ha|e|rq k _ IH|k _ IH|k _ IH|s' k _ IH];
    cbn [try_except]; try (constructor; assumption).
  destruct (catches e); [apply Hh|constructor].
Qed.

(** *** Blank input *)

Lemma strip_empty_iff_blank (text : pystr) : is_empty (strip text) = blank text.
Proof.
  unfold blank, strip, rstrip_by, lstrip_by.
  destruct (forallb isspace text) eqn:B.
  - rewrite (drop_while_all isspace text B). reflexivity.
  - destruct (drop_while isspace text) as [|c t] eqn:D.
    + rewrite (drop_while_nil_all isspace text D) in B. discriminate B.
    + pose proof (drop_while_head isspace text) as Hh. rewrite D in Hh.
      unfold head_fails in Hh. cbn in Hh.
      destruct (rev (drop_while isspace (rev (c :: t)))) as [|x l] eqn:R; [|reflexivity].
      exfalso. apply (f_equal (@rev _)) in R. rewrite rev_involutive in R. cbn [rev] in R.
      apply drop_while_nil_all in R. rewrite forallb_forall in R.
      specialize (R c). rewrite Hh in R. discriminate R.
      apply in_or_app. right. left. reflexivity.
Qed.

(* ================================================================= *)
(** ** What [on_send] does whatever the backend answers *)

Ltac silent_chain :=
  repeat first
    [ match goal with H : forall x, silent (_ x) |- _ => apply H end
    | apply silent_lift
    | apply silent_Ret
    | apply silent_Throw
    | apply silent_UtcNow; intros
    | apply silent_bind; [|intros]
    | match goal with
      | |- silent (if ?c then _ else _) => destruct c
      | |- silent (let '(_, _) := ?x in _) => destruct x
      end ].

Lemma build_details_html_silent {S : Type} (rt : runtime) (data : json) :
  silent (Gradio.build_details_html (S := S) rt data).
Proof. unfold Gradio.build_details_html, utcnow_isoformat. silent_chain. Qed.

(** [on_send] hands at most one request to [requests]: none when the text
    is blank (missing, empty or whitespace only), otherwise one POST of the
    stripped text to the normalised URL, whatever the backend answers and
    whether or not the handler then returns. *)
Theorem on_send_sends_once (rt : runtime) (w : world) (user_text api_url : option pystr)
        (top_k : Z) (history : option (list Gradio.turn)) :
  requests_sent (run w tt (Gradio.on_send rt user_text api_url top_k history))
  = if blank (or_empty user_text) then []
    else [predict_request (Gradio._norm_base api_url) (strip (or_empty user_text)) top_k].
Proof.
  rewrite <- strip_empty_iff_blank. unfold Gradio.on_send. cbv zeta.
  destruct (is_empty (strip (or_empty user_text))); [reflexivity|].
  rewrite requests_try_silent.
  2:{ intros e. silent_chain. }
  rewrite requests_bind_silent.
  2:{ intros data. pose proof (build_details_html_silent (S := unit) rt data). silent_chain;
      assumption. }
  rewrite gradio_post_predict_run. reflexivity.
Qed.

(** A blank message (missing, empty, whitespace only) is not sent: the
    history comes back as it was, the text box is emptied, and the raw
    reply, the detail panel and the table are reset. *)
Theorem on_send_blank_resets_panels (rt : runtime) (w : world)
        (user_text api_url : option pystr) (top_k : Z)
        (history : option (list Gradio.turn)) :
  blank (or_empty user_text) = true ->
  run w tt (Gradio.on_send rt user_text api_url top_k history)
  = (tt,
     Ok {| Gradio.s_user_text := py "";
           Gradio.s_chatbot := or_nil history;
           Gradio.s_history_state := or_nil history;
           Gradio.s_last_raw := None;
           Gradio.s_details := py "";
           Gradio.s_preds_table := empty_frame Gradio.df_columns |},
     []).
Proof.
  intros B. rewrite <- strip_empty_iff_blank in B.
  exact (on_send_blank rt w user_text api_url top_k history B).
Qed.

Lemma on_send_blank_witness :
  blank (or_empty (Some (py "  	 "))) = true /\
  run (backend_replying (Decoded cold_reply)) tt
    (Gradio.on_send plain_runtime (Some (py "  	 ")) (Some (py "http://h")) 3
       (Some [(py "toux", py "ok")]))
  = (tt,
     Ok {| Gradio.s_user_text := py "";
           Gradio.s_chatbot := or_nil (Some [(py "toux", py "ok")]);
           Gradio.s_history_state := or_nil (Some [(py "toux", py "ok")]);
           Gradio.s_last_raw := None;
           Gradio.s_details := py "";
           Gradio.s_preds_table := empty_frame Gradio.df_columns |},
     []).
Proof.
  split; [reflexivity|].
  exact (on_send_blank_resets_panels plain_runtime (backend_replying (Decoded cold_reply))
           (Some (py "  	 ")) (Some (py "http://h")) 3%Z (Some [(py "toux", py "ok")])
           eq_refl).
Defined.

Lemma on_send_ends_consistent (rt : runtime) (user_text api_url : option pystr)
      (top_k : Z) (history : option (list Gradio.turn)) :
  ends_in (S := unit)
    (fun o => send_outputs_consistent o /\ send_extends user_text history o)
    (Gradio.on_send rt user_text api_url top_k history).
Proof.
  unfold send_extends. rewrite <- strip_empty_iff_blank.
  unfold Gradio.on_send. cbv zeta. fold (or_nil history).
  destruct (is_empty (strip (or_empty user_text))).
  - apply ends_Ret. split; [|reflexivity]. repeat split.
  - apply ends_in_try_except.
    + apply ends_in_bind; intros data. apply ends_in_bind; intros primary.
      apply ends_in_bind; intros found0. apply ends_in_bind; intros found_str.
      rewrite set_last_snoc. cbn [lift bind].
      apply ends_in_bind; intros details. apply ends_in_bind; intros df.
      apply ends_Ret. split.
      * split; [reflexivity|]. split; [reflexivity|]. cbn. discriminate.
      * eexists. reflexivity.
    + intros e. rewrite set_last_snoc. cbn [lift bind]. apply ends_Ret. split.
      * repeat split.
      * eexists. reflexivity.
Qed.

(** Whenever [on_send] returns, whatever the backend answered: the text
    box is emptied, the chat shown equals the history kept, the detail
    panel and the table are empty unless a raw reply is kept, and the
    history is the one given, followed by exactly one turn for the stripped
    message when the message is not blank. *)
Theorem on_send_returns_consistent (rt : runtime) (w : world)
        (user_text api_url : option pystr) (top_k : Z)
        (history : option (list Gradio.turn)) (outs : Gradio.send_outputs) :
  outcome (run w tt (Gradio.on_send rt user_text api_url top_k history)) = Ok outs ->
  send_outputs_consistent outs /\ send_extends user_text history outs.
Proof.
  intros E.
  exact (ends_in_run w (on_send_ends_consistent rt user_text api_url top_k history) tt E).
Qed.

Lemma on_send_returns_witness :
  outcome (run (backend_replying (Decoded cold_reply)) tt
             (Gradio.on_send plain_runtime (Some (py " toux ")) (Some (py "http://h")) 3
                (Some [(py "fièvre", py "ok")])))
  = Ok cold_send_outputs /\
  send_outputs_consistent cold_send_outputs /\
  send_extends (Some (py " toux ")) (Some [(py "fièvre", py "ok")]) cold_send_outputs.
Proof.
  assert (outcome (run (backend_replying (Decoded cold_reply)) tt
             (Gradio.on_send plain_runtime (Some (py " toux ")) (Some (py "http://h")) 3
                (Some [(py "fièvre", py "ok")])))
          = Ok cold_send_outputs) as E.
  { vm_compute. reflexivity. }
  split; [exact E|].
  exact (on_send_returns_consistent plain_runtime (backend_replying (Decoded cold_reply))
           (Some (py " toux ")) (Some (py "http://h")) 3%Z
           (Some [(py "fièvre", py "ok")]) E).
Defined.

(* ================================================================= *)
(** ** The Gradio page over a whole visit *)

Lemma page_step_consistent (pr : Gradio.page_runtime) (rt : runtime) (w : world)
      (ev : page_event) (a : Gradio.app) :
  page_consistent a -> page_consistent (page_step pr rt w ev a).
Proof.
  intros [Hc Hr].
  assert (page_consistent (Gradio.btn_send_click pr rt w a)) as Hsend.
  { unfold Gradio.btn_send_click.
    destruct (outcome (run w tt (Gradio.on_send rt (Some (Gradio.user_text a))
                                   (Some (Gradio.api_url a)) (Gradio.top_k a)
                                   (Some (Gradio.history_state a))))) as [o|e] eqn:E.
    - destruct (Gradio.chatbot_accepts pr (Gradio.s_chatbot o)).
      + destruct (ends_in_run w (on_send_ends_consistent rt _ _ _ _) tt E)
          as [[_ [H1 H2]] _].
        split; [exact H1|exact H2].
      + split; [exact Hc|exact Hr].
    - split; [exact Hc|exact Hr]. }
  destruct ev; cbn [page_step]; try exact Hsend.
  - split; [exact Hc|exact Hr].
  - split; [exact Hc|exact Hr].
  - split; [exact Hc|exact Hr].
  - unfold Gradio.btn_test_click. rewrite on_test_outcome. split; [exact Hc|exact Hr].
  - unfold Gradio.btn_clear_click. rewrite on_clear_outcome. split; [reflexivity|].
    intros _. split; reflexivity.
Qed.

Lemma page_play_consistent (pr : Gradio.page_runtime) (rt : runtime)
      (evs : list (world * page_event)) (a : Gradio.app) :
  page_consistent a -> page_consistent (page_play pr rt evs a).
Proof.
  revert a. induction evs as [|[w ev] evs IH]; intros a Ha; cbn [page_play]; [exact Ha|].
  apply IH. apply page_step_consistent. exact Ha.
Qed.

Lemma demo_consistent : page_consistent Gradio.demo.
Proof. split; [reflexivity|]. intros _. split; reflexivity. Qed.

(** At every moment of a visit, whatever the visitor does, whatever the
    backend answers each time, and whether or not the installed chatbot
    takes the pairs [on_send] returns, the chat shown equals the history
    kept, and the detail panel and the table are empty unless a raw reply is
    shown. *)
Theorem page_always_consistent (pr : Gradio.page_runtime) (rt : runtime)
        (evs : list (world * page_event)) :
  page_consistent (page_play pr rt evs Gradio.demo).
Proof. apply page_play_consistent, demo_consistent. Qed.

(** Only "Vider le chat" removes turns: after any other event the chat
    shown is the chat shown before, followed by at most one turn; this
    holds whether or not the installed chatbot takes the pairs [on_send]
    returns. *)
Theorem page_chat_only_grows (pr : Gradio.page_runtime) (rt : runtime)
        (evs : list (world * page_event)) (w : world) (ev : page_event) :
  match ev with
  | ClickClear =>
      Gradio.chatbot (page_step pr rt w ev (page_play pr rt evs Gradio.demo)) = []
  | _ =>
      exists added,
        Gradio.chatbot (page_step pr rt w ev (page_play pr rt evs Gradio.demo))
        = Gradio.chatbot (page_play pr rt evs Gradio.demo) ++ added /\
        List.length added <= 1
  end.
Proof.
  pose proof (page_play_consistent pr rt evs demo_consistent) as [Hc _].
  set (a := page_play pr rt evs Gradio.demo) in *.
  assert (forall b : Gradio.app,
             exists added : list Gradio.turn,
               Gradio.chatbot b = Gradio.chatbot b ++ added /\ List.length added <= 1)
    as Hsame.
  { intros b. exists []. split; [symmetry; apply app_nil_r|cbn; lia]. }
  assert (exists added,
             Gradio.chatbot (Gradio.btn_send_click pr rt w a) = Gradio.chatbot a ++ added /\
             List.length added <= 1) as Hsend.
  { unfold Gradio.btn_send_click.
    destruct (outcome (run w tt (Gradio.on_send rt (Some (Gradio.user_text a))
                                   (Some (Gradio.api_url a)) (Gradio.top_k a)
                                   (Some (Gradio.history_state a))))) as [o|e] eqn:E;
      [|exact (Hsame a)].
    destruct (Gradio.chatbot_accepts pr (Gradio.s_chatbot o)); [|exact (Hsame a)].
    destruct (ends_in_run w (on_send_ends_consistent rt _ _ _ _) tt E) as [_ Hx].
    unfold send_extends in Hx. cbn [or_nil Gradio.chatbot]. rewrite Hc.
    destruct (blank _).
    - exists []. rewrite app_nil_r. split; [exact Hx|cbn; lia].
    - destruct Hx as [bot Hx]. eexists. split; [exact Hx|cbn; lia]. }
  destruct ev; cbn [page_step]; try exact Hsend; try exact (Hsame a).
  - unfold Gradio.btn_test_click. rewrite on_test_outcome. exact (Hsame a).
  - unfold Gradio.btn_clear_click. rewrite on_clear_outcome. reflexivity.
Qed.

(** Under a chatbot that refuses every pair, as that of Gradio 6, no turn
    is ever shown or kept: whatever the visitor does and whatever the
    backend answers, the chat and the history stay empty for the whole
    visit. *)
Theorem page_chat_stays_empty (pr : Gradio.page_runtime) (rt : runtime)
        (evs : list (world * page_event)) :
  (forall value, Gradio.chatbot_takes_pairs pr value = false) ->
  Gradio.chatbot (page_play pr rt evs Gradio.demo) = [] /\
  Gradio.history_state (page_play pr rt evs Gradio.demo) = [].
Proof.
  intros Hpr.
  assert (forall a, Gradio.chatbot a = [] -> Gradio.chatbot (page_play pr rt evs a) = [])
    as H.
  { induction evs as [|[w ev] evs IH]; intros a Ha; cbn [page_play]; [exact Ha|].
    apply IH. destruct ev; cbn [page_step]; try exact Ha.
    - unfold Gradio.btn_test_click. rewrite on_test_outcome. exact Ha.
    - unfold Gradio.btn_clear_click. rewrite on_clear_outcome. reflexivity.
    - unfold Gradio.btn_send_click. destruct (outcome _) as [o|e]; [|exact Ha].
      unfold Gradio.chatbot_accepts.
      destruct (Gradio.s_chatbot o) as [|t l]; [reflexivity|].
      rewrite Hpr. exact Ha.
    - unfold Gradio.btn_send_click. destruct (outcome _) as [o|e]; [|exact Ha].
      unfold Gradio.chatbot_accepts.
      destruct (Gradio.s_chatbot o) as [|t l]; [reflexivity|].
      rewrite Hpr. exact Ha. }
  pose proof (page_play_consistent pr rt evs demo_consistent) as [Hc _].
  rewrite <- Hc. split; apply H; reflexivity.
Qed.

Lemma page_chat_stays_empty_witness :
  (forall value, Gradio.chatbot_takes_pairs gradio6 value = false) /\
  Gradio.chatbot
    (page_play gradio6 plain_runtime
       [(backend_replying (Decoded cold_reply), EditUserText (py "toux"));
        (backend_replying (Decoded cold_reply), ClickSend)] Gradio.demo) = [] /\
  Gradio.history_state
    (page_play gradio6 plain_runtime
       [(backend_replying (Decoded cold_reply), EditUserText (py "toux"));
        (backend_replying (Decoded cold_reply), ClickSend)] Gradio.demo) = [].
Proof.
  split; [intros value; reflexivity|].
  exact (@page_chat_stays_empty gradio6 plain_runtime
           [(backend_replying (Decoded cold_reply), EditUserText (py "toux"));
            (backend_replying (Decoded cold_reply), ClickSend)]
           (fun _ => eq_refl)).
Defined.

(** Under a chatbot that takes pairs the same visit shows the turn. *)
Example pairs_send_shows_turn :
  Gradio.chatbot
    (page_play gradio_with_pairs plain_runtime
       [(backend_replying (Decoded cold_reply), EditUserText (py "toux"));
        (backend_replying (Decoded cold_reply), ClickSend)] Gradio.demo)
  = [(py "toux", summary_text (py "Common Cold") cold_fields)].
Proof. vm_compute. reflexivity. Qed.

Example gradio6_send_changes_nothing :
  page_step gradio6 plain_runtime (backend_replying (Decoded cold_reply)) ClickSend
    (edit_user_text (py "toux") Gradio.demo)
  = edit_user_text (py "toux") Gradio.demo.
Proof. vm_compute. reflexivity. Qed.

(** "Vider le chat" forgets the conversation: the page after it is the one
    a new visitor gets by typing the same URL, top-k and text and pressing
    the button, against the same backend. *)
Theorem clear_forgets_conversation (w : world) (a : Gradio.app) :
  Gradio.btn_clear_click w a = Gradio.btn_clear_click w (fresh_page_with_inputs a).
Proof.
  unfold Gradio.btn_clear_click, fresh_page_with_inputs.
  cbn [Gradio.api_url Gradio.top_k Gradio.user_text edit_user_text edit_api_url edit_top_k].
  rewrite on_clear_outcome. reflexivity.
Qed.

(* ================================================================= *)
(** ** What the Streamlit chat handler does whatever the backend answers *)

Lemma top_confidence_silent (rt : runtime) (preds : json) :
  silent (Streamlit.top_confidence rt preds).
Proof.
  unfold Streamlit.top_confidence.
  destruct preds as [| | | | |items|]; try apply silent_Ret.
  destruct items as [|first rest]; [apply silent_Ret|].
  destruct first as [| | | | | |fields]; try apply silent_Ret.
  destruct (dict_lookup (py "probability") fields); [|apply silent_Ret].
  apply silent_try_except; [|intros; apply silent_Ret].
  apply silent_bind; [apply silent_lift|intros; apply silent_Ret].
Qed.

Lemma append_message_silent (m : Streamlit.message) : silent (Streamlit.append_message m).
Proof.
  unfold Streamlit.append_message, get_state, put_state. cbn [bind].
  apply silent_GetState. intros s. destruct (Streamlit.messages s).
  - apply silent_PutState. apply silent_Ret.
  - apply silent_Throw.
Qed.

(** The chat handler hands at most one request to [requests]: none when
    nothing was typed, otherwise one POST of the text as typed to the URL as
    configured, whatever the backend answers and however the handler ends. *)
Theorem chat_input_sends_once (rt : runtime) (w : world) (api_url : pystr) (top_k : Z)
        (user_text : option pystr) (msgs : list Streamlit.message) (raw : option json) :
  requests_sent (run w (session msgs raw)
                   (Streamlit.chat_input_handler rt api_url top_k user_text))
  = if is_empty (or_empty user_text) then []
    else [predict_request api_url (or_empty user_text) top_k].
Proof.
  unfold Streamlit.chat_input_handler.
  destruct (is_empty (or_empty user_text)); [reflexivity|]. cbv zeta.
  rewrite run_bind. fold (user_message (or_empty user_text)). rewrite run_append_message.
  match goal with
  | |- context [run w ?s1 (try_except ?body ?c ?h)] =>
      assert (requests_sent (run w s1 (try_except body c h))
              = [predict_request api_url (or_empty user_text) top_k]) as H
  end.
  { rewrite requests_try_silent.
    2:{ intros e. apply silent_bind; [apply append_message_silent|intros; apply silent_Throw]. }
    rewrite requests_bind_silent.
    2:{ intros data. unfold Streamlit.set_last_raw, modify_state, utcnow_isoformat.
        cbn [bind]. apply silent_GetState. intros s. apply silent_PutState.
        pose proof (top_confidence_silent rt) as Ht.
        pose proof append_message_silent as Ha.
        silent_chain. }
    rewrite streamlit_post_predict_run. reflexivity. }
  match goal with
  | |- context [run w ?s1 (try_except ?body ?c ?h)] =>
      destruct (run w s1 (try_except body c h)) as [[s2 r] t2]
  end.
  unfold requests_sent in *. cbn [snd] in *. rewrite H. reflexivity.
Qed.

Lemma join_items_plain (items : list json) (i : Z) (e : py_exception) :
  join_items i items = Raise e -> exc_base_of e = PlainException.
Proof.
  revert i. induction items as [|x items IH]; intros i; cbn [join_items]; [discriminate|].
  destruct x; try (intros H; injection H as <-; reflexivity).
  destruct (join_items (i + 1) items) eqn:E; [discriminate|].
  intros H. injection H as <-. exact (IH _ E).
Qed.

Lemma str_join_plain (sep : pystr) (x : json) (e : py_exception) :
  str_join sep x = Raise e -> exc_base_of e = PlainException.
Proof.
  unfold str_join. destruct (py_iter x) as [items|e'].
  - destruct (join_items 0 items) eqn:E; [discriminate|].
    intros H. injection H as <-. exact (join_items_plain _ _ E).
  - intros H. injection H as <-. reflexivity.
Qed.

Lemma format_assistant_summary_plain (rt : runtime) (d : dict) (e : py_exception) :
  Streamlit.format_assistant_summary rt (JObj d) = Raise e ->
  exc_base_of e = PlainException.
Proof.
  unfold Streamlit.format_assistant_summary. cbn [py_get].
  destruct (truthy (py_or (dict_get d (py "found_symptoms") (JArr [])) (JArr []))).
  - destruct (str_join _ _) eqn:E; [discriminate|].
    intros H. injection H as <-. exact (str_join_plain _ _ E).
  - discriminate.
Qed.

Lemma chat_input_reply_run (rt : runtime) (w : world) (api_url text : pystr)
      (top_k : Z) (msgs : list Streamlit.message) (raw : option json) (data : json) :
  is_empty text = false ->
  predict_result (backend w (predict_request api_url text top_k)) = Ok data ->
  exists added e,
    run w (session msgs raw) (Streamlit.chat_input_handler rt api_url top_k (Some text))
    = (session (msgs ++ user_message text :: added) (Some data), Raise e,
       [predict_request api_url text top_k]) /\
    ((added = [] /\ is_Exception e = true) \/
     (exists m, added = [m] /\ Streamlit.role m = py "assistant" /\
                e = Streamlit.RerunException)).
Proof.
  intros Hne Hres. unfold Streamlit.chat_input_handler. cbn [or_empty].
  rewrite Hne. fold (user_message text).
  rewrite run_bind, run_append_message.
  rewrite run_try_except, run_bind, streamlit_post_predict_run, Hres.
  cbn [Streamlit.set_last_raw modify_state bind run session Streamlit.messages].
  fold (session (msgs ++ [user_message text]) (Some data)).
  destruct data as [|b|n|f|s|items|d];
    try (cbn [py_get lift bind run]; do 2 eexists;
         split; [reflexivity|left; split; reflexivity]).
  cbn [py_get lift bind]. rewrite run_bind.
  destruct (top_confidence_run rt w (session (msgs ++ [user_message text]) (Some (JObj d)))
              (py_or (dict_get d (py "predictions") (JArr [])) (JArr []))) as [c ->].
  cbn [utcnow_isoformat bind run].
  destruct (Streamlit.format_assistant_summary rt (JObj d)) as [summary|e] eqn:Es.
  - cbn [lift bind]. rewrite run_bind, run_append_message.
    cbn [run Streamlit.st_rerun app]. rewrite <- app_assoc. cbn [app].
    eexists. exists Streamlit.RerunException. split; [reflexivity|].
    right. eexists. split; [reflexivity|]. split; reflexivity.
  - pose proof (format_assistant_summary_plain rt d Es) as Hb.
    cbn [lift bind run app]. unfold is_RequestException. rewrite Hb.
    exists [], e. split; [reflexivity|]. left. split; [reflexivity|].
    unfold is_Exception. rewrite Hb. reflexivity.
Qed.

(** Once the backend has answered with JSON, the chat handler keeps the
    user's message and the raw reply whatever the reply holds.  Either the
    reply can be summarised, one assistant message is added and the script
    reruns; or reading the reply raises an ordinary exception, which
    escapes, and no assistant message is added. *)
Theorem chat_input_keeps_reply (rt : runtime) (w : world) (api_url text : pystr)
        (top_k : Z) (msgs : list Streamlit.message) (raw : option json) (data : json) :
  is_empty text = false ->
  predict_result (backend w (predict_request api_url text top_k)) = Ok data ->
  exists added e,
    run w (session msgs raw) (Streamlit.chat_input_handler rt api_url top_k (Some text))
    = (session (msgs ++ user_message text :: added) (Some data), Raise e,
       [predict_request api_url text top_k]) /\
    ((added = [] /\ is_Exception e = true) \/
     (exists m, added = [m] /\ Streamlit.role m = py "assistant" /\
                e = Streamlit.RerunException)).
Proof. exact (@chat_input_reply_run rt w api_url text top_k msgs raw data). Qed.

Lemma chat_input_keeps_reply_witness :
  is_empty (py "toux") = false /\
  predict_result (backend (backend_replying (Decoded (JArr [])))
                    (predict_request (py "http://h") (py "toux") 3)) = Ok (JArr []) /\
  exists added e,
    run (backend_replying (Decoded (JArr []))) (session [Streamlit.greeting] None)
      (Streamlit.chat_input_handler plain_runtime (py "http://h") 3 (Some (py "toux")))
    = (session ([Streamlit.greeting] ++ user_message (py "toux") :: added) (Some (JArr [])),
       Raise e, [predict_request (py "http://h") (py "toux") 3]) /\
    ((added = [] /\ is_Exception e = true) \/
     (exists m, added = [m] /\ Streamlit.role m = py "assistant" /\
                e = Streamlit.RerunException)).
Proof.
  split; [reflexivity|]. split; [reflexivity|].
  exact (chat_input_keeps_reply plain_runtime (backend_replying (Decoded (JArr [])))
           (py "http://h") (py "toux") 3%Z [Streamlit.greeting] None (data := JArr [])
           eq_refl eq_refl).
Defined.

(** The confidence shown with a reply is computed without ever failing,
    sending or touching the session: it is the probability of the first
    prediction when that is a float, and absent when the predictions are
    not a list starting with a dict that has a [probability]. *)
Theorem top_confidence_never_fails (rt : runtime) (w : world)
        (s : Streamlit.session_state) (preds : json) :
  exists c,
    run w s (Streamlit.top_confidence rt preds) = (s, Ok c, []) /\
    match preds with
    | JArr (JObj first :: _) =>
        match dict_lookup (py "probability") first with
        | Some (JFloat f) => c = Some f
        | Some _ => True
        | None => c = None
        end
    | _ => c = None
    end.
Proof.
  unfold Streamlit.top_confidence.
  destruct preds as [| | | | |items|]; try (eexists; split; reflexivity).
  destruct items as [|first rest]; [eexists; split; reflexivity|].
  destruct first as [| | | | | |fields]; try (eexists; split; reflexivity).
  destruct (dict_lookup (py "probability") fields) as [v|]; [|eexists; split; reflexivity].
  rewrite run_try_except, run_bind, run_lift.
  destruct (py_float rt v) as [f|e] eqn:E.
  - exists (Some f). split; [reflexivity|].
    destruct v; try exact I. cbn in E. injection E as ->. reflexivity.
  - rewrite (py_float_ordinary rt v E). exists None. split; [reflexivity|].
    destruct v; try exact I. discriminate E.
Qed.

(** After "Vider le chat" the next run of the chat tab, with nothing typed,
    shows the greeting alone and keeps no raw reply, whatever the session
    held before. *)
Theorem clear_then_next_run_greets (rt : runtime) (w w' : world)
        (ss : Streamlit.session_state) (api_url : pystr) (top_k : Z) :
  run w ss (Streamlit.clear_handler true)
  = ({| Streamlit.messages := None; Streamlit.last_raw := None |},
     Raise Streamlit.RerunException, []) /\
  run w' (final_state (run w ss (Streamlit.clear_handler true)))
    (Streamlit.tab_chat rt api_url top_k None)
  = (session [Streamlit.greeting] None, Ok tt, []).
Proof. split; reflexivity. Qed.

(** The chat tab keeps a transcript that exists: with nothing typed, a run
    leaves the session as it is and sends nothing. *)
Theorem tab_chat_idle_keeps_session (rt : runtime) (w : world) (api_url : pystr)
        (top_k : Z) (msgs : list Streamlit.message) (raw : option json) :
  run w (session msgs raw) (Streamlit.tab_chat rt api_url top_k None)
  = (session msgs raw, Ok tt, []) /\
  run w (session msgs raw) (Streamlit.tab_chat rt api_url top_k (Some (py "")))
  = (session msgs raw, Ok tt, []).
Proof. split; reflexivity. Qed.

(* ================================================================= *)
(** ** Escaping: what the backend sends cannot add markup *)

Lemma markup_of_app (a b : pystr) : markup_of (a ++ b) = markup_of a ++ markup_of b.
Proof. apply filter_app. Qed.

Lemma escape_cp_no_markup (c : codepoint) : markup_of (escape_cp c) = [].
Proof.
  unfold escape_cp.
  destruct (c =? 38)%N eqn:E1; [reflexivity|].
  destruct (c =? 60)%N eqn:E2; [reflexivity|].
  destruct (c =? 62)%N eqn:E3; [reflexivity|].
  destruct (c =? 34)%N eqn:E4; [reflexivity|].
  destruct (c =? 39)%N eqn:E5; [reflexivity|].
  unfold markup_of, is_markup. cbn [filter]. rewrite E2, E3, E4, E5. reflexivity.
Qed.

Lemma html_escape_no_markup (s : pystr) : markup_of (html_escape s) = [].
Proof.
  unfold html_escape. induction s as [|c s IH]; cbn [flat_map]; [reflexivity|].
  rewrite markup_of_app, escape_cp_no_markup, IH. reflexivity.
Qed.

(** The status badge escapes its message: the tag skeleton of the badge is
    the same for every message, so a status text cannot open or close a tag
    or an attribute. *)
Theorem status_badge_markup_fixed (ok : bool) (msg : pystr) :
  markup_of (Gradio.status_badge ok msg) = markup_of (Gradio.status_badge ok []).
Proof.
  unfold Gradio.status_badge, lines. cbn [join].
  rewrite !markup_of_app, !html_escape_no_markup. reflexivity.
Qed.

Lemma markup_of_join_empty (l : list pystr) :
  markup_of (join (py "") l) = flat_map markup_of l.
Proof.
  induction l as [|x l IH]; [reflexivity|].
  destruct l as [|y l].
  - cbn [join flat_map]. rewrite app_nil_r. reflexivity.
  - change (join (py "") (x :: y :: l)) with (x ++ py "" ++ join (py "") (y :: l)).
    rewrite !markup_of_app, IH. reflexivity.
Qed.

Lemma tag_spans_markup (rt : runtime) (cls : pystr) (items : list json) :
  flat_map markup_of
    (List.map (fun x => py "<span class='" ++ cls ++ py "'>" ++ x ++ py "</span>")
       (List.map (fun x => html_escape (py_str rt x)) items))
  = flat_map markup_of
      (List.map (fun x => py "<span class='" ++ cls ++ py "'>" ++ x ++ py "</span>")
         (List.map (fun x => html_escape (py_str rt x)) (blanked items))).
Proof.
  induction items as [|x items IH]; [reflexivity|].
  cbn [blanked List.map flat_map]. fold (blanked items). rewrite IH. f_equal.
  rewrite !markup_of_app, !html_escape_no_markup. reflexivity.
Qed.

(** [tags_html] escapes every item: for a list it always returns, and the
    tag skeleton of what it returns depends on the number of items only, not
    on what they hold. *)
Theorem tags_html_markup_fixed (rt : runtime) (items : list json) (variant : pystr) :
  exists h h0,
    Gradio.tags_html rt (JArr items) variant = Ok h /\
    Gradio.tags_html rt (JArr (blanked items)) variant = Ok h0 /\
    markup_of h = markup_of h0.
Proof.
  unfold Gradio.tags_html. destruct items as [|x items].
  - do 2 eexists. repeat split.
  - cbn [blanked List.map truthy negb py_iter]. do 2 eexists.
    split; [reflexivity|]. split; [reflexivity|].
    rewrite !markup_of_app, !markup_of_join_empty.
    f_equal. f_equal.
    exact (tag_spans_markup rt _ (x :: items)).
Qed.

(* ================================================================= *)
(** ** What the predictions table holds *)

Lemma has_key_In (k : pystr) (d : dict) : has_key k d = true <-> In k (List.map fst d).
Proof.
  unfold has_key. rewrite existsb_exists, in_map_iff. split.
  - intros [kv [Hin E]]. apply str_eqb_eq in E. exists kv. split; assumption.
  - intros [kv [E Hin]]. exists kv. split; [exact Hin|]. apply str_eqb_eq. exact E.
Qed.

Lemma add_keys_In (k : pystr) (keys seen : list pystr) :
  In k (add_keys seen keys) <-> In k seen \/ In k keys.
Proof.
  revert seen. induction keys as [|x keys IH]; intros seen; cbn [add_keys].
  - cbn [In]. tauto.
  - destruct (existsb (str_eqb x) seen) eqn:E; rewrite IH; cbn [In].
    + apply existsb_exists in E. destruct E as [y [Hy E]]. apply str_eqb_eq in E. subst y.
      split; [tauto|]. intros [H|[<-|H]]; tauto.
    + rewrite in_app_iff. cbn [In]. tauto.
Qed.

Lemma record_columns_In (k : pystr) (recs : list dict) :
  In k (record_columns recs) <-> key_used k recs = true.
Proof.
  unfold record_columns, key_used.
  assert (forall seen,
            In k (fold_left (fun seen d => add_keys seen (List.map fst d)) recs seen)
            <-> In k seen \/ existsb (has_key k) recs = true) as H.
  { induction recs as [|d recs IH]; intros seen; cbn [fold_left existsb].
    - split; [tauto|]. intros [H|H]; [exact H|discriminate H].
    - rewrite IH, add_keys_In, orb_true_iff, has_key_In. tauto. }
  rewrite H. cbn [In]. tauto.
Qed.

Lemma filter_str_unique (k : pystr) (cols : list pystr) :
  NoDup cols -> In k cols -> filter (str_eqb k) cols = [k].
Proof.
  induction cols as [|c cols IH]; intros ND HI; [contradiction|].
  inversion ND as [|c' cols' Hnot ND']; subst. cbn [filter].
  destruct (str_eqb k c) eqn:E.
  - apply str_eqb_eq in E. subst c. f_equal.
    clear IH HI ND. induction cols as [|x cols IH]; [reflexivity|]. cbn [filter].
    destruct (str_eqb k x) eqn:Ex.
    + apply str_eqb_eq in Ex. subst x. exfalso. apply Hnot. left. reflexivity.
    + apply IH; [intros H; apply Hnot; right; exact H|].
      inversion ND' as [|? ? ? ND'']. exact ND''.
  - destruct HI as [->|HI]; [rewrite str_eqb_refl in E; discriminate E|].
    apply IH; assumption.
Qed.

Lemma cells_of_frame_from (k : pystr) (cols : list pystr) (f : pystr -> cell) :
  cells_of (LStr k) (List.map LStr cols) (List.map f cols)
  = List.map f (filter (str_eqb k) cols).
Proof.
  unfold cells_of. induction cols as [|c cols IH]; [reflexivity|].
  cbn [List.map combine filter].
  change (label_eqb (LStr k) (fst (LStr c, f c))) with (str_eqb k c).
  destruct (str_eqb k c); cbn [List.map snd]; rewrite IH; reflexivity.
Qed.

Lemma has_column_frame_from (k : pystr) (cols : list pystr)
      (g : dict -> pystr -> cell) (recs : list dict) :
  has_column (LStr k) (frame_from cols g recs) = existsb (str_eqb k) cols.
Proof.
  unfold has_column, frame_from. cbn [columns].
  induction cols as [|c cols IH]; [reflexivity|].
  cbn [List.map existsb label_eqb]. rewrite IH. reflexivity.
Qed.

Lemma existsb_str_In (k : pystr) (cols : list pystr) :
  existsb (str_eqb k) cols = true <-> In k cols.
Proof.
  rewrite existsb_exists. split.
  - intros [x [Hx E]]. apply str_eqb_eq in E. subst x. exact Hx.
  - intros H. exists k. split; [exact H|apply str_eqb_refl].
Qed.

Lemma map_with_default_absent (k : pystr) (v : cell) (g : dict -> pystr -> cell)
      (d : dict) (cols : list pystr) :
  ~ In k cols -> List.map (with_default k v g d) cols = List.map (g d) cols.
Proof.
  intros Hnot. apply map_ext_in. intros c Hc. unfold with_default.
  destruct (str_eqb c k) eqn:E; [|reflexivity].
  apply str_eqb_eq in E. subst c. contradiction.
Qed.

(** [ensure_column] on a frame given by cells: the label is appended with
    the default in every row when it is new, and nothing changes when it is
    there. *)
Lemma ensure_column_frame_from (k : pystr) (v : cell) (cols : list pystr)
      (g : dict -> pystr -> cell) (recs : list dict) :
  ensure_column (LStr k) v (frame_from cols g recs)
  = if existsb (str_eqb k) cols then frame_from cols g recs
    else frame_from (cols ++ [k]) (with_default k v g) recs.
Proof.
  unfold ensure_column. rewrite has_column_frame_from.
  destruct (existsb (str_eqb k) cols) eqn:E; [reflexivity|]. cbn [negb].
  assert (~ In k cols) as Hnot.
  { intros H. apply existsb_str_In in H. rewrite H in E. discriminate E. }
  unfold set_column. rewrite has_column_frame_from, E.
  unfold frame_from. cbn [columns rows]. rewrite map_app. cbn [List.map].
  f_equal. rewrite map_map. apply map_ext. intros d.
  rewrite map_app. cbn [List.map]. rewrite (map_with_default_absent k v g d cols Hnot).
  unfold with_default at 1. rewrite str_eqb_refl. reflexivity.
Qed.

Lemma select_frame_from (a b : pystr) (cols : list pystr)
      (g : dict -> pystr -> cell) (recs : list dict) :
  NoDup cols -> In a cols -> In b cols ->
  select [LStr a; LStr b] (frame_from cols g recs)
  = Ok (mk_frame [LStr a; LStr b] (List.map (fun d => [g d a; g d b]) recs)).
Proof.
  intros ND Ha Hb. unfold select. cbn [forallb].
  rewrite !has_column_frame_from.
  rewrite (proj2 (existsb_str_In a cols) Ha), (proj2 (existsb_str_In b cols) Hb).
  cbn [andb]. unfold frame_from. cbn [columns rows flat_map]. f_equal. f_equal.
  - assert (forall k, In k cols -> filter (label_eqb (LStr k)) (List.map LStr cols) = [LStr k]) as H.
    { intros k Hk. apply filter_label_unique.
      - clear - ND. induction ND as [|c cs Hnot ND IH]; cbn [List.map]; constructor; [|exact IH].
        rewrite in_map_iff. intros [c' [E HI]]. injection E as ->. contradiction.
      - apply in_map. exact Hk. }
    rewrite (H a Ha), (H b Hb). reflexivity.
  - rewrite map_map. apply map_ext. intros d.
    rewrite !cells_of_frame_from, !filter_str_unique by assumption. reflexivity.
Qed.

Lemma str_eqb_sym (a b : pystr) : str_eqb a b = str_eqb b a.
Proof.
  destruct (str_eqb a b) eqn:E.
  - apply str_eqb_eq in E. subst b. symmetry. apply str_eqb_refl.
  - destruct (str_eqb b a) eqn:E'; [|reflexivity].
    apply str_eqb_eq in E'. subst b. rewrite str_eqb_refl in E. discriminate E.
Qed.

Lemma frame_of_records_from (kq : coercion) (recs : list dict) :
  frame_of_records kq recs = frame_from (record_columns recs) (stored_cell kq recs) recs.
Proof. reflexivity. Qed.

Lemma ensured_frame_table (kq : coercion) (recs : list dict) :
  select [LStr (py "disease"); LStr (py "probability")]
    (ensure_column (LStr (py "probability")) (Val JNull)
       (ensure_column (LStr (py "disease")) (Val (JStr (py "")))
          (frame_of_records kq recs)))
  = Ok (predictions_table kq recs).
Proof.
  rewrite frame_of_records_from.
  pose proof (record_columns_NoDup recs) as ND.
  pose proof (record_columns_In (py "disease") recs) as Hd.
  pose proof (record_columns_In (py "probability") recs) as Hp.
  set (cols := record_columns recs) in *.
  assert (py "disease" <> py "probability") as Hne by (vm_compute; discriminate).
  assert (str_eqb (py "disease") (py "probability") = false) as Edp by (vm_compute; reflexivity).
  assert (str_eqb (py "probability") (py "disease") = false) as Epd by (vm_compute; reflexivity).
  unfold predictions_table, table_cell.
  rewrite ensure_column_frame_from.
  destruct (existsb (str_eqb (py "disease")) cols) eqn:E1.
  - pose proof (proj1 (existsb_str_In _ _) E1) as I1.
    rewrite (proj1 Hd I1).
    rewrite ensure_column_frame_from.
    destruct (existsb (str_eqb (py "probability")) cols) eqn:E2.
    + pose proof (proj1 (existsb_str_In _ _) E2) as I2. rewrite (proj1 Hp I2).
      rewrite select_frame_from by assumption. reflexivity.
    + assert (~ In (py "probability") cols) as N2.
      { intros H. apply existsb_str_In in H. rewrite H in E2. discriminate E2. }
      assert (key_used (py "probability") recs = false) as K2.
      { destruct (key_used (py "probability") recs) eqn:K; [|reflexivity].
        exfalso. apply N2. apply Hp. reflexivity. }
      rewrite K2.
      rewrite select_frame_from.
      * reflexivity.
      * apply NoDup_snoc; assumption.
      * apply in_or_app. left. exact I1.
      * apply in_or_app. right. left. reflexivity.
  - assert (~ In (py "disease") cols) as N1.
    { intros H. apply existsb_str_In in H. rewrite H in E1. discriminate E1. }
    assert (key_used (py "disease") recs = false) as K1.
    { destruct (key_used (py "disease") recs) eqn:K; [|reflexivity].
      exfalso. apply N1. apply Hd. reflexivity. }
    rewrite K1.
    assert (NoDup (cols ++ [py "disease"])) as ND1 by (apply NoDup_snoc; assumption).
    rewrite ensure_column_frame_from.
    assert (existsb (str_eqb (py "probability")) (cols ++ [py "disease"])
            = existsb (str_eqb (py "probability")) cols) as Ex.
    { rewrite existsb_app. cbn [existsb]. rewrite Epd. rewrite !orb_false_r. reflexivity. }
    rewrite Ex.
    destruct (existsb (str_eqb (py "probability")) cols) eqn:E2.
    + pose proof (proj1 (existsb_str_In _ _) E2) as I2. rewrite (proj1 Hp I2).
      rewrite select_frame_from.
      * reflexivity.
      * exact ND1.
      * apply in_or_app. right. left. reflexivity.
      * apply in_or_app. left. exact I2.
    + assert (~ In (py "probability") cols) as N2.
      { intros H. apply existsb_str_In in H. rewrite H in E2. discriminate E2. }
      assert (key_used (py "probability") recs = false) as K2.
      { destruct (key_used (py "probability") recs) eqn:K; [|reflexivity].
        exfalso. apply N2. apply Hp. reflexivity. }
      rewrite K2.
      rewrite select_frame_from.
      * reflexivity.
      * apply NoDup_snoc; [exact ND1|].
        intros H. apply in_app_or in H. destruct H as [H|[H|[]]]; [exact (N2 H)|].
        apply Hne. exact H.
      * apply in_or_app. left. apply in_or_app. right. left. reflexivity.
      * apply in_or_app. right. left. reflexivity.
Qed.

Lemma stored_kept (k : coercion) (col : list cell) (c : cell) :
  kept_as_is col c = true -> stored k col c = c.
Proof.
  unfold kept_as_is, stored.
  destruct (forallb is_name_cell col); [reflexivity|]. cbn [orb].
  intros H. apply andb_true_iff in H. destruct H as [-> Hc].
  destruct c as [|[| | | | | |]]; try discriminate Hc; reflexivity.
Qed.

(** The contents of the predictions table: one row per prediction, in
    order, and the columns [disease] and [probability] only.  When no
    prediction carries the key the cell is the default (the empty string,
    [None]); otherwise it is what pandas stores in that column for the
    prediction's own value, or for the missing cell when the prediction
    lacks the key.  What is stored is the value itself for a string in a
    column where every prediction has a string, and for a float in a column
    where every prediction has a number. *)
Theorem predictions_to_df_rows (rt : runtime) (d : dict) (recs : list dict) :
  predictions_well_shaped d = true ->
  all_records (prediction_items d) = Some recs ->
  Gradio.predictions_to_df rt (JObj d) = Ok (predictions_table (frame_coercion rt) recs) /\
  forall (k : pystr) (default : cell) (r : dict),
    key_used k recs = true ->
    kept_as_is (List.map (fun r' => record_cell r' k) recs) (record_cell r k) = true ->
    table_cell (frame_coercion rt) k default recs r = record_cell r k.
Proof.
  intros H Hrecs. split.
  - destruct (predictions_to_df_cases rt d H) as [[Hnil E]|[recs' [Hrecs' E]]]; rewrite E.
    + rewrite Hnil in Hrecs. injection Hrecs as <-. reflexivity.
    + rewrite Hrecs in Hrecs'. injection Hrecs' as <-. apply ensured_frame_table.
  - intros k default r Hk Hkept. unfold table_cell, stored_cell. rewrite Hk.
    apply stored_kept. exact Hkept.
Qed.

Lemma predictions_to_df_rows_witness :
  predictions_well_shaped
    [(py "predictions", JArr (List.map JObj two_predictions))] = true /\
  all_records
    (prediction_items [(py "predictions", JArr (List.map JObj two_predictions))])
  = Some two_predictions /\
  (Gradio.predictions_to_df plain_runtime
     (JObj [(py "predictions", JArr (List.map JObj two_predictions))])
   = Ok (predictions_table (frame_coercion plain_runtime) two_predictions) /\
   forall (k : pystr) (default : cell) (r : dict),
     key_used k two_predictions = true ->
     kept_as_is (List.map (fun r' => record_cell r' k) two_predictions) (record_cell r k)
     = true ->
     table_cell (frame_coercion plain_runtime) k default two_predictions r
     = record_cell r k) /\
  predictions_table (frame_coercion plain_runtime) two_predictions
  = mk_frame [LStr (py "disease"); LStr (py "probability")]
      [[Val (JStr (py "Flu")); Val (JFloat 0.75%float)]; [NaN; Val (JFloat 0.25%float)]].
Proof.
  split; [vm_compute; reflexivity|]. split; [vm_compute; reflexivity|].
  split; [|vm_compute; reflexivity].
  refine (@predictions_to_df_rows plain_runtime
            [(py "predictions", JArr (List.map JObj two_predictions))]
            two_predictions _ _); vm_compute; reflexivity.
Defined.

(* ================================================================= *)
(** ** What the Streamlit history loop displays *)

Lemma view_bind_result {A B : Type} (v : StreamlitView.view A)
      (f : A -> StreamlitView.view B) :
  snd (StreamlitView.view_bind v f)
  = match snd v with
    | Ok a => snd (f a)
    | Raise e => Raise e
    end.
Proof.
  destruct v as [calls [a|e]]; cbn [StreamlitView.view_bind snd]; [|reflexivity].
  destruct (f a) as [calls' r]. reflexivity.
Qed.

Lemma view_bind_emit {B : Type} (c : StreamlitView.st_call)
      (f : unit -> StreamlitView.view B) :
  snd (StreamlitView.view_bind (StreamlitView.emit c) f) = snd (f tt).
Proof. rewrite view_bind_result. reflexivity. Qed.

Lemma view_bind_ok {A B : Type} (v : StreamlitView.view A)
      (f : A -> StreamlitView.view B) (a : A) (r : result B) :
  snd v = Ok a -> snd (f a) = r -> snd (StreamlitView.view_bind v f) = r.
Proof. intros Hv Hf. rewrite view_bind_result, Hv. exact Hf. Qed.

Ltac view_step := rewrite view_bind_emit; cbv beta.

Lemma view_each_emits {A : Type} (g : A -> StreamlitView.st_call) (l : list A) :
  snd (StreamlitView.view_each (fun x => StreamlitView.emit (g x)) l) = Ok tt.
Proof.
  induction l as [|x l IH]; [reflexivity|].
  cbn [StreamlitView.view_each]. rewrite view_bind_emit. exact IH.
Qed.

Lemma display_history_app (rt : runtime) (vr : StreamlitView.view_runtime)
      (a b : list Streamlit.message) :
  snd (StreamlitView.display_history rt vr (a ++ b))
  = match snd (StreamlitView.display_history rt vr a) with
    | Ok _ => snd (StreamlitView.display_history rt vr b)
    | Raise e => Raise e
    end.
Proof.
  unfold StreamlitView.display_history.
  induction a as [|m a IH]; [reflexivity|].
  cbn [app StreamlitView.view_each]. rewrite !view_bind_result.
  destruct (snd (StreamlitView.display_message rt vr m)); [exact IH|reflexivity].
Qed.

Lemma display_plain_message (rt : runtime) (vr : StreamlitView.view_runtime)
      (role content : pystr) :
  StreamlitView.display_message rt vr
    {| Streamlit.role := role; Streamlit.content := content; Streamlit.msg_details := None |}
  = ([StreamlitView.st_chat_message role; StreamlitView.st_markdown content false], Ok tt).
Proof. reflexivity. Qed.

(** The Streamlit tag renderer and [tags_html] of the Gradio front-end
    agree: on a non-empty value they produce the same HTML, they fail on the
    same values with the same exception, and on an empty value the one
    writes a plain dash where the other returns a muted one. *)
Theorem render_tags_matches_tags_html (rt : runtime) (items : json) (variant : pystr) :
  match Gradio.tags_html rt items variant with
  | Ok h =>
      StreamlitView.render_tags rt items variant
      = if truthy items then ([StreamlitView.st_markdown h true], Ok tt)
        else ([StreamlitView.st_write (py "—")], Ok tt)
  | Raise e => StreamlitView.render_tags rt items variant = ([], Raise e)
  end.
Proof.
  unfold Gradio.tags_html, StreamlitView.render_tags.
  destruct (truthy items); cbn [negb]; [|reflexivity].
  destruct (py_iter items) as [xs|e]; reflexivity.
Qed.

Lemma render_tags_list (rt : runtime) (items : list json) (variant : pystr) :
  snd (StreamlitView.render_tags rt (JArr items) variant) = Ok tt.
Proof.
  unfold StreamlitView.render_tags. destruct (negb (truthy (JArr items))); reflexivity.
Qed.

Lemma py_or_idempotent (x : json) :
  py_or (py_or x (JArr [])) (JArr []) = py_or x (JArr []).
Proof. unfold py_or. destruct (truthy x) eqn:E; [rewrite E|]; reflexivity. Qed.

Lemma label_count_unique (l : label) (df : DataFrame) :
  NoDup (columns df) -> has_column l df = true ->
  (StreamlitView.label_count l df =? 1)%nat = true.
Proof.
  intros ND H. apply has_column_In in H. unfold StreamlitView.label_count.
  rewrite filter_label_unique by assumption. reflexivity.
Qed.

Lemma column_cells_from (k : pystr) (cols : list pystr) (g : dict -> pystr -> cell)
      (recs : list dict) :
  NoDup cols -> In k cols ->
  StreamlitView.column_cells (LStr k) (frame_from cols g recs)
  = List.map (fun d => g d k) recs.
Proof.
  intros ND HI. unfold StreamlitView.column_cells, frame_from. cbn [columns rows].
  induction recs as [|d recs IH]; [reflexivity|].
  cbn [List.map flat_map]. rewrite IH.
  rewrite (cells_of_frame_from k cols (g d)).
  rewrite (@filter_str_unique k cols ND HI). reflexivity.
Qed.

Lemma column_cells_records (kq : coercion) (k : pystr) (recs : list dict) :
  has_column (LStr k) (frame_of_records kq recs) = true ->
  StreamlitView.column_cells (LStr k) (frame_of_records kq recs)
  = List.map (stored kq (List.map (fun d => record_cell d k) recs))
      (List.map (fun d => record_cell d k) recs).
Proof.
  rewrite frame_of_records_from, has_column_frame_from, existsb_str_In.
  intros HI. rewrite column_cells_from; [|apply record_columns_NoDup|exact HI].
  rewrite map_map. reflexivity.
Qed.

(** A column of strings is stored as strings, a column of numbers as
    numbers. *)
Lemma stored_names (kq : coercion) (col : list cell) :
  forallb is_name_cell col = true -> List.map (stored kq col) col = col.
Proof.
  intros H. rewrite <- (map_id col) at 3. apply map_ext. intros c.
  unfold stored. rewrite H. reflexivity.
Qed.

Lemma stored_numbers (kq : coercion) (col : list cell) :
  forallb is_number_cell col = true ->
  forallb is_number_cell (List.map (stored kq col) col) = true.
Proof.
  intros H. apply forallb_forall. intros c Hc. apply in_map_iff in Hc.
  destruct Hc as [c0 [<- H0]].
  pose proof (proj1 (forallb_forall _ _) H c0 H0) as Hn.
  unfold stored. destruct (forallb is_name_cell col); [exact Hn|]. rewrite H.
  destruct c0 as [|[| |n|x| | |]]; try discriminate Hn; [|reflexivity].
  destruct (int_among_numbers kq col n); reflexivity.
Qed.

Lemma valid_prediction_cells (items : list json) (recs : list dict) :
  forallb is_prediction items = true ->
  all_records items = Some recs ->
  forallb is_name_cell (List.map (fun d => record_cell d (py "disease")) recs) = true
  /\ forallb is_number_cell
       (List.map (fun d => record_cell d (py "probability")) recs) = true.
Proof.
  revert recs. induction items as [|j items IH]; intros recs; cbn [forallb all_records].
  - intros _ H. injection H as <-. split; reflexivity.
  - intros H. apply andb_true_iff in H. destruct H as [Hj Hrest].
    destruct j as [| | | | | |p]; try discriminate Hj.
    destruct (all_records items) as [ds|]; [|discriminate].
    intros E. injection E as <-. destruct (IH ds Hrest eq_refl) as [H1 H2].
    cbn [List.map forallb]. rewrite H1, H2. unfold record_cell.
    cbn [is_prediction] in Hj.
    destruct (dict_lookup (py "disease") p) as [[| | | |name| |]|]; try discriminate Hj.
    destruct (dict_lookup (py "probability") p) as [[| |n|x| | |]|]; try discriminate Hj;
      split; reflexivity.
Qed.

(** The chart part of the display never fails on predictions that follow
    the schema. *)
Lemma display_predictions_records (rt : runtime) (vr : StreamlitView.view_runtime)
      (items : list json) :
  forallb is_prediction items = true ->
  snd (StreamlitView.view_bind (StreamlitView.view_lift (pd_DataFrame rt (JArr items)))
         (fun df =>
            if has_column (LStr (py "disease")) df
               && has_column (LStr (py "probability")) df
            then StreamlitView.bar_chart_by_disease vr df
            else StreamlitView.emit (StreamlitView.st_json (JArr items))))
  = Ok tt.
Proof.
  intros Hv. destruct (all_records_predictions items Hv) as [recs H].
  unfold pd_DataFrame, DataFrame_of. rewrite H.
  rewrite view_bind_result. cbn [StreamlitView.view_lift snd].
  set (kq := frame_coercion rt).
  destruct (has_column (LStr (py "disease")) (frame_of_records kq recs)) eqn:E1;
    [|reflexivity].
  destruct (has_column (LStr (py "probability")) (frame_of_records kq recs)) eqn:E2;
    [|reflexivity].
  cbn [andb]. unfold StreamlitView.bar_chart_by_disease. cbv zeta.
  rewrite !label_count_unique by (try apply frame_of_records_NoDup; assumption).
  rewrite (column_cells_records kq _ recs E1), (column_cells_records kq _ recs E2).
  destruct (valid_prediction_cells items Hv H) as [Hnames Hnumbers].
  rewrite (stored_names kq _ Hnames), Hnames, (stored_numbers kq _ Hnumbers).
  reflexivity.
Qed.

(** What makes stored details display: the two texts are strings, the
    three lists can be iterated, and the predictions follow the schema. *)
Lemma display_details_ok (rt : runtime) (vr : StreamlitView.view_runtime)
      (details : Streamlit.details) (p sp : pystr) :
  Streamlit.d_primary_disease details = JStr p ->
  Streamlit.d_specialist details = JStr sp ->
  listlike (Streamlit.d_found_symptoms details) = true ->
  listlike (Streamlit.d_precautions details) = true ->
  listlike (Streamlit.d_typical_symptoms details) = true ->
  (truthy (Streamlit.d_predictions details) = false \/
   exists items,
     Streamlit.d_predictions details = JArr items /\
     forallb is_prediction items = true) ->
  snd (StreamlitView.display_details rt vr details) = Ok tt.
Proof.
  intros Hp Hs Hf Hpr Hty Hpreds. unfold StreamlitView.display_details.
  rewrite Hp, Hs. cbv zeta.
  destruct (py_or_listlike _ Hf) as [found ->].
  destruct (py_or_listlike _ Hpr) as [precautions ->].
  destruct (py_or_listlike _ Hty) as [typical ->].
  do 3 view_step.
  eapply view_bind_ok; [reflexivity|cbv beta].
  view_step.
  eapply view_bind_ok;
    [destruct (Streamlit.d_confidence details); reflexivity|cbv beta].
  view_step.
  eapply view_bind_ok; [apply render_tags_list|cbv beta].
  view_step.
  eapply view_bind_ok; [reflexivity|cbv beta].
  do 4 view_step.
  eapply view_bind_ok; [|cbv beta].
  { destruct (truthy (JArr precautions)); [|reflexivity].
    eapply view_bind_ok; [reflexivity|cbv beta].
    apply (view_each_emits
             (fun p0 => StreamlitView.st_markdown (py "- " ++ py_str rt p0) false)). }
  view_step.
  eapply view_bind_ok; [|cbv beta].
  { destruct (truthy (JArr typical)); [apply render_tags_list|reflexivity]. }
  destruct Hpreds as [Hfalse|[items [Hitems Hrecs]]].
  - unfold py_or. rewrite Hfalse. reflexivity.
  - rewrite Hitems. unfold py_or.
    destruct (truthy (JArr items)) eqn:T; [rewrite T|reflexivity].
    view_step. exact (@display_predictions_records rt vr items Hrecs).
Qed.


(** *** From the chat handler to the history loop *)


Lemma display_reply_message (rt : runtime) (vr : StreamlitView.view_runtime)
      (summary : pystr) (details : Streamlit.details) :
  snd (StreamlitView.display_message rt vr (reply_message summary details))
  = snd (StreamlitView.display_details rt vr details).
Proof.
  unfold StreamlitView.display_message, reply_message.
  cbn [Streamlit.role Streamlit.content Streamlit.msg_details].
  rewrite !view_bind_emit. reflexivity.
Qed.

Lemma display_history_two (rt : runtime) (vr : StreamlitView.view_runtime)
      (msgs later : list Streamlit.message) (text : pystr) (m : Streamlit.message) :
  displayable rt vr msgs ->
  snd (StreamlitView.display_history rt vr (msgs ++ [user_message text; m] ++ later))
  = match snd (StreamlitView.display_message rt vr m) with
    | Ok _ => snd (StreamlitView.display_history rt vr later)
    | Raise e => Raise e
    end.
Proof.
  intros H. rewrite display_history_app, H.
  unfold StreamlitView.display_history. cbn [app StreamlitView.view_each].
  rewrite view_bind_result. unfold user_message at 1.
  rewrite display_plain_message. cbn [snd].
  rewrite view_bind_result. reflexivity.
Qed.

Lemma listlike_py_or (v : json) :
  listlike v = true -> listlike (py_or v (JArr [])) = true.
Proof. intros H. destruct (py_or_listlike v H) as [items ->]. reflexivity. Qed.

Lemma optional_str_get (key dflt : pystr) (d : dict) :
  optional is_str key d = true -> exists s, dict_get d key (JStr dflt) = JStr s.
Proof.
  unfold optional, dict_get. destruct (dict_lookup key d) as [v|].
  - destruct v; try discriminate. eexists. reflexivity.
  - eexists. reflexivity.
Qed.

(** The details stored for a reply that follows the schema display. *)
Lemma display_valid_details (rt : runtime) (vr : StreamlitView.view_runtime)
      (d : dict) (c : option float) (now : pystr) :
  valid_response d = true ->
  snd (StreamlitView.display_details rt vr (stored_details d c now)) = Ok tt.
Proof.
  intros Hv.
  destruct (valid_response_fields d Hv) as [[p Hp] [Hfound [Hpreds [Hspec [Hprec Htyp]]]]].
  destruct (optional_str_get (py "specialist") (py "—") d Hspec) as [sp Hsp].
  apply (@display_details_ok rt vr (stored_details d c now) p sp);
    cbn [stored_details Streamlit.d_primary_disease Streamlit.d_specialist
         Streamlit.d_found_symptoms Streamlit.d_precautions
         Streamlit.d_typical_symptoms Streamlit.d_predictions].
  - unfold dict_get. rewrite Hp. reflexivity.
  - exact Hsp.
  - apply listlike_py_or, optional_listlike, Hfound.
  - apply listlike_py_or, optional_listlike, Hprec.
  - apply listlike_py_or, optional_listlike, Htyp.
  - unfold optional in Hpreds. unfold dict_get.
    destruct (dict_lookup (py "predictions") d) as [v|]; [|left; reflexivity].
    destruct v as [| | | | |items|]; try discriminate Hpreds.
    cbn [is_prediction_list] in Hpreds.
    destruct items as [|j items]; [left; reflexivity|].
    right. exists (j :: items). split; [reflexivity|exact Hpreds].
Qed.

(** A chat turn whose request fails, or is answered as the interface
    documents, leaves a transcript that the history loop can display: if
    the messages displayed without an exception before the turn, the
    messages after it (the old ones, the user's and the one the handler
    added) do so too. *)
Theorem foreseen_turn_stays_displayable (rt : runtime) (vr : StreamlitView.view_runtime)
        (w : world) (api_url text : pystr) (top_k : Z)
        (msgs : list Streamlit.message) (raw : option json) :
  is_empty text = false ->
  foreseen (backend w (predict_request api_url text top_k)) ->
  displayable rt vr msgs ->
  exists m raw',
    final_state (run w (session msgs raw)
                   (Streamlit.chat_input_handler rt api_url top_k (Some text)))
    = session (msgs ++ [user_message text; m]) raw' /\
    displayable rt vr (msgs ++ [user_message text; m]).
Proof.
  intros Hne [[e Hfail]|[d [r [Hb [Hs [Hj Hv]]]]]] Hmsgs.
  - destruct (request_failure_raises Hfail) as [Hres Hreq].
    exists (assistant_message (Streamlit.error_text api_url e)), raw.
    rewrite (chat_input_request_error rt w api_url text top_k msgs raw Hne Hres Hreq).
    split; [reflexivity|]. unfold displayable.
    rewrite <- (app_nil_r [user_message text; _]).
    rewrite (@display_history_two rt vr msgs [] text _ Hmsgs).
    unfold assistant_message. rewrite display_plain_message. reflexivity.
  - destruct (valid_response_fields d Hv) as [[p Hp] [Hfound _]].
    assert (predict_result (backend w (predict_request api_url text top_k)) = Ok (JObj d))
      as Hres by (rewrite Hb; exact (predict_result_success r Hs Hj)).
    destruct (@chat_input_object_reply rt w api_url text top_k msgs raw d _ Hne Hres
                (@streamlit_summary_valid rt d p Hp Hfound)) as [c Hrun].
    exists (reply_message (summary_text p d) (stored_details d c (utcnow w))),
           (Some (JObj d)).
    rewrite Hrun. split; [reflexivity|]. unfold displayable.
    rewrite <- (app_nil_r [user_message text; _]).
    rewrite (@display_history_two rt vr msgs [] text _ Hmsgs).
    rewrite display_reply_message, (@display_valid_details rt vr d c (utcnow w) Hv).
    reflexivity.
Qed.

Lemma foreseen_turn_witness :
  is_empty (py "toux") = false /\
  foreseen (backend (backend_replying (Decoded cold_reply))
              (predict_request (py "http://h") (py "toux") 3)) /\
  displayable plain_runtime plain_view_runtime [Streamlit.greeting] /\
  exists m raw',
    final_state (run (backend_replying (Decoded cold_reply))
                   (session [Streamlit.greeting] None)
                   (Streamlit.chat_input_handler plain_runtime (py "http://h") 3
                      (Some (py "toux"))))
    = session ([Streamlit.greeting] ++ [user_message (py "toux"); m]) raw' /\
    displayable plain_runtime plain_view_runtime
      ([Streamlit.greeting] ++ [user_message (py "toux"); m]).
Proof.
  assert (foreseen (backend (backend_replying (Decoded cold_reply))
                      (predict_request (py "http://h") (py "toux") 3))) as Hf.
  { right. exists cold_fields. eexists. split; [reflexivity|].
    split; [left; cbn; lia|]. split; [reflexivity|]. vm_compute. reflexivity. }
  split; [reflexivity|]. split; [exact Hf|]. split; [reflexivity|].
  exact (@foreseen_turn_stays_displayable plain_runtime plain_view_runtime
           (backend_replying (Decoded cold_reply)) (py "http://h") (py "toux") 3%Z
           [Streamlit.greeting] None eq_refl Hf eq_refl).
Defined.

Lemma escape_value_not_str (v : json) :
  is_str v = false ->
  StreamlitView.escape_value v
  = Raise (AttributeError (py "'" ++ type_name v ++ py "' object has no attribute 'replace'")).
Proof. destruct v; try reflexivity. discriminate. Qed.

(** When the backend answers with an object whose [primary_disease] is not
    a string (a number, [null], a list), the chat handler still stores the
    reply with its summary and asks for a rerun, and from then on the
    history loop raises [AttributeError] at that message, whatever is
    appended later: the chat tab stays broken until the conversation is
    cleared. *)
Theorem non_string_disease_breaks_history (rt : runtime) (vr : StreamlitView.view_runtime)
        (w : world) (api_url text : pystr) (top_k : Z)
        (msgs : list Streamlit.message) (raw : option json)
        (d : dict) (v : json) (summary : pystr) :
  is_empty text = false ->
  predict_result (backend w (predict_request api_url text top_k)) = Ok (JObj d) ->
  dict_lookup (py "primary_disease") d = Some v ->
  is_str v = false ->
  Streamlit.format_assistant_summary rt (JObj d) = Ok summary ->
  displayable rt vr msgs ->
  exists m,
    run w (session msgs raw) (Streamlit.chat_input_handler rt api_url top_k (Some text))
    = (session (msgs ++ [user_message text; m]) (Some (JObj d)),
       Raise Streamlit.RerunException,
       [predict_request api_url text top_k]) /\
    forall later,
      snd (StreamlitView.display_history rt vr (msgs ++ [user_message text; m] ++ later))
      = Raise (AttributeError
                 (py "'" ++ type_name v ++ py "' object has no attribute 'replace'")).
Proof.
  intros Hne Hres Hp Hv Hsum Hmsgs.
  destruct (@chat_input_object_reply rt w api_url text top_k msgs raw d summary
              Hne Hres Hsum) as [c Hrun].
  exists (reply_message summary (stored_details d c (utcnow w))).
  split; [exact Hrun|]. intros later.
  rewrite (@display_history_two rt vr msgs later text _ Hmsgs), display_reply_message.
  unfold StreamlitView.display_details.
  cbn [stored_details Streamlit.d_primary_disease]. cbv zeta.
  do 3 view_step. rewrite view_bind_result.
  unfold dict_get. rewrite Hp, (@escape_value_not_str v Hv). reflexivity.
Qed.

Lemma non_string_disease_witness :
  is_empty (py "toux") = false /\
  predict_result (backend (backend_replying (Decoded (JObj unknown_disease_fields)))
                    (predict_request (py "http://h") (py "toux") 3))
  = Ok (JObj unknown_disease_fields) /\
  dict_lookup (py "primary_disease") unknown_disease_fields = Some JNull /\
  is_str JNull = false /\
  Streamlit.format_assistant_summary plain_runtime (JObj unknown_disease_fields)
  = Ok (py "**Résultat :** None" ++ nl ++ nl ++ py "**Symptômes détectés :** cough") /\
  displayable plain_runtime plain_view_runtime [Streamlit.greeting] /\
  exists m,
    run (backend_replying (Decoded (JObj unknown_disease_fields)))
      (session [Streamlit.greeting] None)
      (Streamlit.chat_input_handler plain_runtime (py "http://h") 3 (Some (py "toux")))
    = (session ([Streamlit.greeting] ++ [user_message (py "toux"); m])
         (Some (JObj unknown_disease_fields)),
       Raise Streamlit.RerunException,
       [predict_request (py "http://h") (py "toux") 3]) /\
    forall later,
      snd (StreamlitView.display_history plain_runtime plain_view_runtime
             ([Streamlit.greeting] ++ [user_message (py "toux"); m] ++ later))
      = Raise (AttributeError
                 (py "'" ++ type_name JNull ++ py "' object has no attribute 'replace'")).
Proof.
  assert (Streamlit.format_assistant_summary plain_runtime (JObj unknown_disease_fields)
          = Ok (py "**Résultat :** None" ++ nl ++ nl ++ py "**Symptômes détectés :** cough"))
    as Hsum by (vm_compute; reflexivity).
  split; [reflexivity|]. split; [reflexivity|]. split; [reflexivity|].
  split; [reflexivity|]. split; [exact Hsum|]. split; [reflexivity|].
  exact (@non_string_disease_breaks_history plain_runtime plain_view_runtime
           (backend_replying (Decoded (JObj unknown_disease_fields)))
           (py "http://h") (py "toux") 3%Z [Streamlit.greeting] None
           unknown_disease_fields JNull _
           eq_refl eq_refl eq_refl eq_refl Hsum eq_refl).
Defined.


(* ================================================================= *)
(** ** Values of [primary_disease] the Gradio handler accepts *)


(** [on_send] formats [primary_disease] and [specialist] with [str]: when
    the lists of the reply can be read, it returns whatever these two
    fields hold, keeps the raw reply, and the bot half of the turn it adds
    is the summary the Streamlit front-end computes for the same reply. *)
Theorem on_send_accepts_any_disease (rt : runtime) (w : world)
        (user_text api_url : option pystr) (top_k : Z)
        (history : option (list Gradio.turn)) (d : dict) :
  is_empty (strip (or_empty user_text)) = false ->
  predict_result (backend w (gradio_send_request user_text api_url top_k)) = Ok (JObj d) ->
  optional is_str_list (py "found_symptoms") d = true ->
  listlike (dict_get d (py "precautions") (JArr [])) = true ->
  listlike (dict_get d (py "typical_symptoms") (JArr [])) = true ->
  predictions_well_shaped d = true ->
  exists outs msg,
    outcome (run w tt (Gradio.on_send rt user_text api_url top_k history)) = Ok outs /\
    Streamlit.format_assistant_summary rt (JObj d) = Ok msg /\
    Gradio.s_chatbot outs = or_nil history ++ [(strip (or_empty user_text), msg)] /\
    Gradio.s_last_raw outs = Some (JObj d).
Proof.
  intros Hne Hres Hfound Hprec Htyp Hpreds.
  destruct (build_details_html_run (S := unit) rt w tt d
              (optional_listlike _ _ Hfound) Hprec Htyp) as [details Hd].
  destruct (predictions_to_df_returns rt d Hpreds) as [df Hdf].
  unfold Gradio.on_send. cbv zeta. rewrite Hne.
  rewrite run_try_except, run_bind, gradio_post_predict_run.
  fold (gradio_send_request user_text api_url top_k).
  rewrite Hres. cbn [py_get lift bind]. rewrite lift_if.
  pose proof (found_str_valid d Hfound) as Ef. cbv zeta in Ef. rewrite Ef.
  cbn [lift bind]. fold (or_nil history). rewrite set_last_snoc. cbn [lift bind].
  rewrite run_bind, Hd, Hdf. cbn [lift bind run app outcome fst snd].
  do 2 eexists. split; [reflexivity|].
  split; [exact (streamlit_summary_lists rt d Hfound)|]. split; reflexivity.
Qed.

Lemma on_send_accepts_witness :
  is_empty (strip (or_empty (Some (py "toux")))) = false /\
  predict_result (backend (backend_replying (Decoded (JObj unknown_disease_fields)))
                    (gradio_send_request (Some (py "toux")) (Some (py "http://h")) 3))
  = Ok (JObj unknown_disease_fields) /\
  optional is_str_list (py "found_symptoms") unknown_disease_fields = true /\
  listlike (dict_get unknown_disease_fields (py "precautions") (JArr [])) = true /\
  listlike (dict_get unknown_disease_fields (py "typical_symptoms") (JArr [])) = true /\
  predictions_well_shaped unknown_disease_fields = true /\
  exists outs msg,
    outcome (run (backend_replying (Decoded (JObj unknown_disease_fields))) tt
               (Gradio.on_send plain_runtime (Some (py "toux")) (Some (py "http://h")) 3 None))
    = Ok outs /\
    Streamlit.format_assistant_summary plain_runtime (JObj unknown_disease_fields) = Ok msg /\
    Gradio.s_chatbot outs = or_nil None ++ [(strip (or_empty (Some (py "toux"))), msg)] /\
    Gradio.s_last_raw outs = Some (JObj unknown_disease_fields).
Proof.
  split; [vm_compute; reflexivity|]. split; [vm_compute; reflexivity|].
  split; [vm_compute; reflexivity|]. split; [vm_compute; reflexivity|].
  split; [vm_compute; reflexivity|]. split; [vm_compute; reflexivity|].
  refine (@on_send_accepts_any_disease plain_runtime
            (backend_replying (Decoded (JObj unknown_disease_fields)))
            (Some (py "toux")) (Some (py "http://h")) 3%Z None unknown_disease_fields
            _ _ _ _ _ _); vm_compute; reflexivity.
Defined.

(* ================================================================= *)
(** ** The debug tab after a turn *)



(* ================================================================= *)
(** ** The headers of the two pages *)

Lemma py_ascii_cons (c : ascii) (s : string) :
  (N_of_ascii c <? 128)%N = true ->
  py (String c s) = N_of_ascii c :: py s.
Proof.
  intros H. unfold py. cbn [list_ascii_of_string List.map utf8_go]. rewrite H. reflexivity.
Qed.

Lemma uint_digits_no_markup (u : Decimal.uint) :
  markup_of (py (NilEmpty.string_of_uint u)) = [].
Proof.
  induction u; cbn [NilEmpty.string_of_uint]; [reflexivity|..];
    (rewrite py_ascii_cons by reflexivity; unfold markup_of in *; cbn [filter];
     cbn [N_of_ascii is_markup]; exact IHu).
Qed.

Lemma str_of_int_no_markup (n : Z) : markup_of (str_of_int n) = [].
Proof.
  unfold str_of_int, NilZero.string_of_int, NilZero.string_of_uint.
  destruct (Z.to_int n) as [u|u].
  - destruct u; try apply uint_digits_no_markup. reflexivity.
  - rewrite py_ascii_cons by reflexivity.
    change (markup_of (N_of_ascii "-" :: ?x)) with (markup_of x).
    destruct u; try apply uint_digits_no_markup. reflexivity.
Qed.

(** The headers of both pages escape the status text and print the top-k
    as a number: their tag skeleton is the same for every status text and
    every top-k. *)
Theorem headers_markup_fixed (ok : bool) (msg : pystr) (top_k : Z) :
  markup_of (Gradio.hero_block ok msg top_k) = markup_of (Gradio.hero_block ok [] 0)
  /\ markup_of (StreamlitView.header_html ok msg top_k)
     = markup_of (StreamlitView.header_html ok [] 0).
Proof.
  split.
  - unfold Gradio.hero_block, Gradio.status_badge, lines. cbn [join].
    rewrite !markup_of_app, !html_escape_no_markup, !str_of_int_no_markup. reflexivity.
  - unfold StreamlitView.header_html, lines. cbn [join].
    rewrite !markup_of_app, !html_escape_no_markup, !str_of_int_no_markup. reflexivity.
Qed.


(* ================================================================= *)
(** ** The detail panel *)

Lemma tags_html_blanked (rt : runtime) (items : list json) (variant : pystr) :
  exists h h0,
    Gradio.tags_html rt (JArr items) variant = Ok h /\
    Gradio.tags_html rt (JArr (blanked items)) variant = Ok h0 /\
    markup_of h = markup_of h0.
Proof.
  unfold Gradio.tags_html. destruct items as [|x items].
  - do 2 eexists. repeat split.
  - cbn [blanked List.map truthy negb py_iter]. do 2 eexists.
    split; [reflexivity|]. split; [reflexivity|].
    rewrite !markup_of_app, !markup_of_join_empty.
    f_equal. f_equal.
    exact (tag_spans_markup rt _ (x :: items)).
Qed.

Lemma list_items_markup (rt : runtime) (items : list json) :
  flat_map markup_of
    (List.map (fun p => py "<li>" ++ html_escape (py_str rt p) ++ py "</li>") items)
  = flat_map markup_of
      (List.map (fun p => py "<li>" ++ html_escape (py_str rt p) ++ py "</li>")
         (blanked items)).
Proof.
  induction items as [|x items IH]; [reflexivity|].
  cbn [blanked List.map flat_map]. fold (blanked items). rewrite IH. f_equal.
  rewrite !markup_of_app, !html_escape_no_markup. reflexivity.
Qed.

Lemma blank_lists_found (f p t : list json) :
  py_or (dict_get (blank_lists f p t) (py "found_symptoms") (JArr [])) (JArr [])
  = JArr (blanked f).
Proof. destruct f; vm_compute; reflexivity. Qed.

Lemma blank_lists_precautions (f p t : list json) :
  py_or (dict_get (blank_lists f p t) (py "precautions") (JArr [])) (JArr [])
  = JArr (blanked p).
Proof. destruct p; vm_compute; reflexivity. Qed.

Lemma blank_lists_typical (f p t : list json) :
  py_or (dict_get (blank_lists f p t) (py "typical_symptoms") (JArr [])) (JArr [])
  = JArr (blanked t).
Proof. destruct t; vm_compute; reflexivity. Qed.

(** The detail panel escapes everything it takes from the reply and from
    the clock: when the three lists of the reply can be read, the panel is
    built, and its tag skeleton is that of the panel built from three lists
    of empty strings of the same lengths, at any time.  So the disease, the
    specialist, the items and the timestamp cannot open or close a tag or
    an attribute. *)
Theorem details_panel_markup_fixed (rt : runtime) (w w0 : world) (d : dict)
        (found precautions typical : list json) :
  py_or (dict_get d (py "found_symptoms") (JArr [])) (JArr []) = JArr found ->
  py_or (dict_get d (py "precautions") (JArr [])) (JArr []) = JArr precautions ->
  py_or (dict_get d (py "typical_symptoms") (JArr [])) (JArr []) = JArr typical ->
  exists h h0,
    outcome (run w tt (Gradio.build_details_html rt (JObj d))) = Ok h /\
    outcome (run w0 tt (Gradio.build_details_html rt
                          (JObj (blank_lists found precautions typical)))) = Ok h0 /\
    markup_of h = markup_of h0.
Proof.
  intros Hf Hp Ht. unfold Gradio.build_details_html. cbn [py_get lift bind].
  rewrite Hf, Hp, Ht, blank_lists_found, blank_lists_precautions, blank_lists_typical.
  destruct (tags_html_blanked rt found (py "tag")) as [fh [fh0 [-> [-> Ef]]]].
  destruct (tags_html_blanked rt typical (py "tag2")) as [th [th0 [-> [-> Et]]]].
  assert (exists ph ph0,
             (if truthy (JArr precautions)
              then bind (lift (S := unit) (py_iter (JArr precautions)))
                     (fun ps => Ret (py "<ul>"
                        ++ join (py "")
                             (List.map (fun p => py "<li>" ++ html_escape (py_str rt p)
                                                   ++ py "</li>") ps)
                        ++ py "</ul>"))
              else Ret (py "<span class='muted'>—</span>")) = Ret ph /\
             (if truthy (JArr (blanked precautions))
              then bind (lift (S := unit) (py_iter (JArr (blanked precautions))))
                     (fun ps => Ret (py "<ul>"
                        ++ join (py "")
                             (List.map (fun p => py "<li>" ++ html_escape (py_str rt p)
                                                   ++ py "</li>") ps)
                        ++ py "</ul>"))
              else Ret (py "<span class='muted'>—</span>")) = Ret ph0 /\
             markup_of ph = markup_of ph0) as [ph [ph0 [Ep [Ep0 Em]]]].
  { destruct precautions as [|x ps].
    - do 2 eexists. repeat split.
    - cbn [blanked List.map truthy py_iter lift bind]. do 2 eexists.
      split; [reflexivity|]. split; [reflexivity|].
      rewrite !markup_of_app, !markup_of_join_empty. f_equal. f_equal.
      exact (list_items_markup rt (x :: ps)). }
  rewrite Ep, Ep0. cbn [lift bind utcnow_isoformat run outcome fst snd].
  do 2 eexists. split; [reflexivity|]. split; [reflexivity|].
  unfold lines. cbn [join].
  rewrite !markup_of_app, !html_escape_no_markup, Ef, Et, Em. reflexivity.
Qed.

Lemma details_panel_witness :
  py_or (dict_get cold_fields (py "found_symptoms") (JArr [])) (JArr [])
  = JArr [JStr (py "high_fever"); JStr (py "cough"); JStr (py "fatigue")] /\
  py_or (dict_get cold_fields (py "precautions") (JArr [])) (JArr [])
  = JArr [JStr (py "Repos"); JStr (py "Hydratation")] /\
  py_or (dict_get cold_fields (py "typical_symptoms") (JArr [])) (JArr [])
  = JArr [JStr (py "cough"); JStr (py "runny_nose")] /\
  exists h h0,
    outcome (run backend_down tt (Gradio.build_details_html plain_runtime (JObj cold_fields)))
    = Ok h /\
    outcome (run backend_down tt
               (Gradio.build_details_html plain_runtime
                  (JObj (blank_lists
                           [JStr (py "high_fever"); JStr (py "cough"); JStr (py "fatigue")]
                           [JStr (py "Repos"); JStr (py "Hydratation")]
                           [JStr (py "cough"); JStr (py "runny_nose")])))) = Ok h0 /\
    markup_of h = markup_of h0.
Proof.
  split; [vm_compute; reflexivity|]. split; [vm_compute; reflexivity|].
  split; [vm_compute; reflexivity|].
  refine (@details_panel_markup_fixed plain_runtime backend_down backend_down cold_fields
            _ _ _ _ _ _); vm_compute; reflexivity.
Defined.
